(** * Janet's budget app: the client/cloud reconciliation logic

    A shallow embedding of the data handling of the budget application
    (class [BudgetApp] of the main script, its older copies, and the
    [SupabaseSync] client), with the properties of its merge, load,
    export/import and data-entry operations.

    Conventions of the embedding.
    - JavaScript values are the tree type [JsVal]; objects are finite maps
      from property names to values (own data properties only: the inherited
      properties of the built-in prototypes are not part of the model, and
      none of the modelled code reads one).
    - A number is represented by the value it denotes: [NaN], an infinity,
      or a rational.  No arithmetic on numbers is used by the modelled code,
      only comparison with zero, equality and conversion to a time value.
    - A thrown exception is the [Throw] case of [Completion].
    - Two array or object values are never the same reference (collections
      read from storage and from the cloud are parsed separately), so
      [strictEq] and [sameValueZero] hold between primitives only.  Where
      one array meets itself (a collection merged with itself), a key that
      is an array or an object would be the same reference on both sides:
      such keys are outside the model, and the property is stated for keys
      that are primitive values.
    - Presentation calls (DOM updates, alerts, console output, file
      download plumbing) are outside the model. *)

From stdpp Require Import gmap strings list fin_maps pretty.
From Stdlib Require Import Ascii QArith.QArith_base QArith.Qcanon.
Close Scope Qc_scope.
Close Scope Q_scope.
#[local] Set Warnings "-register-all".
#[local] Open Scope Z_scope.

(** ** JavaScript values *)

Inductive JsNumber :=
| NaN
| Inf (negative : bool)
| Fin (q : Qc).

Inductive JsVal :=
| JUndefined
| JNull
| JBool (b : bool)
| JNum (n : JsNumber)
| JStr (s : string)
| JArr (items : list JsVal)
| JObj (props : gmap string JsVal).

Definition num (z : Z) : JsVal := JNum (Fin (Qc_of_Z z)).

Inductive JsError :=
| TypeError
| SyntaxError
| DOMException
| InvalidDataFormat.

Inductive Completion (A : Type) :=
| Normal (a : A)
| Throw (e : JsError).
Arguments Normal {A} a.
Arguments Throw {A} e.

#[global] Instance Completion_ret : MRet Completion := fun A a => Normal a.
#[global] Instance Completion_bind : MBind Completion := fun A B f c =>
  match c with
  | Normal a => f a
  | Throw e => Throw e
  end.

(** [try { c } catch { h }] for a computation without side effects. *)
Definition tryCatch {A} (c : Completion A) (h : A) : A :=
  match c with
  | Normal a => a
  | Throw _ => h
  end.

Definition isZero (q : Qc) : bool := bool_decide (q = Qc_of_Z 0).

(** ToBoolean. *)
Definition truthy (v : JsVal) : bool :=
  match v with
  | JUndefined | JNull => false
  | JBool b => b
  | JNum NaN => false
  | JNum (Inf _) => true
  | JNum (Fin q) => negb (isZero q)
  | JStr s => negb (String.eqb s "")
  | JArr _ | JObj _ => true
  end.

(** [a || b] *)
Definition jsOr (a b : JsVal) : JsVal := if truthy a then a else b.

Definition numEq (a b : JsNumber) : bool :=
  match a, b with
  | Fin p, Fin q => bool_decide (p = q)
  | Inf s, Inf t => eqb s t
  | _, _ => false
  end.

(** [a === b] *)
Definition strictEq (a b : JsVal) : bool :=
  match a, b with
  | JUndefined, JUndefined => true
  | JNull, JNull => true
  | JBool x, JBool y => eqb x y
  | JNum x, JNum y => numEq x y
  | JStr x, JStr y => String.eqb x y
  | _, _ => false
  end.

(** SameValueZero, the equality of [Set.prototype.has]: as [===], but
    [NaN] is equal to itself. *)
Definition sameValueZero (a b : JsVal) : bool :=
  match a, b with
  | JNum NaN, JNum NaN => true
  | _, _ => strictEq a b
  end.

Definition isArrayIndex (p : string) (len : nat) : option nat :=
  List.find (fun i => String.eqb (pretty i) p) (seq 0 len).

Definition chars (s : string) : list JsVal :=
  map (fun a => JStr (String a EmptyString)) (String.list_ascii_of_string s).

Definition elementProp (l : list JsVal) (p : string) : JsVal :=
  if String.eqb p "length" then num (Z.of_nat (length l))
  else match isArrayIndex p (length l) with
       | Some i => default JUndefined (l !! i)
       | None => JUndefined
       end.

(** [v[p]] and [v.p]: reading a property throws on [undefined] and [null]. *)
Definition getProp (v : JsVal) (p : string) : Completion JsVal :=
  match v with
  | JUndefined | JNull => Throw TypeError
  | JObj m => Normal (default JUndefined (m !! p))
  | JArr l => Normal (elementProp l p)
  | JStr s => Normal (elementProp (chars s) p)
  | JBool _ | JNum _ => Normal JUndefined
  end.

Definition indexed (l : list JsVal) : gmap string JsVal :=
  list_to_map (imap (fun i x => (pretty i, x)) l).

(** The own enumerable properties copied by [{ ...v }]. *)
Definition objSpread (v : JsVal) : gmap string JsVal :=
  match v with
  | JObj m => m
  | JArr l => indexed l
  | JStr s => indexed (chars s)
  | _ => ∅
  end.

Definition isArray (v : JsVal) : bool :=
  match v with JArr _ => true | _ => false end.

Definition isRecord (v : JsVal) : bool :=
  match v with JObj _ => true | _ => false end.

(** [typeof v === 'object'] *)
Definition typeofObject (v : JsVal) : bool :=
  match v with JNull | JArr _ | JObj _ => true | _ => false end.

(** The property [p] of a record, [undefined] when it has none. *)
Definition field (p : string) (item : JsVal) : JsVal :=
  match item with
  | JObj m => default JUndefined (m !! p)
  | _ => JUndefined
  end.

Definition obj (l : list (string * JsVal)) : JsVal := JObj (list_to_map l).

Definition strings (l : list string) : JsVal := JArr (JStr <$> l).

(** [a.push(x)] *)
Definition push (a x : JsVal) : Completion JsVal :=
  match a with
  | JArr l => Normal (JArr (l ++ [x]))
  | _ => Throw TypeError
  end.

(** [Object.keys(v)] throws on [undefined] and [null]. *)
Definition objectKeys (v : JsVal) : Completion (list string) :=
  match v with
  | JUndefined | JNull => Throw TypeError
  | _ => Normal (fst <$> map_to_list (objSpread v))
  end.

Definition isUndefined (v : JsVal) : bool :=
  match v with JUndefined => true | _ => false end.

(** ** The [Date] constructor *)

(** TimeClip: a finite number within 8.64e15 ms of the epoch, truncated
    towards zero. *)
Definition timeClip (n : JsNumber) : option Z :=
  match n with
  | Fin q =>
      let (numerator, denominator) := Qcanon.this q in
      if bool_decide (Z.abs numerator ≤ 8640000000000000 * Zpos denominator)
      then Some (Z.quot numerator (Zpos denominator)) else None
  | _ => None
  end.

(** Calendar dates [YYYY-MM-DD]: UTC midnight of that day, in milliseconds
    since the epoch. *)
Definition digitOf (a : ascii) : option Z :=
  let n := Z.of_nat (nat_of_ascii a) in
  if bool_decide (48 ≤ n ≤ 57) then Some (n - 48) else None.

Definition isLeap (y : Z) : bool :=
  bool_decide (y mod 4 = 0) && (negb (bool_decide (y mod 100 = 0)) || bool_decide (y mod 400 = 0)).

Definition daysInMonth (y m : Z) : Z :=
  if bool_decide (m = 2) then (if isLeap y then 29 else 28)
  else if bool_decide (m = 4 ∨ m = 6 ∨ m = 9 ∨ m = 11) then 30 else 31.

Definition daysFromCivil (y m d : Z) : Z :=
  let y' := if bool_decide (m ≤ 2) then y - 1 else y in
  let era := y' `div` 400 in
  let yoe := y' - era * 400 in
  let doy := (153 * (if bool_decide (2 < m) then m - 3 else m + 9) + 2) `div` 5 + d - 1 in
  let doe := yoe * 365 + yoe `div` 4 - yoe `div` 100 + doy in
  era * 146097 + doe - 719468.

Definition isoDate (s : string) : option Z :=
  match String.list_ascii_of_string s with
  | [y1; y2; y3; y4; h1; m1; m2; h2; d1; d2] =>
      if bool_decide (h1 = "-"%char ∧ h2 = "-"%char) then
        a ← digitOf y1; b ← digitOf y2; c ← digitOf y3; d ← digitOf y4;
        e ← digitOf m1; f ← digitOf m2; g ← digitOf d1; h ← digitOf d2;
        let y := 1000 * a + 100 * b + 10 * c + d in
        let m := 10 * e + f in
        let dd := 10 * g + h in
        if bool_decide (1 ≤ m ≤ 12 ∧ 1 ≤ dd ≤ daysInMonth y m)
        then Some (daysFromCivil y m dd * 86400000) else None
      else None
  | _ => None
  end.

(** A reference host for examples and counterexamples: the time value of
    [new Date(v)] where numbers go through TimeClip and strings are read as
    calendar dates; every other string, and every array or object, is taken
    as an invalid date.  The theorems do not depend on it: they hold for
    whatever the host's [Date] constructor computes. *)
Definition hostDate (v : JsVal) : option Z :=
  match v with
  | JStr s => isoDate s
  | JNum n => timeClip n
  | JBool b => Some (if b then 1 else 0)
  | JNull => Some 0
  | _ => None
  end.

(** [a > b] on two [Date] objects: false when either is invalid. *)
Definition dateGt (a b : option Z) : bool :=
  match a, b with
  | Some x, Some y => bool_decide (y < x)
  | _, _ => false
  end.

(** ** JSON text and browser storage *)

(** The value that [JSON.parse(JSON.stringify(v))] returns: numbers that
    are not finite become [null], [undefined] becomes [null] inside an array
    and is left out of an object. *)
Fixpoint toJSON (v : JsVal) : JsVal :=
  match v with
  | JNum NaN | JNum (Inf _) => JNull
  | JArr l => JArr (map (fun x => if isUndefined x then JNull else toJSON x) l)
  | JObj m => JObj (omap (fun x => if isUndefined x then None else Some (toJSON x)) m)
  | _ => v
  end.

(** A string, as far as the program can tell strings apart: the program
    only hands stored strings to [JSON.parse] and tests them for emptiness.
    [JsonText v] is a JSON text that parses to [v]; [RawText s] is the
    string [s], which is not a JSON text. *)
Inductive Text :=
| JsonText (v : JsVal)
| RawText (s : string).

Definition JSON_parse (t : Text) : Completion JsVal :=
  match t with
  | JsonText v => Normal v
  | RawText _ => Throw SyntaxError
  end.

(** [JSON.stringify(v)], converted to a string as [setItem] and [Blob] do:
    for [undefined] the result is [undefined], stored as the string
    ["undefined"]. *)
Definition JSON_stringify (v : JsVal) : Text :=
  match v with
  | JUndefined => RawText "undefined"
  | _ => JsonText (toJSON v)
  end.

(** ToBoolean of a string: a JSON text is never empty. *)
Definition textTruthy (t : Text) : bool :=
  match t with
  | JsonText _ => true
  | RawText s => negb (String.eqb s "")
  end.

(** A [Storage] object.  [getItem] throws when the storage cannot be read
    (access denied), [setItem] when it cannot be written (denied or full). *)
Record Storage := {
  entries : gmap string Text;
  readable : bool;
  writable : bool
}.

Definition getItem (st : Storage) (key : string) : Completion (option Text) :=
  if readable st then Normal (entries st !! key) else Throw DOMException.

Definition setItem (st : Storage) (key : string) (t : Text) : Completion Storage :=
  if writable st
  then Normal {| entries := <[key := t]> (entries st);
                 readable := readable st; writable := writable st |}
  else Throw DOMException.

(** ** The sync reconciler: [mergeArrayData] *)

Definition setHas (keys : list JsVal) (k : JsVal) : bool :=
  existsb (sameValueZero k) keys.

Fixpoint findIndexFrom (p : JsVal → Completion bool) (l : list JsVal) (i : nat)
  : Completion (option nat) :=
  match l with
  | [] => Normal None
  | x :: l' =>
      b ← p x;
      if b : bool then Normal (Some i) else findIndexFrom p l' (S i)
  end.

(** [l.findIndex(p)]; [None] stands for the result [-1]. *)
Definition findIndex (p : JsVal → Completion bool) (l : list JsVal) : Completion (option nat) :=
  findIndexFrom p l 0%nat.

(** [l.forEach(c => ...)] over an accumulator that the callback updates. *)
Fixpoint forEach {S} (step : S → JsVal → Completion S) (l : list JsVal) (s : S) : Completion S :=
  match l with
  | [] => Normal s
  | c :: l' => s' ← step s c; forEach step l' s'
  end.

Section Reconciler.

(** The time value of [new Date(v)], [None] for an invalid date. *)
Variable newDate : JsVal → option Z.

(** [new Date(item.timestamp || item.date || 0)] *)
Definition itemTime (item : JsVal) : Completion (option Z) :=
  ts ← getProp item "timestamp";
  d ← getProp item "date";
  mret (newDate (jsOr (jsOr ts d) (num 0))).

Definition mergeStep (keyField : string) (localKeys : list JsVal)
    (merged : list JsVal) (cloudItem : JsVal) : Completion (list JsVal) :=
  k ← getProp cloudItem keyField;
  if negb (setHas localKeys k) then
    (* New item from cloud *)
    mret (merged ++ [cloudItem])
  else
    (* Conflict resolution: use the most recent timestamp *)
    localIndex ← findIndex (fun item => k' ← getProp item keyField; mret (strictEq k' k)) merged;
    let localItem := default JUndefined (i ← localIndex; merged !! i) in
    cloudTime ← itemTime cloudItem;
    localTime ← itemTime localItem;
    if dateGt cloudTime localTime then
      match localIndex with
      | Some i => mret (<[i := cloudItem]> merged)
      | None => mret merged
      end
    else mret merged.

Definition mergeArrayData (localArray cloudArray : JsVal) (keyField : string)
  : Completion JsVal :=
  match localArray with
  | JArr localItems =>
      let merged := localItems in
      localKeys ← mapM (fun item => getProp item keyField) localItems;
      match cloudArray with
      | JArr cloudItems =>
          merged ← forEach (mergeStep keyField localKeys) cloudItems merged;
          mret (JArr merged)
      | _ => Throw TypeError
      end
  | _ => Throw TypeError
  end.

End Reconciler.

(** ** The application state and its methods *)

Record BudgetApp := {
  transactions : JsVal;
  budgets : JsVal;
  settings : JsVal;
  categories : JsVal;
  cloudSyncEnabled : bool;
  lastCloudSync : JsVal
}.

Record World := {
  app : BudgetApp;
  localStorage : Storage;
  sessionStorage : Storage
}.

(** A method of the application: it may change the world and may throw;
    what it changed before throwing stays changed. *)
Definition Action (A : Type) : Type := World → Completion A * World.

#[global] Instance Action_ret : MRet Action := fun A a w => (Normal a, w).
#[global] Instance Action_bind : MBind Action := fun A B f c w =>
  match c w with
  | (Normal a, w') => f a w'
  | (Throw e, w') => (Throw e, w')
  end.

Definition lift {A} (c : Completion A) : Action A := fun w => (c, w).

(** Reading a field of [this]. *)
Definition read {A} (f : BudgetApp → A) : Action A := fun w => (Normal (f (app w)), w).

Definition tryCatchDo {A} (body handler : Action A) : Action A := fun w =>
  match body w with
  | (Throw _, w') => handler w'
  | r => r
  end.

Definition updateApp (f : BudgetApp → BudgetApp) : Action unit := fun w =>
  (Normal (), {| app := f (app w); localStorage := localStorage w;
                 sessionStorage := sessionStorage w |}).

Definition setTransactions (v : JsVal) : Action unit :=
  updateApp (fun a => {| transactions := v; budgets := budgets a; settings := settings a;
                         categories := categories a; cloudSyncEnabled := cloudSyncEnabled a;
                         lastCloudSync := lastCloudSync a |}).
Definition setBudgets (v : JsVal) : Action unit :=
  updateApp (fun a => {| transactions := transactions a; budgets := v; settings := settings a;
                         categories := categories a; cloudSyncEnabled := cloudSyncEnabled a;
                         lastCloudSync := lastCloudSync a |}).
Definition setSettings (v : JsVal) : Action unit :=
  updateApp (fun a => {| transactions := transactions a; budgets := budgets a; settings := v;
                         categories := categories a; cloudSyncEnabled := cloudSyncEnabled a;
                         lastCloudSync := lastCloudSync a |}).
Definition setCategories (v : JsVal) : Action unit :=
  updateApp (fun a => {| transactions := transactions a; budgets := budgets a;
                         settings := settings a; categories := v;
                         cloudSyncEnabled := cloudSyncEnabled a;
                         lastCloudSync := lastCloudSync a |}).
Definition setLastCloudSync (v : JsVal) : Action unit :=
  updateApp (fun a => {| transactions := transactions a; budgets := budgets a;
                         settings := settings a; categories := categories a;
                         cloudSyncEnabled := cloudSyncEnabled a; lastCloudSync := v |}).

Definition localGetItem (key : string) : Action (option Text) := fun w =>
  (getItem (localStorage w) key, w).
Definition sessionGetItem (key : string) : Action (option Text) := fun w =>
  (getItem (sessionStorage w) key, w).

Definition localSetItem (key : string) (t : Text) : Action unit := fun w =>
  match setItem (localStorage w) key t with
  | Normal st => (Normal (), {| app := app w; localStorage := st;
                                sessionStorage := sessionStorage w |})
  | Throw e => (Throw e, w)
  end.
Definition sessionSetItem (key : string) (t : Text) : Action unit := fun w =>
  match setItem (sessionStorage w) key t with
  | Normal st => (Normal (), {| app := app w; localStorage := localStorage w;
                                sessionStorage := st |})
  | Throw e => (Throw e, w)
  end.

Definition defaultSettings : JsVal :=
  obj [("lowBalanceThreshold", num 100); ("overspendingAlert", num 80);
       ("enableNotifications", JBool false)].

Definition defaultCategories : JsVal :=
  obj [("income", strings ["Salary"; "Freelance"; "Investment"; "Gift"; "Other"]);
       ("expense", strings ["Food"; "Transportation"; "Entertainment"; "Bills";
                            "Shopping"; "Healthcare"; "Other"])].

(** [data ? JSON.parse(data) : dflt], for the result [data] of [getItem]. *)
Definition parseOr (data : option Text) (dflt : JsVal) : Completion JsVal :=
  match data with
  | Some t => if textTruthy t then JSON_parse t else Normal dflt
  | None => Normal dflt
  end.

Definition initializeDefaultData : Action unit :=
  setTransactions (JArr []);;
  setBudgets (JObj ∅);;
  setSettings defaultSettings;;
  setCategories defaultCategories.

(** The [try] block of [loadData]. *)
Definition loadFromLocalStorage : Action unit :=
  transactionsData ← localGetItem "budgetApp_transactions";
  t ← lift (parseOr transactionsData (JArr []));
  setTransactions t;;
  budgetsData ← localGetItem "budgetApp_budgets";
  b ← lift (parseOr budgetsData (JObj ∅));
  setBudgets b;;
  settingsData ← localGetItem "budgetApp_settings";
  s ← lift (parseOr settingsData defaultSettings);
  setSettings s;;
  categoriesData ← localGetItem "budgetApp_categories";
  c ← lift (parseOr categoriesData defaultCategories);
  setCategories c;;
  (* the arguments of the console.log call *)
  ts ← read transactions;
  _ ← lift (getProp ts "length");
  bs ← read budgets;
  _ ← lift (objectKeys bs);
  _ ← localGetItem "budgetApp_lastSave";
  mret ().

(** The [catch] block of [loadData]: the session storage as a fallback. *)
Definition loadFromSessionStorage : Action unit :=
  tryCatchDo
    (transactionsData ← sessionGetItem "budgetApp_transactions";
     match transactionsData with
     | Some data =>
         if textTruthy data
         then (t ← lift (JSON_parse data); setTransactions t)
         else initializeDefaultData
     | None => initializeDefaultData
     end)
    initializeDefaultData.

Definition loadData : Action unit :=
  tryCatchDo loadFromLocalStorage loadFromSessionStorage.

(** [saveData]: the four collections are written to the local storage, to
    the session storage when that fails.  The cloud sync that [saveData]
    starts in the background when cloud sync is enabled is a sync cycle of
    its own ([performCloudSync] below) and not part of the call; with the
    client that the script creates ([newSupabaseSync] below) that cycle
    stops at its download and changes nothing. *)
Definition saveData (now : string) : Action unit :=
  tryCatchDo
    (a ← read id;
     localSetItem "budgetApp_transactions" (JSON_stringify (transactions a));;
     localSetItem "budgetApp_budgets" (JSON_stringify (budgets a));;
     localSetItem "budgetApp_settings" (JSON_stringify (settings a));;
     localSetItem "budgetApp_categories" (JSON_stringify (categories a));;
     localSetItem "budgetApp_lastSave" (RawText now))
    (tryCatchDo
       (a ← read id;
        sessionSetItem "budgetApp_transactions" (JSON_stringify (transactions a));;
        sessionSetItem "budgetApp_budgets" (JSON_stringify (budgets a));;
        sessionSetItem "budgetApp_settings" (JSON_stringify (settings a));;
        sessionSetItem "budgetApp_categories" (JSON_stringify (categories a)))
       (mret ())).

(** [clearAllData]; [confirmed] is the user's answer to the [confirm] dialog. *)
Definition clearAllData (confirmed : bool) (now : string) : Action unit :=
  if confirmed then
    setTransactions (JArr []);;
    setBudgets (JObj ∅);;
    setSettings defaultSettings;;
    saveData now
  else mret ().

Definition APP_VERSION : string := "1.2.0".

(** [exportData]: the content of the downloaded file. *)
Definition exportData (now : string) : Action Text :=
  a ← read id;
  let data := obj [("transactions", transactions a); ("budgets", budgets a);
                   ("settings", settings a); ("categories", categories a);
                   ("exportDate", JStr now); ("version", JStr APP_VERSION)] in
  mret (JSON_stringify data).

Definition validateImportedData (data : JsVal) : Completion bool :=
  if negb (truthy data) || negb (typeofObject data) then mret false else
  ts ← getProp data "transactions";
  if negb (isArray ts) then mret false else
  bs ← getProp data "budgets";
  if truthy bs && negb (typeofObject bs) then mret false else
  ss ← getProp data "settings";
  if truthy ss && negb (typeofObject ss) then mret false else
  cs ← getProp data "categories";
  if truthy cs && negb (typeofObject cs) then mret false else
  mret true.

(** [importData], from the chosen file's content ([None]: no file chosen). *)
Definition importData (file : option Text) (now : string) : Action unit :=
  match file with
  | None => mret ()
  | Some result =>
      tryCatchDo
        (importedData ← lift (JSON_parse result);
         valid ← lift (validateImportedData importedData);
         if negb valid then lift (Throw InvalidDataFormat) else
         (* Backup current data before import *)
         a ← read id;
         let backupData := obj [("transactions", transactions a); ("budgets", budgets a);
                                ("settings", settings a); ("categories", categories a)] in
         localSetItem "budgetApp_backup_before_import" (JSON_stringify backupData);;
         (* Import the data *)
         ts ← lift (getProp importedData "transactions");
         setTransactions (jsOr ts (JArr []));;
         bs ← lift (getProp importedData "budgets");
         setBudgets (jsOr bs (JObj ∅));;
         ss ← lift (getProp importedData "settings");
         s0 ← read settings;
         setSettings (jsOr ss s0);;
         cs ← lift (getProp importedData "categories");
         c0 ← read categories;
         setCategories (jsOr cs c0);;
         saveData now)
        (mret ())
  end.

(** ** Data entry *)

(** The values of the fields of the transaction form. *)
Record TransactionForm := {
  transactionType : string;
  transactionAmount : string;
  transactionCategory : string;
  transactionDescription : string;
  transactionDate : string
}.

Section DataEntry.

(** The host's [parseFloat]. *)
Variable parseFloat : string → JsNumber.

(** [addTransaction]; [id] is [Date.now().toString()]. *)
Definition addTransaction (form : TransactionForm) (id now : string) : Action unit :=
  let type := JStr (transactionType form) in
  let amount := JNum (parseFloat (transactionAmount form)) in
  let category := JStr (transactionCategory form) in
  let description := JStr (transactionDescription form) in
  let date := JStr (transactionDate form) in
  if negb (truthy amount) || negb (truthy category) || negb (truthy date) then
    (* 'Please fill in all required fields' *)
    mret ()
  else
    let transaction := obj [("id", JStr id); ("type", type); ("amount", amount);
                            ("category", category); ("description", description);
                            ("date", date)] in
    ts ← read transactions;
    ts' ← lift (push ts transaction);
    setTransactions ts';;
    saveData now.

End DataEntry.

(** ** Cloud sync *)

Definition getAppSettings : Action JsVal :=
  tryCatchDo
    (settings ← localGetItem "budgetApp_settings";
     lift (parseOr settings (JObj ∅)))
    (mret (JObj ∅)).

Definition saveAppSettings (settings : JsVal) : Action unit :=
  tryCatchDo
    (localSetItem "budgetApp_settings" (JSON_stringify settings))
    (mret ()).

(** The object that [mergeSettings] saves. *)
Definition mergedSettings (localSettings cloudSettings : JsVal) : Completion JsVal :=
  let merged := objSpread cloudSettings ∪ objSpread localSettings in
  (* Preserve device-specific settings *)
  deviceId ← getProp localSettings "deviceId";
  let merged := <["deviceId" := deviceId]> merged in
  lastLocalSync ← getProp localSettings "lastLocalSync";
  let merged := <["lastLocalSync" := lastLocalSync]> merged in
  mret (JObj merged).

Definition mergeSettings (cloudSettings : JsVal) : Action unit :=
  localSettings ← getAppSettings;
  merged ← lift (mergedSettings localSettings cloudSettings);
  saveAppSettings merged.

(** The remote store as the application calls it: the outcome of the
    awaited [downloadData()], and of the awaited [uploadData(snapshot)].  A
    method that throws, rejects or is missing from the client object is a
    [Throw] outcome.  (The client class of the repository names its
    operations [downloadFromCloud] and [uploadToCloud].) *)
Record SupabaseSync := {
  downloadData : Completion JsVal;
  uploadData : JsVal → Completion JsVal
}.

Section CloudSync.

Variable newDate : JsVal → option Z.

Definition mergeCloudData (cloudData : JsVal) (now : string) : Action unit :=
  if negb (truthy cloudData) then mret () else
  (* Merge transactions *)
  cloudTransactions ← lift (getProp cloudData "transactions");
  (if truthy cloudTransactions then
     ts ← read transactions;
     merged ← lift (mergeArrayData newDate (jsOr ts (JArr [])) cloudTransactions "id");
     setTransactions merged
   else mret ());;
  (* Merge budgets *)
  cloudBudgets ← lift (getProp cloudData "budgets");
  (if truthy cloudBudgets then
     bs ← read budgets;
     merged ← lift (mergeArrayData newDate (jsOr bs (JArr [])) cloudBudgets "category");
     setBudgets merged
   else mret ());;
  (* Merge categories *)
  cloudCategories ← lift (getProp cloudData "categories");
  (if truthy cloudCategories then
     cs ← read categories;
     merged ← lift (mergeArrayData newDate (jsOr cs (JArr [])) cloudCategories "name");
     setCategories merged
   else mret ());;
  (* Update settings *)
  cloudSettings ← lift (getProp cloudData "settings");
  (if truthy cloudSettings then mergeSettings cloudSettings else mret ());;
  (* Save merged data locally *)
  saveData now.

(** The snapshot that [performCloudSync] uploads. *)
Definition dataToSync (now : string) : Action JsVal :=
  a ← read id;
  appSettings ← getAppSettings;
  mret (obj [("transactions", jsOr (transactions a) (JArr []));
             ("budgets", jsOr (budgets a) (JArr []));
             ("categories", jsOr (categories a) (JArr []));
             ("settings", appSettings);
             ("lastModified", JStr now)]).

(** [performCloudSync]; [supabaseSync] is [None] when the client was never
    created. *)
Definition performCloudSync (supabaseSync : option SupabaseSync) (now : string) : Action bool :=
  enabled ← read cloudSyncEnabled;
  match supabaseSync with
  | None => mret false
  | Some sync =>
      if negb enabled then mret false else
      tryCatchDo
        ((* Step 1: Download existing cloud data first *)
         cloudData ← lift (downloadData sync);
         (* Step 2: Merge cloud data with local data *)
         (if truthy cloudData then mergeCloudData cloudData now else mret ());;
         (* Step 3: Upload the merged data back to cloud *)
         data ← dataToSync now;
         success ← lift (uploadData sync data);
         if truthy success then setLastCloudSync (JStr now);; mret true
         else mret false)
        (mret false)
  end.

End CloudSync.

(** [downloadFromCloud] of the Supabase client: the four table reads, each
    of which may throw. *)
Record Tables := {
  downloadTransactions : Completion JsVal;
  downloadBudgets : Completion JsVal;
  downloadSettings : Completion JsVal;
  downloadCategories : Completion JsVal
}.

Definition downloadFromCloud (isOnline syncInProgress : bool) (tables : Tables) : JsVal :=
  if negb isOnline || syncInProgress then JNull else
  tryCatch
    (ts ← downloadTransactions tables;
     bs ← downloadBudgets tables;
     ss ← downloadSettings tables;
     cs ← downloadCategories tables;
     mret (obj [("transactions", ts); ("budgets", bs); ("settings", ss); ("categories", cs)]))
    JNull.


(** ** Deleting a transaction, budgets, categories *)

Fixpoint filterM (p : JsVal → Completion bool) (l : list JsVal) : Completion (list JsVal) :=
  match l with
  | [] => Normal []
  | x :: l' =>
      b ← p x;
      rest ← filterM p l';
      mret (if b : bool then x :: rest else rest)
  end.

(** [a.filter(p)] *)
Definition arrayFilter (p : JsVal → Completion bool) (a : JsVal) : Completion JsVal :=
  match a with
  | JArr l => l' ← filterM p l; mret (JArr l')
  | _ => Throw TypeError
  end.

(** [deleteTransaction(id)]; [confirmed] is the answer to the [confirm]
    dialog. *)
Definition deleteTransaction (confirmed : bool) (id : JsVal) (now : string) : Action unit :=
  if confirmed then
    ts ← read transactions;
    ts' ← lift (arrayFilter (fun t => k ← getProp t "id"; mret (negb (strictEq k id))) ts);
    setTransactions ts';;
    saveData now
  else mret ().

(** A method whose effect the value model can express on some states only:
    [None] where it cannot. *)
Definition Partial (A : Type) : Type := World → option (Completion A * World).

(** [v[p] = x] on an object, as the modelled code performs it on the
    budgets.  Writing a property of an array or of a primitive value, and
    writing [__proto__], is outside the value model. *)
Definition setProp (v : JsVal) (p : string) (x : JsVal) : option (Completion JsVal) :=
  match v with
  | JUndefined | JNull => Some (Throw TypeError)
  | JObj m => if String.eqb p "__proto__" then None else Some (Normal (JObj (<[p := x]> m)))
  | _ => None
  end.

(** [delete v[p]] on an object; outside the value model on arrays and
    primitive values. *)
Definition deleteProp (v : JsVal) (p : string) : option (Completion JsVal) :=
  match v with
  | JUndefined | JNull => Some (Throw TypeError)
  | JObj m => Some (Normal (JObj (delete p m)))
  | _ => None
  end.

(** The values of the fields of the budget form. *)
Record BudgetForm := {
  budgetCategory : string;
  budgetAmount : string;
  budgetPeriod : string
}.

Section BudgetEntry.

Variable parseFloat : string → JsNumber.

Definition addBudget (form : BudgetForm) (now : string) : Partial unit := fun w =>
  let category := JStr (budgetCategory form) in
  let amount := JNum (parseFloat (budgetAmount form)) in
  let period := JStr (budgetPeriod form) in
  if negb (truthy category) || negb (truthy amount) || negb (truthy period) then
    (* 'Please fill in all fields' *)
    Some (Normal (), w)
  else
    written ← setProp (budgets (app w)) (budgetCategory form)
                 (obj [("amount", amount); ("period", period)]);
    Some ((bs ← lift written; setBudgets bs;; saveData now) w).

End BudgetEntry.

Definition removeBudget (confirmed : bool) (category : string) (now : string)
  : Partial unit := fun w =>
  if confirmed then
    deleted ← deleteProp (budgets (app w)) category;
    Some ((bs ← lift deleted; setBudgets bs;; saveData now) w)
  else Some (Normal (), w).

Fixpoint isSubstring (t s : string) : bool :=
  String.prefix t s
  || match s with
     | EmptyString => false
     | String _ s' => isSubstring t s'
     end.

(** [v.includes(name)]: membership in an array, a substring test on a
    string; no other value of the model has the method. *)
Definition includes (v : JsVal) (name : string) : Completion bool :=
  match v with
  | JArr l => Normal (existsb (sameValueZero (JStr name)) l)
  | JStr s => Normal (isSubstring name s)
  | _ => Throw TypeError
  end.

(** The value [v] once the array at its property [p] has become [x] (the
    array is changed in place by [push]). *)
Definition withProp (v : JsVal) (p : string) (x : JsVal) : JsVal :=
  match v with
  | JObj m => JObj (<[p := x]> m)
  | JArr l =>
      match isArrayIndex p (length l) with
      | Some i => JArr (<[i := x]> l)
      | None => v
      end
  | _ => v
  end.

(** [saveNewCategory]; [newCategoryName] is the trimmed content of the name
    field, [transactionType] the value of the type field. *)
Definition saveNewCategory (newCategoryName transactionType : string) (now : string)
  : Action unit :=
  if negb (truthy (JStr newCategoryName)) then
    (* 'Please enter a category name' *)
    mret ()
  else
    cs ← read categories;
    names ← lift (getProp cs transactionType);
    found ← lift (includes names newCategoryName);
    if found : bool then
      (* 'Category already exists' *)
      mret ()
    else
      names' ← lift (push names (JStr newCategoryName));
      setCategories (withProp cs transactionType names');;
      saveData now.

(** ** Start-up: the migration of a session copy *)

(** [storage.clear()] *)
Definition clear (st : Storage) : Completion Storage :=
  if readable st
  then Normal {| entries := ∅; readable := readable st; writable := writable st |}
  else Throw DOMException.

Definition sessionClear : Action unit := fun w =>
  match clear (sessionStorage w) with
  | Normal st => (Normal (), {| app := app w; localStorage := localStorage w;
                                sessionStorage := st |})
  | Throw e => (Throw e, w)
  end.

(** ToBoolean of the result of [getItem]. *)
Definition present (data : option Text) : bool :=
  match data with
  | Some t => textTruthy t
  | None => false
  end.

(** [for (const x of l) { body }] *)
Fixpoint forOf {A} (body : A → Action unit) (l : list A) : Action unit :=
  match l with
  | [] => mret ()
  | x :: l' => body x;; forOf body l'
  end.

Definition migrateMobileDataSimple : Action unit :=
  tryCatchDo
    (sessionTransactions ← sessionGetItem "budgetApp_transactions";
     localTransactions ← localGetItem "budgetApp_transactions";
     if present sessionTransactions && negb (present localTransactions) then
       (* Migrate all data *)
       forOf (fun key =>
                sessionData ← sessionGetItem key;
                match sessionData with
                | Some t => if textTruthy t then localSetItem key t else mret ()
                | None => mret ()
                end)
             ["budgetApp_transactions"; "budgetApp_budgets"; "budgetApp_settings";
              "budgetApp_categories"];;
       (* Clear sessionStorage after migration *)
       sessionClear;;
       (* Reload data from localStorage *)
       loadData
     else mret ())
    (mret ()).

(** ** The device identifier of the Supabase client *)

(** [generateDeviceId]; [now] is [Date.now()] and [random] is
    [Math.random().toString(36).substr(2, 9)], both as strings. *)
Definition generateDeviceId (now random : string) (st : Storage)
  : Completion (Text * Storage) :=
  deviceId ← getItem st "budget_device_id";
  match deviceId with
  | Some t =>
      if textTruthy t then mret (t, st)
      else
        let fresh := RawText ("device_" +:+ now +:+ "_" +:+ random) in
        st' ← setItem st "budget_device_id" fresh;
        mret (fresh, st')
  | None =>
      let fresh := RawText ("device_" +:+ now +:+ "_" +:+ random) in
      st' ← setItem st "budget_device_id" fresh;
      mret (fresh, st')
  end.

(** ** The older copies of the script *)

(** The older copy of the script: [saveData] has no fallback and lets a
    failed write throw. *)
Module Legacy.

Definition saveData : Action unit :=
  a ← read id;
  localSetItem "transactions" (JSON_stringify (transactions a));;
  localSetItem "budgets" (JSON_stringify (budgets a));;
  localSetItem "settings" (JSON_stringify (settings a));;
  localSetItem "categories" (JSON_stringify (categories a)).

Definition clearAllData (confirmed : bool) : Action unit :=
  if confirmed then
    setTransactions (JArr []);;
    setBudgets (JObj ∅);;
    setSettings defaultSettings;;
    saveData
  else mret ().

(** [exportData] of the older copy: the content of the downloaded file.
    It leaves the categories out. *)
Definition exportData (now : string) : Action Text :=
  a ← read id;
  let data := obj [("transactions", transactions a); ("budgets", budgets a);
                   ("settings", settings a); ("exportDate", JStr now)] in
  mret (JSON_stringify data).

(** The [onload] handler of [handleSyncFileRestore], from the content of
    the chosen file ([None]: no file chosen); [confirmed] is the answer to
    the [confirm] dialog. *)
Definition handleSyncFileRestore (file : option Text) (confirmed : bool) : Action unit :=
  match file with
  | None => mret ()
  | Some result =>
      tryCatchDo
        (data ← lift (JSON_parse result);
         (* Validate backup file structure *)
         ts ← lift (getProp data "transactions");
         if negb (truthy ts) then lift (Throw InvalidDataFormat) else
         bs ← lift (getProp data "budgets");
         if negb (truthy bs) then lift (Throw InvalidDataFormat) else
         ss ← lift (getProp data "settings");
         if negb (truthy ss) then lift (Throw InvalidDataFormat) else
         (* the confirm message *)
         backupDate ← lift (getProp data "backupDate");
         exportDate ← lift (getProp data "exportDate");
         _ ← lift (getProp ts "length");
         _ ← lift (objectKeys bs);
         if confirmed then
           (* Restore data *)
           setTransactions (jsOr ts (JArr []));;
           setBudgets (jsOr bs (JObj ∅));;
           s0 ← read settings;
           setSettings (JObj (objSpread ss ∪ objSpread s0));;
           cs ← lift (getProp data "categories");
           c0 ← read categories;
           setCategories (jsOr cs c0);;
           (* Save and update *)
           saveData
         else mret ())
        (mret ())
  end.

End Legacy.

(** [loadData(key, defaultValue)] of the backup copy of the script. *)
Module ScriptBackup.

(** [data === lit] for the literals ['null'] and ['undefined'].  A JSON
    text for [null] is taken to be spelled [null]; with another spelling
    the test [parsed !== null] below gives the same result. *)
Definition textIs (lit : string) (t : Text) : bool :=
  match t with
  | RawText s => String.eqb s lit
  | JsonText JNull => String.eqb lit "null"
  | JsonText _ => false
  end.

Definition loadData (useSessionStorage : bool) (key : string) (defaultValue : JsVal)
    (w : World) : JsVal :=
  tryCatch
    (let storage := if useSessionStorage then sessionStorage w else localStorage w in
     data ← getItem storage key;
     match data with
     | None => mret defaultValue
     | Some t =>
         if negb (textTruthy t) || textIs "null" t || textIs "undefined" t
         then mret defaultValue
         else
           parsed ← JSON_parse t;
           mret (if strictEq parsed JNull then defaultValue else parsed)
     end)
    defaultValue.

(** The other data functions of the backup copy.  This copy keeps [Date]
    objects in the [date] field of its transactions; they are not values of
    the model, and [validateData] does not read that field. *)

Definition defaultCategories : JsVal :=
  obj [("expense", strings ["Groceries"; "Utilities"; "Entertainment"; "Transportation";
                            "Healthcare"; "Shopping"; "Dining"; "Bills"; "Other"]);
       ("income", strings ["Salary"; "Freelance"; "Investment"; "Gift"; "Other"])].

(** [typeof v === 'number'] *)
Definition typeofNumber (v : JsVal) : bool :=
  match v with JNum _ => true | _ => false end.

(** [v >= 0] for a number [v] *)
Definition geZero (v : JsVal) : bool :=
  match v with
  | JNum (Fin q) => bool_decide (Qcle (Qc_of_Z 0) q)
  | JNum (Inf negative) => negb negative
  | _ => false
  end.

(** The callback of the filter of [validateData]. *)
Definition keepTransaction (transaction : JsVal) : Completion bool :=
  if negb (truthy transaction) then mret false else
  amount ← getProp transaction "amount";
  if negb (typeofNumber amount) then mret false else
  if negb (geZero amount) then mret false else
  type ← getProp transaction "type";
  if negb (truthy type) then mret false else
  category ← getProp transaction "category";
  mret (truthy category).

(** The test [!this.categories || !this.categories.expense ||
    !this.categories.income]. *)
Definition categoriesInvalid (cs : JsVal) : Completion bool :=
  if negb (truthy cs) then mret true else
  expense ← getProp cs "expense";
  if negb (truthy expense) then mret true else
  income ← getProp cs "income";
  mret (negb (truthy income)).

Definition validateData : Action unit :=
  (* Ensure transactions is an array *)
  ts ← read transactions;
  (if negb (isArray ts) then setTransactions (JArr []) else mret ());;
  (* Ensure budgets is an object *)
  bs ← read budgets;
  (if negb (typeofObject bs) || strictEq bs JNull then setBudgets (JObj ∅) else mret ());;
  (* Ensure categories structure *)
  cs ← read categories;
  invalid ← lift (categoriesInvalid cs);
  (if invalid : bool then setCategories defaultCategories else mret ());;
  (* Validate each transaction *)
  ts ← read transactions;
  ts' ← lift (arrayFilter keepTransaction ts);
  setTransactions ts'.

(** [saveDataItem(storage, key, data)]; [session] tells which of the two
    storages [storage] is. *)
Definition saveDataItem (session : bool) (key : string) (data : JsVal) : Action unit :=
  (if session then sessionSetItem else localSetItem) key (JSON_stringify data).

(** [saveData]; the result is the value of [this.useSessionStorage]
    afterwards. *)
Definition saveData (useSessionStorage : bool) : Action bool :=
  tryCatchDo
    (a ← read id;
     saveDataItem useSessionStorage "transactions" (transactions a);;
     saveDataItem useSessionStorage "budgets" (budgets a);;
     saveDataItem useSessionStorage "settings" (settings a);;
     saveDataItem useSessionStorage "categories" (categories a);;
     mret useSessionStorage)
    ((* Try to save to sessionStorage as fallback *)
     if negb useSessionStorage then
       tryCatchDo
         (a ← read id;
          saveDataItem true "transactions" (transactions a);;
          saveDataItem true "budgets" (budgets a);;
          saveDataItem true "settings" (settings a);;
          saveDataItem true "categories" (categories a);;
          mret true)
         (mret useSessionStorage)
     else mret useSessionStorage).

End ScriptBackup.

(** ** The vocabulary of the properties *)

Definition records (l : list JsVal) : Prop := Forall (fun item => isRecord item = true) l.

(** The records of [l] whose key is [k]. *)
Definition hasKey (keyField : string) (k : JsVal) (item : JsVal) : bool :=
  strictEq (field keyField item) k.

Fixpoint firstIndexFrom (p : JsVal → bool) (l : list JsVal) (i : nat) : option nat :=
  match l with
  | [] => None
  | x :: l' => if p x then Some i else firstIndexFrom p l' (S i)
  end.

(** The time of a record: [new Date(item.timestamp || item.date || 0)]. *)
Definition timeOf (newDate : JsVal → option Z) (item : JsVal) : option Z :=
  newDate (jsOr (jsOr (field "timestamp" item) (field "date" item)) (num 0)).

Definition keysOf (keyField : string) (l : list JsVal) : list JsVal := field keyField <$> l.

Definition noNaNKey (keyField : string) (l : list JsVal) : Prop :=
  Forall (fun item => field keyField item ≠ JNum NaN) l.

(** The record kept when [cloudItem] meets [current]: the cloud record only
    when its time is strictly later. *)
Definition pick (newDate : JsVal → option Z) (current cloudItem : JsVal) : JsVal :=
  if dateGt (timeOf newDate cloudItem) (timeOf newDate current) then cloudItem else current.

Definition selfEqualKeys (keyField : string) (l : list JsVal) : Prop :=
  Forall (fun item => strictEq (field keyField item) (field keyField item) = true) l.

(** The values that JSON can represent: no [undefined], no number that is
    not finite. *)
Inductive JsonValue : JsVal → Prop :=
| json_null : JsonValue JNull
| json_bool b : JsonValue (JBool b)
| json_num q : JsonValue (JNum (Fin q))
| json_str s : JsonValue (JStr s)
| json_arr l : Forall JsonValue l → JsonValue (JArr l)
| json_obj m : map_Forall (fun _ => JsonValue) m → JsonValue (JObj m).

Fixpoint jsize (v : JsVal) : nat :=
  match v with
  | JArr l => S (sum_list (map jsize l))
  | JObj m => S (map_fold (fun (_ : string) (n acc : nat) => (n + acc)%nat) 0%nat (jsize <$> m))
  | _ => 1%nat
  end.

(** An application state as the data model has it: the transactions are an
    array, the budgets, settings and categories are objects, and all four
    are JSON values. *)
Definition wellFormed (a : BudgetApp) : Prop :=
  isArray (transactions a) = true ∧ isRecord (budgets a) = true
  ∧ isRecord (settings a) = true ∧ isRecord (categories a) = true
  ∧ JsonValue (transactions a) ∧ JsonValue (budgets a)
  ∧ JsonValue (settings a) ∧ JsonValue (categories a).

(** What [clearAllData] leaves of the state [a]. *)
Definition clearedFrom (a a' : BudgetApp) : Prop :=
  transactions a' = JArr [] ∧ budgets a' = JObj ∅
  ∧ settings a' = defaultSettings ∧ categories a' = categories a.

Definition collectionKeys : list string :=
  ["budgetApp_transactions"; "budgetApp_budgets"; "budgetApp_settings"; "budgetApp_categories"].

Definition defaultCollections (a : BudgetApp) : Prop :=
  transactions a = JArr [] ∧ budgets a = JObj ∅
  ∧ settings a = defaultSettings ∧ categories a = defaultCategories.

(** The local storage cannot be read, or one of the four entries is not
    JSON. *)
Definition localStorageFails (w : World) : Prop :=
  readable (localStorage w) = false
  ∨ ∃ key s, key ∈ collectionKeys
      ∧ entries (localStorage w) !! key = Some (RawText s) ∧ s ≠ "".

(** The transactions that the session storage can supply. *)
Definition sessionTransactions (w : World) : option JsVal :=
  match getItem (sessionStorage w) "budgetApp_transactions" with
  | Normal (Some t) =>
      if textTruthy t then
        match JSON_parse t with Normal v => Some v | Throw _ => None end
      else None
  | _ => None
  end.

(** The collection [v] is what the entry under [key] parses to, and
    [dflt] when there is no entry (or an empty one). *)
Definition loadedFrom (w : World) (key : string) (dflt v : JsVal) : Prop :=
  match entries (localStorage w) !! key with
  | Some (JsonText parsed) => v = parsed
  | Some (RawText s) => s = "" ∧ v = dflt
  | None => v = dflt
  end.

Definition sameStores (w w' : World) : Prop :=
  localStorage w' = localStorage w ∧ sessionStorage w' = sessionStorage w.

Definition sameCollections (a a' : BudgetApp) : Prop :=
  transactions a' = transactions a ∧ budgets a' = budgets a
  ∧ settings a' = settings a ∧ categories a' = categories a.

Definition deviceLocal (p : string) : bool :=
  String.eqb p "deviceId" || String.eqb p "lastLocalSync".

(** The transaction that [addTransaction] builds from the form. *)
Definition newTransaction (parseFloat : string → JsNumber)
    (form : TransactionForm) (id : string) : JsVal :=
  obj [("id", JStr id); ("type", JStr (transactionType form));
       ("amount", JNum (parseFloat (transactionAmount form)));
       ("category", JStr (transactionCategory form));
       ("description", JStr (transactionDescription form));
       ("date", JStr (transactionDate form))].

(** What passes the guard [!amount || !category || !date]. *)
Definition accepted (parseFloat : string → JsNumber) (form : TransactionForm) : bool :=
  truthy (JNum (parseFloat (transactionAmount form)))
  && negb (String.eqb (transactionCategory form) "")
  && negb (String.eqb (transactionDate form) "").

(** The entries that a save writes under the four collection keys. *)
Definition savedEntries (a : BudgetApp) (store : gmap string Text) : gmap string Text :=
  <["budgetApp_categories" := JSON_stringify (categories a)]>
    (<["budgetApp_settings" := JSON_stringify (settings a)]>
       (<["budgetApp_budgets" := JSON_stringify (budgets a)]>
          (<["budgetApp_transactions" := JSON_stringify (transactions a)]> store))).

(** The budget that [addBudget] stores for the form. *)
Definition newBudget (parseFloat : string → JsNumber) (form : BudgetForm) : JsVal :=
  obj [("amount", JNum (parseFloat (budgetAmount form)));
       ("period", JStr (budgetPeriod form))].

(** What passes the guard [!category || !amount || !period]. *)
Definition budgetAccepted (parseFloat : string → JsNumber) (form : BudgetForm) : bool :=
  negb (String.eqb (budgetCategory form) "")
  && truthy (JNum (parseFloat (budgetAmount form)))
  && negb (String.eqb (budgetPeriod form) "").

(** What the filter of the backup copy's [validateData] keeps. *)
Definition keeps (t : JsVal) : bool := tryCatch (ScriptBackup.keepTransaction t) false.

(** A transaction with a numeric amount that is not negative (and not NaN),
    a type and a category. *)
Definition soundTransaction (t : JsVal) : Prop :=
  ∃ amount type category,
    getProp t "amount" = Normal (JNum amount)
    ∧ ScriptBackup.geZero (JNum amount) = true
    ∧ getProp t "type" = Normal type ∧ truthy type = true
    ∧ getProp t "category" = Normal category ∧ truthy category = true.

(** The state after the backup copy's [validateData]. *)
Definition validated (a : BudgetApp) : BudgetApp :=
  {| transactions :=
       JArr (List.filter keeps (match transactions a with JArr l => l | _ => [] end));
     budgets :=
       (if negb (typeofObject (budgets a)) || strictEq (budgets a) JNull
        then JObj ∅ else budgets a);
     settings := settings a;
     categories :=
       (if tryCatch (ScriptBackup.categoriesInvalid (categories a)) true
        then ScriptBackup.defaultCategories else categories a);
     cloudSyncEnabled := cloudSyncEnabled a;
     lastCloudSync := lastCloudSync a |}.

(** ** Sample data *)

Definition emptyStorage : Storage :=
  {| entries := ∅; readable := true; writable := true |}.

Definition unreadableStorage : Storage :=
  {| entries := ∅; readable := false; writable := false |}.

Definition t1_local : JsVal :=
  obj [("id", JStr "t1"); ("type", JStr "expense"); ("amount", num 20);
       ("category", JStr "Food"); ("date", JStr "2024-01-01")].
Definition t1_remote : JsVal :=
  obj [("id", JStr "t1"); ("amount", num 25); ("date", JStr "2024-01-05")].
Definition t2_remote : JsVal :=
  obj [("id", JStr "t2"); ("amount", num 10); ("category", JStr "Food");
       ("date", JStr "2024-01-02")].

(** The state of a [BudgetApp] object before its data is loaded. *)
Definition newApp : BudgetApp :=
  {| transactions := JUndefined; budgets := JUndefined; settings := JUndefined;
     categories := JUndefined; cloudSyncEnabled := false; lastCloudSync := JNull |}.

(** A local storage that throws on read, next to a session storage that
    holds one transaction. *)
Definition worldWithSessionCopy : World :=
  {| app := newApp;
     localStorage := unreadableStorage;
     sessionStorage :=
       {| entries := {["budgetApp_transactions" := JsonText (JArr [t1_local])]};
          readable := true; writable := true |} |}.

Definition sampleApp : BudgetApp :=
  {| transactions := JArr [t1_local; t2_remote];
     budgets := obj [("Food", obj [("amount", num 200); ("period", JStr "monthly")])];
     settings := defaultSettings;
     categories := defaultCategories;
     cloudSyncEnabled := false;
     lastCloudSync := JNull |}.

Definition sampleWorld : World :=
  {| app := sampleApp; localStorage := emptyStorage; sessionStorage := emptyStorage |}.

(** A freshly reset store: nothing stored, the state that [clearAllData]
    leaves. *)
Definition resetWorld : World :=
  {| app := {| transactions := JArr []; budgets := JObj ∅; settings := defaultSettings;
               categories := defaultCategories; cloudSyncEnabled := false;
               lastCloudSync := JNull |};
     localStorage := emptyStorage; sessionStorage := emptyStorage |}.

Definition negativeSubmission : TransactionForm :=
  {| transactionType := "expense"; transactionAmount := "-5";
     transactionCategory := "Food"; transactionDescription := "";
     transactionDate := "2024-01-01" |}.

Definition localSettingsSample : gmap string JsVal :=
  {["theme" := JStr "dark"; "deviceId" := JStr "device_1"]}.
Definition cloudSettingsSample : gmap string JsVal :=
  {["lowBalanceThreshold" := num 50; "deviceId" := JStr "device_2"]}.

(** A state whose stored settings carry the device fields. *)
Definition worldWithSettings : World :=
  {| app := sampleApp;
     localStorage :=
       {| entries := {["budgetApp_settings" := JsonText (JObj localSettingsSample)]};
          readable := true; writable := true |};
     sessionStorage := emptyStorage |}.

Definition cloudCategoriesOnly : JsVal :=
  obj [("categories", obj [("expense", strings ["Rent"]); ("income", strings ["Salary"])])].

(** A client object with a [downloadData] that returns [null] and an
    [uploadData] that succeeds. *)
Definition failingDownload : SupabaseSync :=
  {| downloadData := Normal JNull; uploadData := fun _ => Normal (JBool true) |}.

Definition syncingWorld : World :=
  {| app := {| transactions := JArr [t1_local]; budgets := JObj ∅;
               settings := defaultSettings; categories := defaultCategories;
               cloudSyncEnabled := true; lastCloudSync := JNull |};
     localStorage := emptyStorage; sessionStorage := emptyStorage |}.

(** A local storage that is full: it can be read, it holds an older
    transaction list, and every write throws. *)
Definition fullLocalStorageWorld : World :=
  {| app := sampleApp;
     localStorage :=
       {| entries := {["budgetApp_transactions" := JsonText (JArr [t1_local])]};
          readable := true; writable := false |};
     sessionStorage := emptyStorage |}.

(** A session storage that holds the copy of a fallback save, next to a
    local storage that holds nothing. *)
Definition worldWithFallbackCopy : World :=
  {| app := newApp;
     localStorage := emptyStorage;
     sessionStorage :=
       {| entries := savedEntries sampleApp ∅; readable := true; writable := true |} |}.

Definition billsBudget : BudgetForm :=
  {| budgetCategory := "Bills"; budgetAmount := "150"; budgetPeriod := "monthly" |}.

(** The budgets of [sampleApp]. *)
Definition sampleBudgets : gmap string JsVal :=
  list_to_map [("Food", obj [("amount", num 200); ("period", JStr "monthly")])].

Definition defaultExpenseCategories : list string :=
  ["Food"; "Transportation"; "Entertainment"; "Bills"; "Shopping"; "Healthcare"; "Other"].

(** The properties of [defaultCategories]. *)
Definition defaultCategoryLists : gmap string JsVal :=
  list_to_map
    [("income", strings ["Salary"; "Freelance"; "Investment"; "Gift"; "Other"]);
     ("expense", strings defaultExpenseCategories)].

(** A remote snapshot that carries transactions only. *)
Definition cloudTransactionsOnly : JsVal :=
  obj [("transactions", JArr [t1_remote; t2_remote])].

(** A remote snapshot as the client's [downloadFromCloud] builds it for a
    user without stored budgets, settings and categories: the budgets are
    an empty object. *)
Definition cloudSnapshot : JsVal :=
  obj [("transactions", JArr [t2_remote]); ("budgets", JObj ∅);
       ("settings", JNull); ("categories", JNull)].

Definition workingRemote : SupabaseSync :=
  {| downloadData := Normal cloudSnapshot;
     uploadData := fun _ => Normal (JBool true) |}.

(** A state with settings that hold a field of their own, and with one
    more expense category. *)
Definition worldWithTheme : World :=
  {| app := {| transactions := JArr []; budgets := JObj ∅;
               settings := obj [("lowBalanceThreshold", num 50); ("theme", JStr "dark")];
               categories := obj [("income", strings ["Salary"]);
                                  ("expense", strings ["Food"; "Rent"])];
               cloudSyncEnabled := false; lastCloudSync := JNull |};
     localStorage := emptyStorage; sessionStorage := emptyStorage |}.

(** * Properties *)

(** ** The reference host and the merge scenario of the specification *)

Example isoDate_epoch : isoDate "1970-01-01" = Some 0.
Proof. reflexivity. Qed.

Example isoDate_2024 : isoDate "2024-01-05" = Some 1704412800000.
Proof. reflexivity. Qed.

(** The merge scenario of the specification: [t1] is taken from the remote
    side (later date), [t2] is added. *)
Example merge_scenario :
  mergeArrayData hostDate (JArr [t1_local]) (JArr [t1_remote; t2_remote]) "id"
  = Normal (JArr [t1_remote; t2_remote]).
Proof. vm_compute. reflexivity. Qed.

(** ** Facts about the value operations *)

Lemma numEq_eq a b : numEq a b = true → a = b.
Proof.
  destruct a, b; simpl; try discriminate.
  - destruct negative, negative0; simpl; congruence.
  - intros H. apply bool_decide_eq_true in H. congruence.
Qed.

Lemma strictEq_eq a b : strictEq a b = true → a = b.
Proof.
  destruct a, b; simpl; try discriminate; try reflexivity.
  - destruct b, b0; simpl; congruence.
  - intros H. apply numEq_eq in H. congruence.
  - intros H. apply String.eqb_eq in H. congruence.
Qed.

Lemma sameValueZero_eq a b : sameValueZero a b = true → a = b.
Proof.
  unfold sameValueZero.
  destruct a as [| | |[| |]| | |], b as [| | |[| |]| | |];
    try reflexivity; apply strictEq_eq.
Qed.

Lemma sameValueZero_strictEq a b :
  a ≠ JNum NaN → sameValueZero a b = strictEq a b.
Proof. destruct a as [| | |[| |]| | |], b as [| | |[| |]| | |]; simpl; congruence. Qed.

Lemma strictEq_sym a b : strictEq a b = strictEq b a.
Proof.
  destruct a as [| | |[| |]| | |], b as [| | |[| |]| | |]; simpl; try reflexivity.
  - destruct b, b0; reflexivity.
  - destruct negative, negative0; reflexivity.
  - apply bool_decide_ext. split; congruence.
  - apply String.eqb_sym.
Qed.

Lemma getProp_record p item : isRecord item = true → getProp item p = Normal (field p item).
Proof. destruct item; simpl; congruence. Qed.

Lemma getProp_singleton k v p :
  getProp (obj [(k, v)]) p = Normal (if String.eqb p k then v else JUndefined).
Proof.
  unfold obj, getProp. cbn [list_to_map foldr]. f_equal.
  destruct (String.eqb p k) eqn:E.
  - apply String.eqb_eq in E as ->. by rewrite lookup_insert_eq.
  - apply String.eqb_neq in E. by rewrite lookup_insert_ne, lookup_empty.
Qed.

Lemma jsOr_truthy a b : truthy a = true → jsOr a b = a.
Proof. unfold jsOr. by intros ->. Qed.

Lemma isArray_truthy v : isArray v = true → truthy v = true.
Proof. by destruct v. Qed.

Lemma isRecord_truthy v : isRecord v = true → truthy v = true.
Proof. by destruct v. Qed.

Lemma isRecord_typeofObject v : isRecord v = true → typeofObject v = true.
Proof. by destruct v. Qed.

Lemma dateGt_irrefl t : dateGt t t = false.
Proof. destruct t; simpl; [|done]. apply bool_decide_eq_false. lia. Qed.

Lemma setHas_elem keys k : setHas keys k = true → k ∈ keys.
Proof.
  unfold setHas. intros H. apply existsb_exists in H as (x & Hx & Hk).
  apply sameValueZero_eq in Hk. subst. by apply list_elem_of_In.
Qed.

Lemma setHas_strict keys k :
  k ≠ JNum NaN → setHas keys k = true → k ∈ keys ∧ strictEq k k = true.
Proof.
  intros Hk H. split; [by apply setHas_elem|].
  unfold setHas in H. apply existsb_exists in H as (x & _ & Hx).
  rewrite sameValueZero_strictEq in Hx by done.
  by rewrite <- (strictEq_eq _ _ Hx) in Hx.
Qed.

Lemma strictEq_refl_setHas keys k :
  strictEq k k = true → k ∈ keys → setHas keys k = true.
Proof.
  intros Hk Hin. unfold setHas. apply existsb_exists. exists k. split.
  - by apply list_elem_of_In.
  - rewrite sameValueZero_strictEq; [done|]. intros ->. done.
Qed.

Lemma findIndexFrom_records keyField k l i :
  records l →
  findIndexFrom (fun item => k' ← getProp item keyField; mret (strictEq k' k)) l i
  = Normal (firstIndexFrom (hasKey keyField k) l i).
Proof.
  intros Hl. revert i. induction Hl as [|x l Hx Hl IH]; intros i; simpl; [done|].
  rewrite (getProp_record _ _ Hx). simpl. unfold hasKey at 1.
  destruct (strictEq (field keyField x) k); [done|]. apply IH.
Qed.

Lemma firstIndexFrom_Some p l i j :
  firstIndexFrom p l i = Some j →
  ∃ x, l !! (j - i)%nat = Some x ∧ p x = true ∧ (i ≤ j)%nat.
Proof.
  revert i. induction l as [|y l IH]; intros i; simpl; [done|].
  destruct (p y) eqn:Hy.
  - intros [= <-]. exists y. rewrite Nat.sub_diag. done.
  - intros H. apply IH in H as (x & Hx & Hp & Hle).
    exists x. replace (j - i)%nat with (S (j - S i)) by lia. split_and!; [done|done|lia].
Qed.

Lemma firstIndexFrom_None p l i :
  firstIndexFrom p l i = None → ∀ x, x ∈ l → p x = false.
Proof.
  revert i. induction l as [|y l IH]; intros i; simpl.
  - by intros _ x ?%elem_of_nil.
  - destruct (p y) eqn:Hy; [done|]. intros H x [->|Hx]%elem_of_cons; eauto.
Qed.

Lemma filter_insert_other (p : JsVal → bool) l i y c :
  l !! i = Some y → p y = false → p c = false →
  List.filter p (<[i := c]> l) = List.filter p l.
Proof.
  intros Hi Hy Hc.
  rewrite insert_take_drop by (by eapply lookup_lt_Some).
  rewrite <- (take_drop_middle l i y Hi) at 3.
  rewrite !List.filter_app. simpl. by rewrite Hy, Hc.
Qed.

Lemma filter_insert_unique (p : JsVal → bool) l i x y c :
  List.filter p l = [x] → l !! i = Some y → p y = true → p c = true →
  y = x ∧ List.filter p (<[i := c]> l) = [c].
Proof.
  intros Hf Hi Hy Hc.
  rewrite insert_take_drop by (by eapply lookup_lt_Some).
  rewrite <- (take_drop_middle l i y Hi) in Hf.
  rewrite !List.filter_app in *. simpl in *. rewrite Hy in Hf. rewrite Hc.
  destruct (List.filter p (take i l)) as [|z zs]; simpl in *.
  - injection Hf as -> Hd. by rewrite Hd.
  - injection Hf as -> Hf. by destruct zs.
Qed.

(** ** How an action runs *)

Lemma run_bind {A B} (c : Action A) (f : A → Action B) w :
  (c ≫= f) w = match c w with
               | (Normal a, w') => f a w'
               | (Throw e, w') => (Throw e, w')
               end.
Proof. reflexivity. Qed.

Lemma run_lift {A} (c : Completion A) w : lift c w = (c, w).
Proof. reflexivity. Qed.

Lemma run_read {A} (f : BudgetApp → A) w : read f w = (Normal (f (app w)), w).
Proof. reflexivity. Qed.

Lemma run_ret {A} (a : A) (w : World) : (mret a : Action A) w = (Normal a, w).
Proof. reflexivity. Qed.

Lemma run_localSetItem key t w :
  writable (localStorage w) = true →
  localSetItem key t w =
    (Normal (), {| app := app w;
                   localStorage := {| entries := <[key := t]> (entries (localStorage w));
                                      readable := readable (localStorage w);
                                      writable := true |};
                   sessionStorage := sessionStorage w |}).
Proof. intros H. unfold localSetItem, setItem. by rewrite H. Qed.

Ltac run :=
  repeat (progress (rewrite ?run_bind, ?run_lift, ?run_read, ?run_ret; cbv beta iota)).

Lemma saveData_app now w :
  (saveData now w).1 = Normal () ∧ app (saveData now w).2 = app w.
Proof.
  destruct w as [a [le lr lw] [se sr sw]].
  destruct lw, sw; split; reflexivity.
Qed.

(** When the local storage can be written, it holds the four collections
    as JSON after [saveData]. *)
Lemma saveData_writes now w key :
  writable (localStorage w) = true →
  entries (localStorage (saveData now w).2) !! key =
    if bool_decide (key = "budgetApp_lastSave") then Some (RawText now)
    else if bool_decide (key = "budgetApp_categories")
      then Some (JSON_stringify (categories (app w)))
    else if bool_decide (key = "budgetApp_settings")
      then Some (JSON_stringify (settings (app w)))
    else if bool_decide (key = "budgetApp_budgets")
      then Some (JSON_stringify (budgets (app w)))
    else if bool_decide (key = "budgetApp_transactions")
      then Some (JSON_stringify (transactions (app w)))
    else entries (localStorage w) !! key.
Proof.
  destruct w as [a [le lr lw] [se sr sw]]. simpl. intros ->.
  unfold saveData, tryCatchDo, mbind, Action_bind, localSetItem, setItem, read. simpl.
  repeat case_bool_decide; subst; simplify_map_eq; done.
Qed.

(** ** The merge on collections of records *)

Section ReconcilerFacts.

Variable newDate : JsVal → option Z.

Lemma itemTime_record item :
  isRecord item = true → itemTime newDate item = Normal (timeOf newDate item).
Proof. intros H. unfold itemTime. by rewrite !(getProp_record _ _ H). Qed.

Lemma mapM_keys keyField l :
  records l → mapM (fun item => getProp item keyField) l = Normal (field keyField <$> l).
Proof.
  induction 1 as [|x l Hx Hl IH]; simpl; [done|].
  rewrite (getProp_record _ _ Hx). simpl. by rewrite IH.
Qed.

(** What one step of the [forEach] does on records. *)
Lemma mergeStep_records keyField keys merged c :
  records merged → isRecord c = true →
  mergeStep newDate keyField keys merged c =
    if negb (setHas keys (field keyField c)) then Normal (merged ++ [c])
    else match firstIndexFrom (hasKey keyField (field keyField c)) merged 0 with
         | Some i =>
             Normal (if dateGt (timeOf newDate c)
                               (timeOf newDate (default JUndefined (merged !! i)))
                     then <[i := c]> merged else merged)
         | None => Throw TypeError
         end.
Proof.
  intros Hm Hc. unfold mergeStep. rewrite (getProp_record _ _ Hc). simpl.
  destruct (setHas keys (field keyField c)); simpl; [|done].
  unfold findIndex. rewrite findIndexFrom_records by done. simpl.
  destruct (firstIndexFrom _ merged 0) as [i|] eqn:Hi; simpl.
  - apply firstIndexFrom_Some in Hi as (x & Hx & _ & _).
    rewrite Nat.sub_0_r in Hx. rewrite Hx. simpl.
    rewrite (itemTime_record _ Hc). simpl.
    rewrite itemTime_record; [|by eapply (Forall_lookup_1 _ _ _ _ Hm Hx)]. simpl.
    by destruct (dateGt _ _).
  - rewrite (itemTime_record _ Hc). done.
Qed.

End ReconcilerFacts.

(** ** C1: keys are never dropped by the merge *)

(** Why NaN is excluded as a key: the set of local keys has it
    ([Set.prototype.has] finds NaN), [findIndex] with [===] does not find
    it, and reading the time of the missing local record throws. *)
Example mergeArrayData_NaN_key :
  mergeArrayData hostDate (JArr [obj [("id", JNum NaN)]]) (JArr [obj [("id", JNum NaN)]]) "id"
  = Throw TypeError.
Proof. vm_compute. reflexivity. Qed.

Section KeyPreservation.

Variable newDate : JsVal → option Z.
Variable keyField : string.

Lemma mergeStep_keys keys merged c :
  records merged → isRecord c = true → field keyField c ≠ JNum NaN →
  (∀ k, k ∈ keys → k ∈ keysOf keyField merged) →
  ∃ merged', mergeStep newDate keyField keys merged c = Normal merged'
    ∧ records merged'
    ∧ keysOf keyField merged' =
        keysOf keyField merged
          ++ (if setHas keys (field keyField c) then [] else [field keyField c]).
Proof.
  intros Hm Hc Hnan Hkeys. rewrite mergeStep_records by done.
  destruct (setHas keys (field keyField c)) eqn:Hhas; simpl.
  - destruct (setHas_strict _ _ Hnan Hhas) as [Hin Hrefl].
    apply Hkeys in Hin. unfold keysOf in Hin.
    apply list_elem_of_fmap in Hin as (r & Hr & Hrm).
    destruct (firstIndexFrom _ merged 0) as [i|] eqn:Hi.
    + apply firstIndexFrom_Some in Hi as (x & Hx & Hp & _).
      rewrite Nat.sub_0_r in Hx. apply strictEq_eq in Hp.
      eexists. split; [reflexivity|].
      destruct (dateGt _ _).
      * split; [by apply Forall_insert|].
        unfold keysOf. rewrite list_fmap_insert, app_nil_r.
        apply list_insert_id. by rewrite list_lookup_fmap, Hx, <- Hp.
      * by rewrite app_nil_r.
    + apply firstIndexFrom_None with (x := r) in Hi; [|done].
      unfold hasKey in Hi. congruence.
  - eexists. split; [reflexivity|]. split.
    + apply Forall_app. split; [done|]. by apply Forall_singleton.
    + unfold keysOf. by rewrite fmap_app.
Qed.

Lemma forEach_keys keys cloudItems : ∀ merged,
  records merged → records cloudItems → noNaNKey keyField cloudItems →
  (∀ k, k ∈ keys → k ∈ keysOf keyField merged) →
  ∃ merged', forEach (mergeStep newDate keyField keys) cloudItems merged = Normal merged'
    ∧ records merged'
    ∧ keysOf keyField merged' =
        keysOf keyField merged
          ++ List.filter (fun k => negb (setHas keys k)) (keysOf keyField cloudItems).
Proof.
  induction cloudItems as [|c cs IH]; intros merged Hm Hcs Hnan Hkeys; simpl.
  - exists merged. by rewrite app_nil_r.
  - apply Forall_cons in Hcs as [Hc Hcs]. apply Forall_cons in Hnan as [Hn Hnan].
    destruct (mergeStep_keys keys merged c Hm Hc Hn Hkeys) as (m1 & -> & Hm1 & Hk1).
    simpl. destruct (IH m1 Hm1 Hcs Hnan) as (m2 & -> & Hm2 & Hk2).
    { intros k Hk. rewrite Hk1. apply elem_of_app. left. by apply Hkeys. }
    exists m2. split; [done|]. split; [done|].
    rewrite Hk2, Hk1, <- app_assoc. f_equal.
    by destruct (setHas keys (field keyField c)).
Qed.

(** The keys of the merged collection: those of the local collection, in
    order, then the cloud keys that no local record has. *)
Lemma mergeArrayData_keys localItems cloudItems :
  records localItems → records cloudItems → noNaNKey keyField cloudItems →
  ∃ merged,
    mergeArrayData newDate (JArr localItems) (JArr cloudItems) keyField = Normal (JArr merged)
    ∧ records merged
    ∧ keysOf keyField merged =
        keysOf keyField localItems
          ++ List.filter (fun k => negb (setHas (keysOf keyField localItems) k))
               (keysOf keyField cloudItems).
Proof.
  intros Hl Hc Hn. unfold mergeArrayData. rewrite mapM_keys by done. simpl.
  destruct (forEach_keys (field keyField <$> localItems) cloudItems localItems)
    as (merged & -> & Hm & Hk); try done.
  exists merged. done.
Qed.

End KeyPreservation.

(** C1. For every local collection and every remote collection of records
    (no record of the remote one having the key NaN), [mergeArrayData]
    returns a collection, and that collection holds a record for every key
    that a record of either input has. *)
Theorem mergeArrayData_keeps_every_key
    (newDate : JsVal → option Z) (keyField : string) (localItems cloudItems : list JsVal) :
  records localItems → records cloudItems → noNaNKey keyField cloudItems →
  ∃ merged,
    mergeArrayData newDate (JArr localItems) (JArr cloudItems) keyField = Normal (JArr merged)
    ∧ ∀ item, item ∈ localItems ∨ item ∈ cloudItems →
        ∃ r, r ∈ merged ∧ field keyField r = field keyField item.
Proof.
  intros Hl Hc Hn.
  destruct (mergeArrayData_keys newDate keyField _ _ Hl Hc Hn) as (merged & Hrun & _ & Hk).
  exists merged. split; [done|]. intros item Hitem.
  assert (field keyField item ∈ keysOf keyField merged) as Hin.
  { rewrite Hk. apply elem_of_app. destruct Hitem as [Hi|Hi].
    - left. unfold keysOf. by apply list_elem_of_fmap_2.
    - destruct (setHas (keysOf keyField localItems) (field keyField item)) eqn:Hhas.
      + left. by apply setHas_elem.
      + right. apply list_elem_of_In, filter_In. split.
        * apply list_elem_of_In. unfold keysOf. by apply list_elem_of_fmap_2.
        * by rewrite Hhas. }
  unfold keysOf in Hin. apply list_elem_of_fmap in Hin as (r & Hr & Hrm). eauto.
Qed.

Lemma mergeArrayData_keeps_every_key_witness :
  ∃ merged,
    mergeArrayData hostDate (JArr [t1_local]) (JArr [t1_remote; t2_remote]) "id"
      = Normal (JArr merged)
    ∧ ∀ item, item ∈ [t1_local] ∨ item ∈ [t1_remote; t2_remote] →
        ∃ r, r ∈ merged ∧ field "id" r = field "id" item.
Proof.
  apply (mergeArrayData_keeps_every_key hostDate "id" [t1_local] [t1_remote; t2_remote]).
  - repeat constructor.
  - repeat constructor.
  - repeat constructor; vm_compute; discriminate.
Defined.

(** ** C2: the later record wins *)

Section ConflictResolution.

Variable newDate : JsVal → option Z.
Variable keyField : string.

Lemma mergeStep_filter k keys merged c x :
  records merged → isRecord c = true → field keyField c ≠ JNum NaN →
  (∀ k', k' ∈ keys → k' ∈ keysOf keyField merged) →
  k ∈ keys → strictEq k k = true →
  List.filter (hasKey keyField k) merged = [x] →
  ∃ merged', mergeStep newDate keyField keys merged c = Normal merged'
    ∧ records merged'
    ∧ (∀ k', k' ∈ keys → k' ∈ keysOf keyField merged')
    ∧ List.filter (hasKey keyField k) merged' = [if hasKey keyField k c then pick newDate x c else x].
Proof.
  intros Hm Hc Hnan Hkeys Hk Hrefl Hf.
  destruct (mergeStep_keys newDate keyField keys merged c Hm Hc Hnan Hkeys)
    as (merged' & Hrun & Hm' & Hk').
  exists merged'. split; [done|]. split; [done|]. split.
  { intros k' Hin. rewrite Hk'. apply elem_of_app. left. by apply Hkeys. }
  rewrite mergeStep_records in Hrun by done.
  destruct (hasKey keyField k c) eqn:Hkc.
  - assert (field keyField c = k) as Hck by (by apply strictEq_eq).
    assert (setHas keys (field keyField c) = true) as Hhas.
    { unfold setHas. apply existsb_exists. exists k. rewrite Hck. split.
      - by apply list_elem_of_In.
      - rewrite sameValueZero_strictEq; [done|congruence]. }
    rewrite Hhas in Hrun. simpl in Hrun. rewrite Hck in Hrun.
    destruct (firstIndexFrom _ merged 0) as [i|] eqn:Hi; [|done].
    apply firstIndexFrom_Some in Hi as (y & Hy & Hp & _).
    rewrite Nat.sub_0_r in Hy. rewrite Hy in Hrun. simpl in Hrun.
    destruct (filter_insert_unique _ _ _ _ _ _ Hf Hy Hp Hkc) as [-> Hins].
    injection Hrun as <-. unfold pick. by destruct (dateGt _ _).
  - destruct (setHas keys (field keyField c)) eqn:Hhas; simpl in Hrun.
    + destruct (firstIndexFrom _ merged 0) as [i|] eqn:Hi; [|done].
      apply firstIndexFrom_Some in Hi as (y & Hy & Hp & _).
      rewrite Nat.sub_0_r in Hy. rewrite Hy in Hrun. simpl in Hrun.
      injection Hrun as <-. destruct (dateGt _ _); [|done].
      rewrite (filter_insert_other _ _ _ y); [done|done| |done].
      apply strictEq_eq in Hp. unfold hasKey in *. by rewrite Hp.
    + injection Hrun as <-. rewrite List.filter_app. simpl. rewrite Hkc.
      by rewrite app_nil_r.
Qed.

Lemma forEach_filter k keys cloudItems : ∀ merged x,
  records merged → records cloudItems → noNaNKey keyField cloudItems →
  (∀ k', k' ∈ keys → k' ∈ keysOf keyField merged) →
  k ∈ keys → strictEq k k = true →
  List.filter (hasKey keyField k) merged = [x] →
  ∃ merged', forEach (mergeStep newDate keyField keys) cloudItems merged = Normal merged'
    ∧ List.filter (hasKey keyField k) merged'
      = [foldl (pick newDate) x (List.filter (hasKey keyField k) cloudItems)].
Proof.
  induction cloudItems as [|c cs IH]; intros merged x Hm Hcs Hnan Hkeys Hk Hrefl Hf; simpl.
  - by exists merged.
  - apply Forall_cons in Hcs as [Hc Hcs]. apply Forall_cons in Hnan as [Hn Hnan].
    destruct (mergeStep_filter k keys merged c x Hm Hc Hn Hkeys Hk Hrefl Hf)
      as (m1 & -> & Hm1 & Hk1 & Hf1).
    simpl. destruct (IH m1 _ Hm1 Hcs Hnan Hk1 Hk Hrefl Hf1) as (m2 & -> & Hf2).
    exists m2. split; [done|]. rewrite Hf2. by destruct (hasKey keyField k c).
Qed.

(** A key held by exactly one local record [a]: after the merge it is held
    by exactly one record, [a] or the latest of the cloud records with that
    key. *)
Lemma mergeArrayData_unique_key k localItems cloudItems a :
  records localItems → records cloudItems → noNaNKey keyField cloudItems →
  List.filter (hasKey keyField k) localItems = [a] →
  ∃ merged,
    mergeArrayData newDate (JArr localItems) (JArr cloudItems) keyField = Normal (JArr merged)
    ∧ List.filter (hasKey keyField k) merged
      = [foldl (pick newDate) a (List.filter (hasKey keyField k) cloudItems)].
Proof.
  intros Hl Hc Hn Hf.
  assert (In a (List.filter (hasKey keyField k) localItems)) as Ha by (rewrite Hf; by left).
  apply filter_In in Ha as [Ha Hka]. apply list_elem_of_In in Ha.
  pose proof (strictEq_eq _ _ Hka) as Hak.
  unfold mergeArrayData. rewrite mapM_keys by done. simpl.
  destruct (forEach_filter k (field keyField <$> localItems) cloudItems localItems a)
    as (merged & -> & Hm); try done.
  - rewrite <- Hak. by apply list_elem_of_fmap_2.
  - unfold hasKey in Hka. by rewrite Hak in Hka.
  - by exists merged.
Qed.

End ConflictResolution.

(** C2. A key [k] with one record [a] on one side and one record [b] on the
    other, whose times (the [timestamp] field, else the [date] field) are
    both valid and differ: in the merged collection the key is held by the
    record with the later time, whichever of the two is passed as the local
    and which as the cloud argument. *)
Theorem mergeArrayData_later_record_wins
    (newDate : JsVal → option Z) (keyField : string) (k : JsVal)
    (A B : list JsVal) (a b : JsVal) (ta tb : Z) :
  records A → records B → noNaNKey keyField A → noNaNKey keyField B →
  List.filter (hasKey keyField k) A = [a] →
  List.filter (hasKey keyField k) B = [b] →
  timeOf newDate a = Some ta → timeOf newDate b = Some tb → ta ≠ tb →
  ∃ mergedAB mergedBA,
    mergeArrayData newDate (JArr A) (JArr B) keyField = Normal (JArr mergedAB)
    ∧ mergeArrayData newDate (JArr B) (JArr A) keyField = Normal (JArr mergedBA)
    ∧ List.filter (hasKey keyField k) mergedAB = [if bool_decide (ta < tb) then b else a]
    ∧ List.filter (hasKey keyField k) mergedBA = [if bool_decide (ta < tb) then b else a].
Proof.
  intros HA HB HnA HnB Ha Hb Hta Htb Hne.
  destruct (mergeArrayData_unique_key newDate keyField k A B a HA HB HnB Ha)
    as (m1 & H1 & Hf1).
  destruct (mergeArrayData_unique_key newDate keyField k B A b HB HA HnA Hb)
    as (m2 & H2 & Hf2).
  exists m1, m2. split; [done|]. split; [done|].
  rewrite Hf1, Hf2, Ha, Hb. simpl. unfold pick, dateGt. rewrite Hta, Htb.
  split; repeat case_bool_decide; try done; lia.
Qed.

Lemma mergeArrayData_later_record_wins_witness :
  ∃ mergedAB mergedBA,
    mergeArrayData hostDate (JArr [t1_local]) (JArr [t1_remote; t2_remote]) "id"
      = Normal (JArr mergedAB)
    ∧ mergeArrayData hostDate (JArr [t1_remote; t2_remote]) (JArr [t1_local]) "id"
      = Normal (JArr mergedBA)
    ∧ List.filter (hasKey "id" (JStr "t1")) mergedAB
      = [if bool_decide (1704067200000 < 1704412800000) then t1_remote else t1_local]
    ∧ List.filter (hasKey "id" (JStr "t1")) mergedBA
      = [if bool_decide (1704067200000 < 1704412800000) then t1_remote else t1_local].
Proof.
  apply (mergeArrayData_later_record_wins hostDate "id" (JStr "t1")
           [t1_local] [t1_remote; t2_remote] t1_local t1_remote).
  - repeat constructor.
  - repeat constructor.
  - repeat constructor; vm_compute; discriminate.
  - repeat constructor; vm_compute; discriminate.
  - reflexivity.
  - reflexivity.
  - reflexivity.
  - reflexivity.
  - lia.
Defined.

(** ** C3: merging a collection with itself *)

Section Idempotence.

Variable newDate : JsVal → option Z.
Variable keyField : string.

Lemma mergeStep_self A c :
  records A → NoDup (keysOf keyField A) → c ∈ A →
  strictEq (field keyField c) (field keyField c) = true →
  mergeStep newDate keyField (keysOf keyField A) A c = Normal A.
Proof.
  intros HA Hnd Hc Hrefl.
  assert (isRecord c = true) as Hrec.
  { unfold records in HA. rewrite Forall_forall in HA. by apply HA. }
  rewrite mergeStep_records by done.
  rewrite strictEq_refl_setHas; [|done|by apply list_elem_of_fmap_2]. simpl.
  destruct (firstIndexFrom _ A 0) as [i|] eqn:Hi.
  - apply firstIndexFrom_Some in Hi as (y & Hy & Hp & _).
    rewrite Nat.sub_0_r in Hy. rewrite Hy. simpl.
    apply list_elem_of_lookup in Hc as [j Hj].
    assert (i = j) as ->.
    { eapply NoDup_lookup; [exact Hnd| |].
      - unfold keysOf. by rewrite list_lookup_fmap, Hy.
      - unfold keysOf. rewrite list_lookup_fmap, Hj. simpl. f_equal.
        symmetry. by apply strictEq_eq. }
    assert (y = c) as -> by congruence.
    by rewrite dateGt_irrefl.
  - apply firstIndexFrom_None with (x := c) in Hi; [|done].
    unfold hasKey in Hi. congruence.
Qed.

Lemma forEach_self A cs :
  records A → NoDup (keysOf keyField A) → selfEqualKeys keyField cs →
  (∀ c, c ∈ cs → c ∈ A) →
  forEach (mergeStep newDate keyField (keysOf keyField A)) cs A = Normal A.
Proof.
  intros HA Hnd. induction cs as [|c cs IH]; intros Hself Hsub; simpl; [done|].
  apply Forall_cons in Hself as [Hc Hself].
  assert (c ∈ A) as HcA by (apply Hsub; by left).
  rewrite (mergeStep_self A c HA Hnd HcA Hc). simpl.
  apply IH; [done|]. intros c' Hc'. apply Hsub. by right.
Qed.

End Idempotence.

(** C3. Merging a collection with itself yields that collection.  A
    collection is an array of records in which the key identifies the
    record: no two records have the same key, and the keys are strings,
    numbers other than NaN, booleans, [null] or [undefined] (the values that
    [===] finds equal to themselves); the ids and the category names of the
    data model are strings. *)
Theorem mergeArrayData_idempotent
    (newDate : JsVal → option Z) (keyField : string) (A : list JsVal) :
  records A → selfEqualKeys keyField A → NoDup (keysOf keyField A) →
  mergeArrayData newDate (JArr A) (JArr A) keyField = Normal (JArr A).
Proof.
  intros HA Hself Hnd. unfold mergeArrayData. rewrite mapM_keys by done. simpl.
  fold (keysOf keyField A). by rewrite forEach_self.
Qed.

Lemma mergeArrayData_idempotent_witness :
  mergeArrayData hostDate (JArr [t1_remote; t2_remote]) (JArr [t1_remote; t2_remote]) "id"
  = Normal (JArr [t1_remote; t2_remote]).
Proof.
  apply (mergeArrayData_idempotent hostDate "id" [t1_remote; t2_remote]).
  - repeat constructor.
  - repeat constructor.
  - assert (keysOf "id" [t1_remote; t2_remote] = [JStr "t1"; JStr "t2"]) as -> by reflexivity.
    apply NoDup_cons. split; [|apply NoDup_singleton].
    intros Hin. apply list_elem_of_singleton in Hin. discriminate.
Defined.

(** An array that holds an id twice is not such a collection.  With the
    second record the later one, merging the array with itself overwrites
    the first record with the second. *)
Lemma mergeArrayData_not_idempotent_on_duplicate_keys :
  mergeArrayData hostDate (JArr [t1_local; t1_remote]) (JArr [t1_local; t1_remote]) "id"
    = Normal (JArr [t1_remote; t1_remote])
  ∧ mergeArrayData hostDate (JArr [t1_local; t1_remote]) (JArr [t1_local; t1_remote]) "id"
    ≠ Normal (JArr [t1_local; t1_remote]).
Proof.
  assert (mergeArrayData hostDate (JArr [t1_local; t1_remote]) (JArr [t1_local; t1_remote]) "id"
          = Normal (JArr [t1_remote; t1_remote])) as H by (vm_compute; reflexivity).
  split; [exact H|]. rewrite H. intros Heq.
  apply (f_equal (fun c => match c with
                           | Normal (JArr (x :: _)) => field "category" x
                           | _ => JUndefined
                           end)) in Heq.
  vm_compute in Heq. discriminate.
Qed.

(** ** C4: the settings merge *)

(** C4, as amended. The settings merge is an overlay, field by field: a
    field that the remote record has takes the remote value, a field that
    only the local record has keeps its local value, and the two
    device-local fields always keep their local values. *)
Theorem mergeSettings_overlays_remote_on_local (localProps cloudProps : gmap string JsVal) :
  ∃ merged,
    mergedSettings (JObj localProps) (JObj cloudProps) = Normal (JObj merged)
    ∧ (∀ p, deviceLocal p = false →
         merged !! p = match cloudProps !! p with
                       | Some v => Some v
                       | None => localProps !! p
                       end)
    ∧ (∀ p, deviceLocal p = true →
         field p (JObj merged) = field p (JObj localProps)).
Proof.
  eexists. split; [reflexivity|]. split.
  - intros p Hp. unfold deviceLocal in Hp. apply orb_false_elim in Hp as [H1 H2].
    apply String.eqb_neq in H1, H2.
    rewrite !lookup_insert_ne by done. rewrite lookup_union.
    simpl. by destruct (cloudProps !! p), (localProps !! p).
  - intros p Hp. unfold deviceLocal in Hp. apply orb_true_elim in Hp as [H|H];
      apply String.eqb_eq in H; subst p; simpl.
    + by rewrite lookup_insert_ne, lookup_insert_eq.
    + by rewrite lookup_insert_eq.
Qed.

(** [mergeSettings] saves that object under the settings key when the local
    storage can be read and written. *)
Lemma mergeSettings_saves localProps cloudProps merged w :
  readable (localStorage w) = true → writable (localStorage w) = true →
  entries (localStorage w) !! "budgetApp_settings" = Some (JsonText (JObj localProps)) →
  mergedSettings (JObj localProps) (JObj cloudProps) = Normal (JObj merged) →
  (mergeSettings (JObj cloudProps) w).1 = Normal ()
  ∧ entries (localStorage (mergeSettings (JObj cloudProps) w).2) !! "budgetApp_settings"
    = Some (JSON_stringify (JObj merged))
  ∧ app (mergeSettings (JObj cloudProps) w).2 = app w.
Proof.
  intros Hr Hw He Hm. destruct w as [a [le lr lw] se]. simpl in *. subst lr lw.
  unfold mergeSettings, getAppSettings, tryCatchDo, localGetItem, getItem.
  run. cbn [localStorage readable entries]. rewrite He.
  cbn [parseOr textTruthy JSON_parse]. run.
  rewrite Hm. run. unfold saveAppSettings, tryCatchDo.
  rewrite run_localSetItem by done. cbn [fst snd app localStorage entries].
  by rewrite lookup_insert_eq.
Qed.

(** C4, counterexample. The local record has a field [theme] that the
    remote record lacks: the merged settings keep it, so they do not equal
    the remote record on that field. *)
Lemma mergeSettings_keeps_local_only_field :
  ∃ merged,
    mergedSettings (JObj localSettingsSample) (JObj cloudSettingsSample) = Normal (JObj merged)
    ∧ field "theme" (JObj merged) = JStr "dark"
    ∧ field "theme" (JObj cloudSettingsSample) = JUndefined
    ∧ field "lowBalanceThreshold" (JObj merged) = num 50
    ∧ field "deviceId" (JObj merged) = JStr "device_1".
Proof. eexists. repeat split. Qed.

(** Within [mergeCloudData] the merged settings do not last: [mergeSettings]
    writes them under the settings key, and the [saveData] that ends
    [mergeCloudData] writes the unchanged [this.settings] under the same
    key. *)
Example mergeCloudData_settings_overwritten :
  entries
    (localStorage
       (mergeCloudData hostDate (obj [("settings", JObj cloudSettingsSample)])
          "2024-01-05T10:00:00.000Z" worldWithSettings).2) !! "budgetApp_settings"
  = Some (JsonText defaultSettings).
Proof. vm_compute. reflexivity. Qed.

(** ** C5: merging the categories *)

(** A remote snapshot with transactions only is merged and saved. *)
Example mergeCloudData_transactions :
  (mergeCloudData hostDate (obj [("transactions", JArr [t1_remote; t2_remote])])
     "2024-01-05T10:00:00.000Z" syncingWorld).1 = Normal ()
  ∧ transactions
      (app (mergeCloudData hostDate (obj [("transactions", JArr [t1_remote; t2_remote])])
              "2024-01-05T10:00:00.000Z" syncingWorld).2)
    = JArr [t1_remote; t2_remote]
  ∧ entries
      (localStorage
         (mergeCloudData hostDate (obj [("transactions", JArr [t1_remote; t2_remote])])
            "2024-01-05T10:00:00.000Z" syncingWorld).2) !! "budgetApp_transactions"
    = Some (JsonText (JArr [t1_remote; t2_remote])).
Proof. repeat split; vm_compute; reflexivity. Qed.

(** The budgets are an object keyed by category, and the remote budgets
    arrive as such an object: their merge throws in the same way as the
    merge of the categories. *)
Example mergeCloudData_budgets_throw :
  mergeCloudData hostDate (obj [("budgets", obj [("Food", JStr "200")])])
    "2024-01-05T10:00:00.000Z" sampleWorld
  = (Throw TypeError, sampleWorld).
Proof. vm_compute. reflexivity. Qed.

(** C5, the code at the failing input. The categories are an object with
    the two lists [expense] and [income]; [mergeCloudData] hands that object
    to [mergeArrayData], which spreads it as an array: the merge throws a
    TypeError and the categories stay as they were, without the remote
    name. *)
Theorem mergeCloudData_categories_not_merged :
  mergeCloudData hostDate cloudCategoriesOnly "2024-01-05T10:00:00.000Z" sampleWorld
  = (Throw TypeError, sampleWorld).
Proof. vm_compute. reflexivity. Qed.

(** The same for every state whose categories are an object and every
    remote category set: nothing is merged. *)
Lemma mergeCloudData_categories_throw newDate cloudCategories now w :
  isRecord (categories (app w)) = true → truthy cloudCategories = true →
  mergeCloudData newDate (obj [("categories", cloudCategories)]) now w = (Throw TypeError, w).
Proof.
  intros Hc Ht. unfold mergeCloudData.
  change (truthy (obj [("categories", cloudCategories)])) with true. cbn [negb].
  rewrite !getProp_singleton. cbn [String.eqb Ascii.eqb Bool.eqb]. run.
  change (truthy JUndefined) with false. run.
  change (truthy JUndefined) with false. run.
  rewrite Ht. run.
  rewrite (jsOr_truthy _ _ (isRecord_truthy _ Hc)).
  by destruct (categories (app w)).
Qed.

(** ** C6: a sync cycle whose download fails *)

(** [downloadFromCloud] reports every failure as [null]: when the device is
    offline, when a sync is in flight, and when the first table read
    throws. *)
Lemma downloadFromCloud_failure isOnline syncInProgress tables e :
  isOnline = false ∨ syncInProgress = true ∨ downloadTransactions tables = Throw e →
  downloadFromCloud isOnline syncInProgress tables = JNull.
Proof.
  unfold downloadFromCloud. intros [->|[->|H]]; [done|by rewrite orb_true_r|].
  rewrite H. by destruct (_ || _).
Qed.

Lemma getAppSettings_total w : ∃ s, getAppSettings w = (Normal s, w).
Proof.
  unfold getAppSettings, tryCatchDo, localGetItem. run.
  destruct (getItem (localStorage w) "budgetApp_settings") as [d|e]; run; [|by eexists].
  destruct (parseOr d (JObj ∅)); by eexists.
Qed.

Lemma dataToSync_total now w : ∃ data, dataToSync now w = (Normal data, w).
Proof.
  unfold dataToSync. run. destruct (getAppSettings_total w) as [s ->]. run. by eexists.
Qed.


(** The branches of [performCloudSync] for a download that returns.  They
    are reached only with a client object that has a [downloadData]; the
    script creates none.  A download that returns no data skips the merge:
    the four collections and both storages are left as they were, the local
    snapshot is uploaded, and the cycle reports the outcome of that upload
    ([true] when the upload succeeds). *)
Lemma performCloudSync_without_cloud_data
    (newDate : JsVal → option Z) (sync : SupabaseSync) (now : string) (w : World)
    (cloudData : JsVal) :
  cloudSyncEnabled (app w) = true →
  downloadData sync = Normal cloudData → truthy cloudData = false →
  ∃ data,
    dataToSync now w = (Normal data, w)
    ∧ (performCloudSync newDate (Some sync) now w).1
      = Normal (match uploadData sync data with
                | Normal success => truthy success
                | Throw _ => false
                end)
    ∧ sameCollections (app w) (app (performCloudSync newDate (Some sync) now w).2)
    ∧ sameStores w (performCloudSync newDate (Some sync) now w).2.
Proof.
  intros Hen Hdl Hno. destruct (dataToSync_total now w) as [data Hdata].
  exists data. split; [done|].
  unfold performCloudSync, tryCatchDo. run. rewrite Hen. cbn [negb]. run.
  rewrite Hdl. run. rewrite Hno. run. rewrite Hdata. run.
  destruct (uploadData sync data) as [success|e]; run; [|by repeat split].
  destruct (truthy success); run; by repeat split.
Qed.

Lemma performCloudSync_without_cloud_data_witness :
  ∃ data,
    dataToSync "2024-01-05T10:00:00.000Z" syncingWorld = (Normal data, syncingWorld)
    ∧ (performCloudSync hostDate (Some failingDownload) "2024-01-05T10:00:00.000Z"
         syncingWorld).1
      = Normal (match uploadData failingDownload data with
                | Normal success => truthy success
                | Throw _ => false
                end)
    ∧ sameCollections (app syncingWorld)
        (app (performCloudSync hostDate (Some failingDownload) "2024-01-05T10:00:00.000Z"
                syncingWorld).2)
    ∧ sameStores syncingWorld
        (performCloudSync hostDate (Some failingDownload) "2024-01-05T10:00:00.000Z"
           syncingWorld).2.
Proof.
  apply (performCloudSync_without_cloud_data hostDate failingDownload
           "2024-01-05T10:00:00.000Z" syncingWorld JNull).
  - reflexivity.
  - reflexivity.
  - reflexivity.
Defined.

(** With such a client, a download that returns no data and an upload that
    succeeds make the cycle report success. *)
Example performCloudSync_reports_success_after_failed_download :
  downloadFromCloud true false
    {| downloadTransactions := Throw DOMException; downloadBudgets := Normal (JObj ∅);
       downloadSettings := Normal JNull; downloadCategories := Normal JNull |}
  = JNull
  ∧ downloadData failingDownload = Normal JNull
  ∧ (performCloudSync hostDate (Some failingDownload) "2024-01-05T10:00:00.000Z"
       syncingWorld).1 = Normal true.
Proof. repeat split. Qed.

(** ** C7: loading from a missing, corrupt or unreadable storage *)

Lemma parseOr_corrupt s dflt : s ≠ "" → parseOr (Some (RawText s)) dflt = Throw SyntaxError.
Proof.
  intros Hs. unfold parseOr. simpl.
  destruct (String.eqb s "") eqn:E; [|done]. by apply String.eqb_eq in E.
Qed.

Lemma parseOr_throws data dflt e : parseOr data dflt = Throw e → e = SyntaxError.
Proof.
  unfold parseOr, JSON_parse. repeat case_match; congruence.
Qed.

Lemma loadFromLocalStorage_stores w : sameStores w (loadFromLocalStorage w).2.
Proof.
  destruct w as [a le se].
  unfold loadFromLocalStorage, mbind, Action_bind, localGetItem, lift, read,
    setTransactions, setBudgets, setSettings, setCategories, updateApp. simpl.
  repeat (match goal with
          | |- context [match ?c with Normal _ => _ | Throw _ => _ end] => destruct c; simpl
          end); done.
Qed.

Lemma loadFromLocalStorage_unreadable w :
  readable (localStorage w) = false → (loadFromLocalStorage w).1 = Throw DOMException.
Proof.
  intros H. unfold loadFromLocalStorage, mbind, Action_bind, localGetItem, getItem.
  by rewrite H.
Qed.

Lemma loadFromLocalStorage_corrupt w key s :
  readable (localStorage w) = true → key ∈ collectionKeys →
  entries (localStorage w) !! key = Some (RawText s) → s ≠ "" →
  (loadFromLocalStorage w).1 = Throw SyntaxError.
Proof.
  intros Hr Hkey He Hs. destruct w as [a le se]. simpl in *.
  unfold loadFromLocalStorage, mbind, Action_bind, localGetItem, getItem, lift, read,
    setTransactions, setBudgets, setSettings, setCategories, updateApp. simpl.
  rewrite Hr. simpl.
  unfold collectionKeys in Hkey.
  repeat (apply elem_of_cons in Hkey as [->|Hkey]); [| | | |by apply elem_of_nil in Hkey];
    rewrite ?He, ?parseOr_corrupt by done; simpl; try done.
  all: repeat (match goal with
          | |- context [match parseOr ?d ?x with Normal _ => _ | Throw _ => _ end] =>
              let E := fresh in
              destruct (parseOr d x) eqn:E; simpl;
              [|by apply parseOr_throws in E as ->]
          end); done.
Qed.

Lemma initializeDefaultData_spec w :
  (initializeDefaultData w).1 = Normal ()
  ∧ defaultCollections (app (initializeDefaultData w).2)
  ∧ sameStores w (initializeDefaultData w).2.
Proof. destruct w as [a le se]. repeat split. Qed.

(** The fallback never throws; it takes the transactions from the session
    storage when they are there, and resets all four collections
    otherwise. *)
Lemma loadFromSessionStorage_spec w :
  (loadFromSessionStorage w).1 = Normal ()
  ∧ match sessionTransactions w with
    | Some v => transactions (app (loadFromSessionStorage w).2) = v
    | None => defaultCollections (app (loadFromSessionStorage w).2)
    end.
Proof.
  destruct w as [a le [se sr sw]].
  unfold loadFromSessionStorage, sessionTransactions, tryCatchDo, mbind, Action_bind,
    sessionGetItem, getItem, lift. simpl.
  destruct sr; simpl; [|by repeat split].
  destruct (se !! "budgetApp_transactions") as [[v|s]|]; simpl; [by repeat split| |by repeat split].
  destruct (String.eqb s ""); simpl; by repeat split.
Qed.

Lemma loadData_no_throw w : (loadData w).1 = Normal ().
Proof.
  unfold loadData, tryCatchDo.
  destruct (loadFromLocalStorage w) as [[[]|e] w']; simpl; [done|].
  apply loadFromSessionStorage_spec.
Qed.

Lemma loadData_after_failure w e :
  (loadFromLocalStorage w).1 = Throw e →
  match sessionTransactions w with
  | Some v => transactions (app (loadData w).2) = v
  | None => defaultCollections (app (loadData w).2)
  end.
Proof.
  intros H. unfold loadData, tryCatchDo.
  pose proof (loadFromLocalStorage_stores w) as [_ Hs].
  destruct (loadFromLocalStorage w) as [[[]|e'] w']; simpl in *; [done|].
  replace (sessionTransactions w) with (sessionTransactions w')
    by (unfold sessionTransactions; by rewrite Hs).
  apply loadFromSessionStorage_spec.
Qed.

Lemma loadData_fresh w :
  readable (localStorage w) = true →
  (∀ key, key ∈ collectionKeys → entries (localStorage w) !! key = None) →
  defaultCollections (app (loadData w).2).
Proof.
  intros Hr Hnone. destruct w as [a le se]. simpl in *.
  unfold loadData, tryCatchDo, loadFromLocalStorage, mbind, Action_bind, localGetItem,
    getItem, lift, read, setTransactions, setBudgets, setSettings, setCategories, updateApp.
  simpl. rewrite Hr. simpl.
  rewrite !Hnone by (unfold collectionKeys; set_solver). simpl.
  by repeat split.
Qed.

(** When the [try] block completes, each collection is what its entry
    parses to, and its default when the key is missing. *)
Lemma loadData_entries w :
  (loadFromLocalStorage w).1 = Normal () →
  loadedFrom w "budgetApp_transactions" (JArr []) (transactions (app (loadData w).2))
  ∧ loadedFrom w "budgetApp_budgets" (JObj ∅) (budgets (app (loadData w).2))
  ∧ loadedFrom w "budgetApp_settings" defaultSettings (settings (app (loadData w).2))
  ∧ loadedFrom w "budgetApp_categories" defaultCategories (categories (app (loadData w).2)).
Proof.
  unfold loadData, tryCatchDo, loadedFrom. destruct w as [a [le lr lw] se].
  unfold loadFromLocalStorage, mbind, Action_bind, localGetItem, getItem, lift, read,
    setTransactions, setBudgets, setSettings, setCategories, updateApp, parseOr. simpl.
  destruct lr; simpl; [|done].
  destruct (le !! "budgetApp_transactions") as [[t|t]|]; simpl;
    [|destruct (String.eqb t "") eqn:Et; simpl; [apply String.eqb_eq in Et|done]|];
    (destruct (le !! "budgetApp_budgets") as [[b|b]|]; simpl;
       [|destruct (String.eqb b "") eqn:Eb; simpl; [apply String.eqb_eq in Eb|done]|]);
    (destruct (le !! "budgetApp_settings") as [[s|s]|]; simpl;
       [|destruct (String.eqb s "") eqn:Es; simpl; [apply String.eqb_eq in Es|done]|]);
    (destruct (le !! "budgetApp_categories") as [[c|c]|]; simpl;
       [|destruct (String.eqb c "") eqn:Ec; simpl; [apply String.eqb_eq in Ec|done]|]);
    repeat (match goal with
            | |- context [match ?c with Normal _ => _ | Throw _ => _ end] =>
                destruct c; simpl; try done
            end); done.
Qed.

(** C7, as amended. [loadData] never throws.  When its [try] block runs to
    the end, each collection is what its entry parses to, and its documented
    default when its key is missing (all four, when none of the keys is
    stored).  The [try] block throws when the local storage cannot be read
    and when one of the four entries is not JSON; whenever it throws, the
    session storage is the fallback: its transactions, if it has some that
    parse, become the transactions; otherwise the four collections are the
    documented defaults. *)
Theorem loadData_defaults_or_session_fallback (w : World) :
  (loadData w).1 = Normal ()
  ∧ ((loadFromLocalStorage w).1 = Normal () →
     loadedFrom w "budgetApp_transactions" (JArr []) (transactions (app (loadData w).2))
     ∧ loadedFrom w "budgetApp_budgets" (JObj ∅) (budgets (app (loadData w).2))
     ∧ loadedFrom w "budgetApp_settings" defaultSettings (settings (app (loadData w).2))
     ∧ loadedFrom w "budgetApp_categories" defaultCategories
         (categories (app (loadData w).2)))
  ∧ (readable (localStorage w) = true →
     (∀ key, key ∈ collectionKeys → entries (localStorage w) !! key = None) →
     defaultCollections (app (loadData w).2))
  ∧ (localStorageFails w → ∃ e, (loadFromLocalStorage w).1 = Throw e)
  ∧ (∀ e, (loadFromLocalStorage w).1 = Throw e →
     match sessionTransactions w with
     | Some v => transactions (app (loadData w).2) = v
     | None => defaultCollections (app (loadData w).2)
     end).
Proof.
  split; [apply loadData_no_throw|]. split; [apply loadData_entries|].
  split; [apply loadData_fresh|]. split; [|apply loadData_after_failure].
  intros [Hr|(key & s & Hkey & He & Hs)].
  - exists DOMException. by apply loadFromLocalStorage_unreadable.
  - destruct (readable (localStorage w)) eqn:Hr.
    + exists SyntaxError. by eapply loadFromLocalStorage_corrupt.
    + exists DOMException. by apply loadFromLocalStorage_unreadable.
Qed.

(** C7, counterexample. The local storage throws on read and the session
    storage holds a transaction: after [loadData] the transactions are that
    transaction, not the empty default, and the other collections are not
    set. *)
Lemma loadData_takes_session_transactions :
  transactions (app (loadData worldWithSessionCopy).2) = JArr [t1_local]
  ∧ budgets (app (loadData worldWithSessionCopy).2) = JUndefined
  ∧ ¬ defaultCollections (app (loadData worldWithSessionCopy).2).
Proof.
  split; [reflexivity|]. split; [reflexivity|].
  intros [H _]. vm_compute in H. discriminate.
Qed.

(** The backup copy's [loadData(key, defaultValue)] returns the default
    when the storage throws on read, when the key is missing and when its
    content is not JSON. *)
Lemma ScriptBackup_loadData_default
    (useSession : bool) (key : string) (dflt : JsVal) (w : World) (storage : Storage) :
  storage = (if useSession then sessionStorage w else localStorage w) →
  readable storage = false
  ∨ entries storage !! key = None
  ∨ (∃ s, entries storage !! key = Some (RawText s)) →
  ScriptBackup.loadData useSession key dflt w = dflt.
Proof.
  intros Hst H. unfold ScriptBackup.loadData, tryCatch. rewrite <- Hst.
  unfold getItem. destruct (readable storage); [|done]. simpl.
  destruct H as [H|[H|[s H]]]; [done|by rewrite H|]. rewrite H. simpl.
  by destruct (_ || _).
Qed.

(** ** C8: export and import *)

Lemma jsize_item l x : x ∈ l → (jsize x < jsize (JArr l))%nat.
Proof. simpl. induction 1; simpl; lia. Qed.

Lemma jsize_prop (m : gmap string JsVal) p x :
  m !! p = Some x → (jsize x < jsize (JObj m))%nat.
Proof.
  simpl. intros H. rewrite <- (insert_delete_id m p x H), fmap_insert.
  rewrite map_fold_insert_L; [lia|intros; lia|].
  by rewrite lookup_fmap, lookup_delete_eq.
Qed.

(** Induction on a value with the hypothesis for every item of an array and
    every property of an object. *)
Lemma JsVal_nested_ind (P : JsVal → Prop) :
  P JUndefined → P JNull → (∀ b, P (JBool b)) → (∀ n, P (JNum n)) → (∀ s, P (JStr s)) →
  (∀ l, Forall P l → P (JArr l)) →
  (∀ m, map_Forall (fun _ => P) m → P (JObj m)) →
  ∀ v, P v.
Proof.
  intros Hu Hn Hb Hnum Hs Ha Ho v.
  remember (jsize v) as n eqn:Hsize. revert v Hsize.
  induction n as [n IH] using lt_wf_ind. intros v ->.
  destruct v; auto.
  - apply Ha. apply list.Forall_forall. intros x Hx.
    eapply IH; [|reflexivity]. by apply jsize_item.
  - apply Ho. intros p x Hp. eapply IH; [|reflexivity]. by eapply jsize_prop.
Qed.

Lemma JsonValue_defined v : JsonValue v → isUndefined v = false.
Proof. by destruct 1. Qed.

(** A JSON value survives [JSON.parse(JSON.stringify(v))] unchanged. *)
Lemma toJSON_id v : JsonValue v → toJSON v = v.
Proof.
  induction v as [| | | | |l IH|m IH] using JsVal_nested_ind; intros Hv; try done.
  - by inversion Hv.
  - inversion Hv as [| | | |l' Hl|]; subst. simpl. f_equal.
    rewrite <- (map_id l) at 2. apply map_ext_Forall.
    rewrite list.Forall_forall in *. intros x Hx.
    rewrite (JsonValue_defined x) by auto. auto.
  - inversion Hv as [| | | | |m' Hm]; subst. simpl. f_equal.
    apply map_eq. intros p. rewrite lookup_omap.
    destruct (m !! p) as [x|] eqn:Hp; simpl; [|done].
    rewrite (JsonValue_defined x) by (by eapply Hm). f_equal. eapply IH; eauto.
Qed.

Lemma JsonValue_obj l :
  Forall (fun kv => JsonValue kv.2) l → JsonValue (obj l).
Proof.
  intros Hl. apply json_obj. induction Hl as [|[p v] l Hv Hl IH]; simpl.
  - apply map_Forall_empty.
  - by apply map_Forall_insert_2.
Qed.

Lemma JSON_round_trip v :
  JsonValue v → JSON_parse (JSON_stringify v) = Normal v.
Proof.
  intros Hv. pose proof (toJSON_id v Hv) as Hid.
  destruct Hv; simpl in *; by rewrite ?Hid.
Qed.

(** The property [p] of a parsed snapshot whose source object had the JSON
    value [v] there. *)
Lemma snapshot_field (m : gmap string JsVal) p v :
  m !! p = Some v → JsonValue v → getProp (toJSON (JObj m)) p = Normal v.
Proof.
  intros Hp Hv. simpl. rewrite lookup_omap, Hp. simpl.
  by rewrite (JsonValue_defined v Hv), (toJSON_id v Hv).
Qed.

Lemma importData_spec result data now w ts bs ss cs :
  JSON_parse result = Normal data →
  isRecord data = true →
  getProp data "transactions" = Normal ts → isArray ts = true →
  getProp data "budgets" = Normal bs → isRecord bs = true →
  getProp data "settings" = Normal ss → isRecord ss = true →
  getProp data "categories" = Normal cs → isRecord cs = true →
  writable (localStorage w) = true →
  (importData (Some result) now w).1 = Normal ()
  ∧ transactions (app (importData (Some result) now w).2) = ts
  ∧ budgets (app (importData (Some result) now w).2) = bs
  ∧ settings (app (importData (Some result) now w).2) = ss
  ∧ categories (app (importData (Some result) now w).2) = cs.
Proof.
  intros Hparse Hdata Hts Hta Hbs Hbr Hss Hsr Hcs Hcr Hw.
  assert (validateImportedData data = Normal true) as Hvalid.
  { unfold validateImportedData.
    rewrite (isRecord_truthy _ Hdata), (isRecord_typeofObject _ Hdata). simpl.
    rewrite Hts. simpl. rewrite Hta. simpl.
    rewrite Hbs. simpl. rewrite (isRecord_typeofObject _ Hbr), andb_false_r.
    rewrite Hss. simpl. rewrite (isRecord_typeofObject _ Hsr), andb_false_r.
    rewrite Hcs. simpl. by rewrite (isRecord_typeofObject _ Hcr), andb_false_r. }
  unfold importData, tryCatchDo.
  run. rewrite Hparse. run. rewrite Hvalid. cbn [negb]. run.
  rewrite run_localSetItem by done. run.
  rewrite Hts. run. unfold setTransactions at 1, updateApp at 1. run.
  rewrite Hbs. run. unfold setBudgets at 1, updateApp at 1. run.
  rewrite Hss. run. unfold setSettings at 1, updateApp at 1. run.
  rewrite Hcs. run. unfold setCategories at 1, updateApp at 1. run.
  match goal with |- context [saveData now ?w'] =>
    destruct (saveData_app now w') as [Hs1 Hs2];
    destruct (saveData now w') as [[[]|e] w''] eqn:Hsave; simpl in *; [|done]
  end.
  rewrite !jsOr_truthy by auto using isArray_truthy, isRecord_truthy.
  done.
Qed.


Lemma wellFormed_intro a :
  isArray (transactions a) = true → isRecord (budgets a) = true →
  isRecord (settings a) = true → isRecord (categories a) = true →
  JsonValue (transactions a) → JsonValue (budgets a) →
  JsonValue (settings a) → JsonValue (categories a) → wellFormed a.
Proof. by repeat split. Qed.

Ltac json_value :=
  repeat first [ apply JsonValue_obj | apply json_arr | apply Forall_cons_2
               | apply Forall_nil_2 | apply json_null | apply json_bool
               | apply json_num | apply json_str ].

Lemma sampleApp_wellFormed : wellFormed sampleApp.
Proof. apply wellFormed_intro; try reflexivity; json_value. Qed.


(** ** C9: the guard of the data-entry form *)

Section DataEntryFacts.

Variable parseFloat : string → JsNumber.

(** [addTransaction] appends the submitted transaction exactly when the
    amount is a number other than zero and NaN and the category and date
    are filled in; the sign of the amount plays no part. *)
Lemma addTransaction_spec form id now w l :
  transactions (app w) = JArr l →
  (addTransaction parseFloat form id now w).1 = Normal ()
  ∧ transactions (app (addTransaction parseFloat form id now w).2)
    = if accepted parseFloat form then JArr (l ++ [newTransaction parseFloat form id])
      else JArr l.
Proof.
  intros Hl. unfold addTransaction, accepted, newTransaction.
  generalize (JNum (parseFloat (transactionAmount form))) as amount. intros amount.
  change (truthy (JStr (transactionCategory form)))
    with (negb (String.eqb (transactionCategory form) "")).
  change (truthy (JStr (transactionDate form)))
    with (negb (String.eqb (transactionDate form) "")).
  destruct (truthy amount); cbn [negb orb andb]; [|by split].
  destruct (String.eqb (transactionCategory form) ""); cbn [negb orb andb]; [by split|].
  destruct (String.eqb (transactionDate form) ""); cbn [negb orb andb]; [by split|].
  run. rewrite Hl. simpl push. run. unfold setTransactions at 1 2, updateApp at 1 2. run.
  match goal with |- context [saveData now ?w'] =>
    destruct (saveData_app now w') as [Hs1 Hs2];
    destruct (saveData now w') as [[[]|e] w''] eqn:Hsave; simpl in *; [|done]
  end.
  by rewrite Hs2.
Qed.

End DataEntryFacts.

(** C9, the code at the failing input. A submission whose amount field
    reads [-5] passes the guard: the transaction, with the amount -5, is
    appended to the transactions. *)
Theorem addTransaction_stores_negative_amount (parseFloat : string → JsNumber) :
  parseFloat "-5" = Fin (Qc_of_Z (-5)) →
  (addTransaction parseFloat negativeSubmission "1704067200000" "2024-01-01T00:00:00.000Z"
     resetWorld).1 = Normal ()
  ∧ transactions
      (app (addTransaction parseFloat negativeSubmission "1704067200000"
              "2024-01-01T00:00:00.000Z" resetWorld).2)
    = JArr [obj [("id", JStr "1704067200000"); ("type", JStr "expense");
                 ("amount", num (-5)); ("category", JStr "Food");
                 ("description", JStr ""); ("date", JStr "2024-01-01")]].
Proof.
  intros Hparse.
  destruct (addTransaction_spec parseFloat negativeSubmission "1704067200000"
              "2024-01-01T00:00:00.000Z" resetWorld [] eq_refl) as [H1 H2].
  split; [done|]. rewrite H2. unfold accepted, newTransaction. simpl.
  rewrite Hparse. reflexivity.
Qed.

Lemma addTransaction_stores_negative_amount_witness :
  (addTransaction (fun _ => Fin (Qc_of_Z (-5))) negativeSubmission "1704067200000"
     "2024-01-01T00:00:00.000Z" resetWorld).1 = Normal ()
  ∧ transactions
      (app (addTransaction (fun _ => Fin (Qc_of_Z (-5))) negativeSubmission "1704067200000"
              "2024-01-01T00:00:00.000Z" resetWorld).2)
    = JArr [obj [("id", JStr "1704067200000"); ("type", JStr "expense");
                 ("amount", num (-5)); ("category", JStr "Food");
                 ("description", JStr ""); ("date", JStr "2024-01-01")]].
Proof.
  apply (addTransaction_stores_negative_amount (fun _ => Fin (Qc_of_Z (-5)))).
  reflexivity.
Defined.

(** ** C10: clearing all data *)

(** C10. [clearAllData], once the user has confirmed, leaves the
    transactions empty, the budgets empty and the settings at their
    defaults, and it does not touch the categories; it does not throw.
    When the user declines, nothing changes.  The older copy of the script
    does the same to the state (its save may throw afterwards). *)
Theorem clearAllData_resets_all_but_categories (now : string) (w : World) :
  (clearAllData true now w).1 = Normal ()
  ∧ clearedFrom (app w) (app (clearAllData true now w).2)
  ∧ clearAllData false now w = (Normal (), w)
  ∧ clearedFrom (app w) (app (Legacy.clearAllData true w).2)
  ∧ Legacy.clearAllData false w = (Normal (), w).
Proof.
  destruct w as [a [le lr lw] [se sr sw]].
  destruct lw, sw; repeat split; reflexivity.
Qed.

(** * Further properties of the code *)

(** ** More on how an action runs *)

Lemma run_setTransactions v w :
  setTransactions v w =
    (Normal (), {| app := {| transactions := v; budgets := budgets (app w);
                             settings := settings (app w); categories := categories (app w);
                             cloudSyncEnabled := cloudSyncEnabled (app w);
                             lastCloudSync := lastCloudSync (app w) |};
                   localStorage := localStorage w; sessionStorage := sessionStorage w |}).
Proof. reflexivity. Qed.

Lemma run_setBudgets v w :
  setBudgets v w =
    (Normal (), {| app := {| transactions := transactions (app w); budgets := v;
                             settings := settings (app w); categories := categories (app w);
                             cloudSyncEnabled := cloudSyncEnabled (app w);
                             lastCloudSync := lastCloudSync (app w) |};
                   localStorage := localStorage w; sessionStorage := sessionStorage w |}).
Proof. reflexivity. Qed.

Lemma run_setSettings v w :
  setSettings v w =
    (Normal (), {| app := {| transactions := transactions (app w); budgets := budgets (app w);
                             settings := v; categories := categories (app w);
                             cloudSyncEnabled := cloudSyncEnabled (app w);
                             lastCloudSync := lastCloudSync (app w) |};
                   localStorage := localStorage w; sessionStorage := sessionStorage w |}).
Proof. reflexivity. Qed.

Lemma run_setCategories v w :
  setCategories v w =
    (Normal (), {| app := {| transactions := transactions (app w); budgets := budgets (app w);
                             settings := settings (app w); categories := v;
                             cloudSyncEnabled := cloudSyncEnabled (app w);
                             lastCloudSync := lastCloudSync (app w) |};
                   localStorage := localStorage w; sessionStorage := sessionStorage w |}).
Proof. reflexivity. Qed.

Lemma saveData_run now w : saveData now w = (Normal (), (saveData now w).2).
Proof.
  pose proof (saveData_app now w) as [H _].
  by destruct (saveData now w) as [[[]|e] w'].
Qed.

(** [saveData] changes neither the in-memory state nor what can be done
    with the two storages. *)
Lemma saveData_flags now w :
  readable (localStorage (saveData now w).2) = readable (localStorage w)
  ∧ writable (localStorage (saveData now w).2) = writable (localStorage w)
  ∧ readable (sessionStorage (saveData now w).2) = readable (sessionStorage w)
  ∧ writable (sessionStorage (saveData now w).2) = writable (sessionStorage w).
Proof.
  destruct w as [a [le lr lw] [se sr sw]].
  destruct lw, sw; repeat split; reflexivity.
Qed.

Lemma loadData_run w : loadData w = (Normal (), (loadData w).2).
Proof.
  pose proof (loadData_no_throw w) as H.
  by destruct (loadData w) as [[[]|e] w'].
Qed.

Lemma getProp_total v p : truthy v = true → ∃ x, getProp v p = Normal x.
Proof. destruct v; simpl; try discriminate; by eexists. Qed.

Lemma objectKeys_total v : truthy v = true → ∃ keys, objectKeys v = Normal keys.
Proof. destruct v; simpl; try discriminate; by eexists. Qed.

Lemma JSON_stringify_JsonValue v : JsonValue v → JSON_stringify v = JsonText v.
Proof.
  intros Hv. pose proof (toJSON_id v Hv) as Hid.
  destruct Hv; simpl in *; by rewrite ?Hid.
Qed.

Lemma List_filter_all {A} (p : A → bool) (l : list A) :
  Forall (fun x => p x = true) l → List.filter p l = l.
Proof. induction 1 as [|x l Hx Hl IH]; simpl; [done|]. by rewrite Hx, IH. Qed.

Lemma List_filter_sublist {A} (p : A → bool) (l : list A) : List.filter p l `sublist_of` l.
Proof.
  induction l as [|x l IH]; simpl; [done|].
  destruct (p x); [by apply sublist_skip|by apply sublist_cons].
Qed.

Lemma NoDup_List_filter {A} (p : A → bool) (l : list A) : NoDup l → NoDup (List.filter p l).
Proof. intros H. eapply sublist_NoDup; [exact H|apply List_filter_sublist]. Qed.

(** ** Saving and loading *)

(** When the four entries are JSON texts of an array, an object and two
    more values, [loadData] takes exactly these. *)
Lemma loadData_parsed w ts bs ss cs :
  readable (localStorage w) = true →
  entries (localStorage w) !! "budgetApp_transactions" = Some (JsonText ts) →
  entries (localStorage w) !! "budgetApp_budgets" = Some (JsonText bs) →
  entries (localStorage w) !! "budgetApp_settings" = Some (JsonText ss) →
  entries (localStorage w) !! "budgetApp_categories" = Some (JsonText cs) →
  isArray ts = true → isRecord bs = true →
  (loadFromLocalStorage w).1 = Normal ()
  ∧ transactions (app (loadData w).2) = ts
  ∧ budgets (app (loadData w).2) = bs
  ∧ settings (app (loadData w).2) = ss
  ∧ categories (app (loadData w).2) = cs
  ∧ sameStores w (loadData w).2.
Proof.
  intros Hr Ht Hb Hs Hc Hta Hbr. destruct w as [a [le lr lw] se]. simpl in *. subst lr.
  unfold loadData, tryCatchDo, loadFromLocalStorage, mbind, Action_bind, localGetItem,
    getItem, lift, read, setTransactions, setBudgets, setSettings, setCategories, updateApp.
  simpl. rewrite Ht, Hb, Hs, Hc. simpl.
  destruct ts; try discriminate. destruct bs; try discriminate. simpl.
  by repeat split.
Qed.

(** X1. A save followed by a load gives back what was saved: for a
    well-formed state and a local storage that can be read and written,
    [loadData] after [saveData] rebuilds the transactions, budgets, settings
    and categories of the saved state, whatever the in-memory state was
    before the load, and it leaves the storage as the save left it. *)
Theorem saveData_then_loadData (now : string) (w : World) (a' : BudgetApp) :
  wellFormed (app w) →
  readable (localStorage w) = true → writable (localStorage w) = true →
  sameCollections (app w)
    (app (loadData {| app := a'; localStorage := localStorage (saveData now w).2;
                      sessionStorage := sessionStorage (saveData now w).2 |}).2)
  ∧ localStorage (loadData {| app := a'; localStorage := localStorage (saveData now w).2;
                              sessionStorage := sessionStorage (saveData now w).2 |}).2
    = localStorage (saveData now w).2.
Proof.
  intros (Hta & Hbr & Hsr & Hcr & Htj & Hbj & Hsj & Hcj) Hr Hw.
  destruct (saveData_flags now w) as (Hr' & _).
  set (w' := {| app := a'; localStorage := localStorage (saveData now w).2;
                sessionStorage := sessionStorage (saveData now w).2 |}).
  assert (readable (localStorage w') = true) as Hr'' by (simpl; congruence).
  assert (∀ key v, JsonValue v →
            entries (localStorage (saveData now w).2) !! key = Some (JSON_stringify v) →
            entries (localStorage w') !! key = Some (JsonText v)) as Hkey.
  { intros key v Hv Hk. unfold w'. simpl. by rewrite Hk, JSON_stringify_JsonValue. }
  assert (entries (localStorage w') !! "budgetApp_transactions"
          = Some (JsonText (transactions (app w)))) as Ht
    by (apply Hkey; [done|]; by rewrite saveData_writes by done).
  assert (entries (localStorage w') !! "budgetApp_budgets"
          = Some (JsonText (budgets (app w)))) as Hb
    by (apply Hkey; [done|]; by rewrite saveData_writes by done).
  assert (entries (localStorage w') !! "budgetApp_settings"
          = Some (JsonText (settings (app w)))) as Hs
    by (apply Hkey; [done|]; by rewrite saveData_writes by done).
  assert (entries (localStorage w') !! "budgetApp_categories"
          = Some (JsonText (categories (app w)))) as Hc
    by (apply Hkey; [done|]; by rewrite saveData_writes by done).
  destruct (loadData_parsed w' _ _ _ _ Hr'' Ht Hb Hs Hc Hta Hbr)
    as (_ & H1 & H2 & H3 & H4 & H5 & _).
  split; [by repeat split|exact H5].
Qed.

Lemma saveData_then_loadData_witness :
  sameCollections (app sampleWorld)
    (app (loadData {| app := newApp;
                      localStorage :=
                        localStorage (saveData "2024-01-05T10:00:00.000Z" sampleWorld).2;
                      sessionStorage :=
                        sessionStorage (saveData "2024-01-05T10:00:00.000Z" sampleWorld).2 |}).2)
  ∧ localStorage
      (loadData {| app := newApp;
                   localStorage :=
                     localStorage (saveData "2024-01-05T10:00:00.000Z" sampleWorld).2;
                   sessionStorage :=
                     sessionStorage (saveData "2024-01-05T10:00:00.000Z" sampleWorld).2 |}).2
    = localStorage (saveData "2024-01-05T10:00:00.000Z" sampleWorld).2.
Proof.
  apply (saveData_then_loadData "2024-01-05T10:00:00.000Z" sampleWorld newApp).
  - exact sampleApp_wellFormed.
  - reflexivity.
  - reflexivity.
Defined.

(** What [saveData] leaves alone when the local storage cannot be
    written. *)
Lemma saveData_unwritable now w :
  writable (localStorage w) = false →
  app (saveData now w).2 = app w ∧ localStorage (saveData now w).2 = localStorage w.
Proof.
  destruct w as [a [le lr lw] [se sr sw]]. simpl. intros ->.
  destruct sw; split; reflexivity.
Qed.

(** X2. When the local storage cannot be written, [saveData] does not
    throw and changes neither the in-memory state nor the local storage.
    The four collections go to the session storage instead (the time of the
    save does not); when that cannot be written either, nothing is written
    at all. *)
Theorem saveData_falls_back_to_session (now : string) (w : World) :
  writable (localStorage w) = false →
  (saveData now w).1 = Normal ()
  ∧ app (saveData now w).2 = app w
  ∧ localStorage (saveData now w).2 = localStorage w
  ∧ entries (sessionStorage (saveData now w).2)
    = (if writable (sessionStorage w)
       then savedEntries (app w) (entries (sessionStorage w))
       else entries (sessionStorage w)).
Proof.
  destruct w as [a [le lr lw] [se sr sw]]. simpl. intros ->.
  destruct sw; repeat split; reflexivity.
Qed.

Lemma saveData_falls_back_to_session_witness :
  (saveData "2024-01-05T10:00:00.000Z" fullLocalStorageWorld).1 = Normal ()
  ∧ app (saveData "2024-01-05T10:00:00.000Z" fullLocalStorageWorld).2
    = app fullLocalStorageWorld
  ∧ localStorage (saveData "2024-01-05T10:00:00.000Z" fullLocalStorageWorld).2
    = localStorage fullLocalStorageWorld
  ∧ entries (sessionStorage (saveData "2024-01-05T10:00:00.000Z" fullLocalStorageWorld).2)
    = (if writable (sessionStorage fullLocalStorageWorld)
       then savedEntries (app fullLocalStorageWorld)
              (entries (sessionStorage fullLocalStorageWorld))
       else entries (sessionStorage fullLocalStorageWorld)).
Proof.
  apply (saveData_falls_back_to_session "2024-01-05T10:00:00.000Z" fullLocalStorageWorld).
  reflexivity.
Defined.

(** The [try] block of [loadData] reads the local storage only: its
    outcome and the state it builds do not depend on the session storage. *)
Lemma loadFromLocalStorage_local a le se se' :
  (loadFromLocalStorage {| app := a; localStorage := le; sessionStorage := se' |}).1
  = (loadFromLocalStorage {| app := a; localStorage := le; sessionStorage := se |}).1
  ∧ app (loadFromLocalStorage {| app := a; localStorage := le; sessionStorage := se' |}).2
    = app (loadFromLocalStorage {| app := a; localStorage := le; sessionStorage := se |}).2.
Proof.
  unfold loadFromLocalStorage, mbind, Action_bind, localGetItem, lift, read,
    setTransactions, setBudgets, setSettings, setCategories, updateApp. simpl.
  repeat (match goal with
          | |- context [match ?c with Normal _ => _ | Throw _ => _ end] => destruct c; simpl
          end); done.
Qed.

Lemma loadData_completed w :
  (loadFromLocalStorage w).1 = Normal () →
  app (loadData w).2 = app (loadFromLocalStorage w).2.
Proof.
  intros H. unfold loadData, tryCatchDo.
  by destruct (loadFromLocalStorage w) as [[[]|e] w'].
Qed.

(** X3. The session copy of such a save is not what the next load reads.
    When the local storage can be read, with entries that parse, but cannot
    be written, [loadData] after [saveData] gives the state that [loadData]
    gave before the save: the load takes the older entries of the local
    storage. *)
Theorem loadData_ignores_fallback_save (now : string) (w : World) :
  writable (localStorage w) = false →
  (loadFromLocalStorage w).1 = Normal () →
  app (loadData (saveData now w).2).2 = app (loadData w).2.
Proof.
  intros Hw Hload.
  destruct (saveData_unwritable now w Hw) as (Ha & Hl).
  destruct (saveData now w).2 as [a1 le1 se1] eqn:Hsave. simpl in Ha, Hl. subst a1 le1.
  destruct w as [a le se]. simpl in *.
  destruct (loadFromLocalStorage_local a le se se1) as [H1 H2].
  rewrite !loadData_completed by congruence. done.
Qed.

Lemma loadData_ignores_fallback_save_witness :
  app (loadData (saveData "2024-01-05T10:00:00.000Z" fullLocalStorageWorld).2).2
  = app (loadData fullLocalStorageWorld).2.
Proof.
  apply (loadData_ignores_fallback_save "2024-01-05T10:00:00.000Z" fullLocalStorageWorld).
  - reflexivity.
  - reflexivity.
Defined.

(** The reload after such a save brings back the older list. *)
Example loadData_after_fallback_save :
  transactions (app fullLocalStorageWorld) = JArr [t1_local; t2_remote]
  ∧ transactions
      (app (loadData (saveData "2024-01-05T10:00:00.000Z" fullLocalStorageWorld).2).2)
    = JArr [t1_local].
Proof. split; reflexivity. Qed.

(** ** Import: rejection and backup *)

(** The validation never throws. *)
Lemma validateImportedData_total data : ∃ b, validateImportedData data = Normal b.
Proof.
  unfold validateImportedData.
  destruct (truthy data) eqn:Ht; simpl; [|by eexists].
  destruct (typeofObject data); simpl; [|by eexists].
  destruct (getProp_total data "transactions" Ht) as [ts ->].
  destruct (getProp_total data "budgets" Ht) as [bs ->].
  destruct (getProp_total data "settings" Ht) as [ss ->].
  destruct (getProp_total data "categories" Ht) as [cs ->]. simpl.
  repeat (match goal with
          | |- context [if ?c then _ else _] => destruct c; simpl
          end); by eexists.
Qed.

(** X4. A rejected import changes nothing.  A file that is not JSON, or
    whose content does not pass the validation, leaves the state and both
    storages as they were; so does every file when the local storage cannot
    be written, because the backup of the current state is written first.
    [importData] does not throw in these cases. *)
Theorem importData_rejects_without_change (file : Text) (now : string) (w : World) :
  (∃ e, JSON_parse file = Throw e)
  ∨ (∃ data, JSON_parse file = Normal data ∧ validateImportedData data = Normal false)
  ∨ writable (localStorage w) = false →
  importData (Some file) now w = (Normal (), w).
Proof.
  intros H. unfold importData, tryCatchDo. run.
  destruct (JSON_parse file) as [data|e] eqn:Hparse; run; [|done].
  destruct (validateImportedData_total data) as [valid Hvalid]. rewrite Hvalid. run.
  destruct valid; cbn [negb]; run; [|done].
  destruct H as [[e He]|[(data' & Hd & Hv)|Hw]]; [done|congruence|].
  unfold localSetItem, setItem. by rewrite Hw.
Qed.

Lemma importData_rejects_without_change_witness :
  importData (Some (JsonText (obj [("transactions", JStr "none")])))
    "2024-01-06T10:00:00.000Z" sampleWorld
  = (Normal (), sampleWorld).
Proof.
  apply (importData_rejects_without_change (JsonText (obj [("transactions", JStr "none")]))
           "2024-01-06T10:00:00.000Z" sampleWorld).
  right. left. eexists. split; reflexivity.
Defined.

(** A valid import: the state it builds, and the backup entry. *)
Lemma importData_valid file data now w :
  JSON_parse file = Normal data → validateImportedData data = Normal true →
  writable (localStorage w) = true →
  ∃ a1,
    importData (Some file) now w =
      (Normal (),
       (saveData now
          {| app := a1;
             localStorage :=
               {| entries :=
                    <["budgetApp_backup_before_import" :=
                        JSON_stringify
                          (obj [("transactions", transactions (app w));
                                ("budgets", budgets (app w));
                                ("settings", settings (app w));
                                ("categories", categories (app w))])]>
                      (entries (localStorage w));
                  readable := readable (localStorage w); writable := true |};
             sessionStorage := sessionStorage w |}).2).
Proof.
  intros Hparse Hvalid Hw.
  assert (truthy data = true) as Ht.
  { unfold validateImportedData in Hvalid. destruct (truthy data); [done|discriminate]. }
  destruct (getProp_total data "transactions" Ht) as [ts Hts].
  destruct (getProp_total data "budgets" Ht) as [bs Hbs].
  destruct (getProp_total data "settings" Ht) as [ss Hss].
  destruct (getProp_total data "categories" Ht) as [cs Hcs].
  unfold importData, tryCatchDo.
  run. rewrite Hparse. run. rewrite Hvalid. cbn [negb]. run.
  rewrite run_localSetItem by done. run.
  rewrite Hts. run. unfold setTransactions at 1, updateApp at 1. run.
  rewrite Hbs. run. unfold setBudgets at 1, updateApp at 1. run.
  rewrite Hss. run. unfold setSettings at 1, updateApp at 1. run.
  rewrite Hcs. run. unfold setCategories at 1, updateApp at 1. run.
  cbn [app localStorage sessionStorage transactions budgets settings categories
       cloudSyncEnabled lastCloudSync].
  match goal with |- context [saveData now ?w'] => rewrite (saveData_run now w') end.
  by eexists.
Qed.

(** X5. The backup that [importData] writes undoes the import.  After a
    valid file was imported into a well-formed state, the local storage
    holds an entry [budgetApp_backup_before_import]; imported in turn, that
    entry brings back the four collections as they were before the
    import. *)
Theorem importData_backup_restores (file : Text) (data : JsVal) (now now' : string)
    (w : World) :
  wellFormed (app w) →
  JSON_parse file = Normal data → validateImportedData data = Normal true →
  writable (localStorage w) = true →
  ∃ backup,
    entries (localStorage (importData (Some file) now w).2)
      !! "budgetApp_backup_before_import" = Some backup
    ∧ (importData (Some backup) now' (importData (Some file) now w).2).1 = Normal ()
    ∧ sameCollections (app w)
        (app (importData (Some backup) now' (importData (Some file) now w).2).2).
Proof.
  intros (Hta & Hbr & Hsr & Hcr & Htj & Hbj & Hsj & Hcj) Hparse Hvalid Hw.
  destruct (importData_valid file data now w Hparse Hvalid Hw) as [a1 Hrun].
  rewrite Hrun. cbn [snd].
  set (prior := [("transactions", transactions (app w)); ("budgets", budgets (app w));
                 ("settings", settings (app w)); ("categories", categories (app w))]).
  match goal with |- context [saveData now ?w1] => set (imported := w1) end.
  exists (JSON_stringify (obj prior)). split.
  { rewrite saveData_writes by done. repeat (case_bool_decide; [done|]).
    unfold imported. cbn [entries localStorage]. by rewrite lookup_insert_eq. }
  destruct (saveData_flags now imported) as (_ & Hw' & _).
  assert (writable (localStorage (saveData now imported).2) = true) as Hw''
    by (by rewrite Hw').
  assert (∀ p v, (list_to_map prior : gmap string JsVal) !! p = Some v → JsonValue v →
            getProp (toJSON (obj prior)) p = Normal v) as Hfield
    by (intros; by apply snapshot_field).
  destruct (importData_spec (JSON_stringify (obj prior)) (toJSON (obj prior)) now'
              (saveData now imported).2
              (transactions (app w)) (budgets (app w)) (settings (app w)) (categories (app w))
              eq_refl eq_refl
              (Hfield "transactions" (transactions (app w)) eq_refl Htj) Hta
              (Hfield "budgets" (budgets (app w)) eq_refl Hbj) Hbr
              (Hfield "settings" (settings (app w)) eq_refl Hsj) Hsr
              (Hfield "categories" (categories (app w)) eq_refl Hcj) Hcr Hw'')
    as (H0 & H1 & H2 & H3 & H4).
  split; [exact H0|]. by repeat split.
Qed.

Lemma importData_backup_restores_witness :
  ∃ backup,
    entries
      (localStorage
         (importData (Some (JsonText (obj [("transactions", JArr [t1_remote])])))
            "2024-01-06T10:00:00.000Z" sampleWorld).2)
      !! "budgetApp_backup_before_import" = Some backup
    ∧ (importData (Some backup) "2024-01-06T11:00:00.000Z"
         (importData (Some (JsonText (obj [("transactions", JArr [t1_remote])])))
            "2024-01-06T10:00:00.000Z" sampleWorld).2).1 = Normal ()
    ∧ sameCollections (app sampleWorld)
        (app (importData (Some backup) "2024-01-06T11:00:00.000Z"
                (importData (Some (JsonText (obj [("transactions", JArr [t1_remote])])))
                   "2024-01-06T10:00:00.000Z" sampleWorld).2).2).
Proof.
  apply (importData_backup_restores (JsonText (obj [("transactions", JArr [t1_remote])]))
           (obj [("transactions", JArr [t1_remote])])
           "2024-01-06T10:00:00.000Z" "2024-01-06T11:00:00.000Z" sampleWorld).
  - exact sampleApp_wellFormed.
  - reflexivity.
  - reflexivity.
  - reflexivity.
Defined.

(** ** Adding and deleting transactions *)

Lemma filterM_records tid l :
  records l →
  filterM (fun t => k ← getProp t "id"; mret (negb (strictEq k tid))) l
  = Normal (List.filter (fun t => negb (hasKey "id" tid t)) l).
Proof.
  induction 1 as [|x l Hx Hl IH]; simpl; [done|].
  rewrite (getProp_record _ _ Hx). simpl. rewrite IH. simpl.
  change (hasKey "id" tid x) with (strictEq (field "id" x) tid).
  by destruct (strictEq (field "id" x) tid).
Qed.

Lemma deleteTransaction_spec tid now w l :
  transactions (app w) = JArr l → records l →
  (deleteTransaction true tid now w).1 = Normal ()
  ∧ transactions (app (deleteTransaction true tid now w).2)
    = JArr (List.filter (fun t => negb (hasKey "id" tid t)) l)
  ∧ (writable (localStorage w) = true →
     entries (localStorage (deleteTransaction true tid now w).2) !! "budgetApp_transactions"
     = Some (JSON_stringify (JArr (List.filter (fun t => negb (hasKey "id" tid t)) l)))).
Proof.
  intros Hl Hrec. unfold deleteTransaction. run. rewrite Hl.
  unfold arrayFilter. rewrite filterM_records by done. cbn [mbind Completion_bind mret Completion_ret].
  run. rewrite run_setTransactions. cbv beta iota.
  match goal with |- context [saveData now ?w'] =>
    pose proof (saveData_app now w') as [Hs1 Hs2];
    pose proof (saveData_writes now w' "budgetApp_transactions") as Hs3
  end.
  split; [done|]. split; [by rewrite Hs2|].
  intros Hw. rewrite Hs3 by done. done.
Qed.

Lemma field_newTransaction_id parseFloat form tid :
  field "id" (newTransaction parseFloat form tid) = JStr tid.
Proof. reflexivity. Qed.

(** X6. Adding a transaction and then deleting it by its id gives back
    the transactions that were there, provided none of them had that id:
    after the accepted submission the new transaction is the last one, and
    after the confirmed deletion it is gone and the others are where they
    were. *)
Theorem addTransaction_then_deleteTransaction
    (parseFloat : string → JsNumber) (form : TransactionForm) (tid now now' : string)
    (w : World) (l : list JsVal) :
  transactions (app w) = JArr l → records l →
  Forall (fun t => field "id" t ≠ JStr tid) l →
  accepted parseFloat form = true →
  transactions (app (addTransaction parseFloat form tid now w).2)
    = JArr (l ++ [newTransaction parseFloat form tid])
  ∧ (deleteTransaction true (JStr tid) now'
       (addTransaction parseFloat form tid now w).2).1 = Normal ()
  ∧ transactions
      (app (deleteTransaction true (JStr tid) now'
              (addTransaction parseFloat form tid now w).2).2) = JArr l.
Proof.
  intros Hl Hrec Hfresh Hacc.
  destruct (addTransaction_spec parseFloat form tid now w l Hl) as [_ Hadd].
  rewrite Hacc in Hadd. split; [done|].
  assert (records (l ++ [newTransaction parseFloat form tid])) as Hrec'.
  { apply Forall_app. split; [done|]. by apply Forall_singleton. }
  destruct (deleteTransaction_spec (JStr tid) now' _ _ Hadd Hrec') as (Hd1 & Hd2 & _).
  split; [done|]. rewrite Hd2. f_equal.
  rewrite List.filter_app. simpl.
  unfold hasKey at 2. rewrite field_newTransaction_id. simpl.
  rewrite String.eqb_refl. simpl. rewrite app_nil_r.
  apply List_filter_all. eapply Forall_impl; [exact Hfresh|].
  intros t Ht. simpl in Ht. unfold hasKey.
  destruct (strictEq (field "id" t) (JStr tid)) eqn:E; [|done].
  by apply strictEq_eq in E.
Qed.

Lemma addTransaction_then_deleteTransaction_witness :
  transactions
    (app (addTransaction (fun _ => Fin (Qc_of_Z 12)) negativeSubmission "1704067200000"
            "2024-01-01T00:00:00.000Z" sampleWorld).2)
    = JArr ([t1_local; t2_remote]
            ++ [newTransaction (fun _ => Fin (Qc_of_Z 12)) negativeSubmission "1704067200000"])
  ∧ (deleteTransaction true (JStr "1704067200000") "2024-01-01T00:00:01.000Z"
       (addTransaction (fun _ => Fin (Qc_of_Z 12)) negativeSubmission "1704067200000"
          "2024-01-01T00:00:00.000Z" sampleWorld).2).1 = Normal ()
  ∧ transactions
      (app (deleteTransaction true (JStr "1704067200000") "2024-01-01T00:00:01.000Z"
              (addTransaction (fun _ => Fin (Qc_of_Z 12)) negativeSubmission "1704067200000"
                 "2024-01-01T00:00:00.000Z" sampleWorld).2).2)
    = JArr [t1_local; t2_remote].
Proof.
  apply (addTransaction_then_deleteTransaction (fun _ => Fin (Qc_of_Z 12)) negativeSubmission
           "1704067200000" "2024-01-01T00:00:00.000Z" "2024-01-01T00:00:01.000Z"
           sampleWorld [t1_local; t2_remote]).
  - reflexivity.
  - repeat constructor.
  - repeat constructor; vm_compute; discriminate.
  - reflexivity.
Defined.

(** X7. A confirmed [deleteTransaction] keeps exactly the transactions
    whose id is not (by [!==]) the given one, in their order: every
    transaction with that id is removed, also when several have it.  The
    result is written to the local storage when that can be written.  When
    the user declines, nothing changes. *)
Theorem deleteTransaction_removes_every_match (tid : JsVal) (now : string) (w : World)
    (l : list JsVal) :
  transactions (app w) = JArr l → records l →
  ∃ kept,
    (deleteTransaction true tid now w).1 = Normal ()
    ∧ transactions (app (deleteTransaction true tid now w).2) = JArr kept
    ∧ (∀ t, t ∈ kept ↔ t ∈ l ∧ strictEq (field "id" t) tid = false)
    ∧ kept `sublist_of` l
    ∧ (writable (localStorage w) = true →
       entries (localStorage (deleteTransaction true tid now w).2) !! "budgetApp_transactions"
       = Some (JSON_stringify (JArr kept)))
    ∧ deleteTransaction false tid now w = (Normal (), w).
Proof.
  intros Hl Hrec.
  destruct (deleteTransaction_spec tid now w l Hl Hrec) as (H1 & H2 & H3).
  eexists. split; [done|]. split; [done|]. split; [|split; [|split; [done|done]]].
  - intros t. rewrite !list_elem_of_In, filter_In.
    unfold hasKey. by rewrite negb_true_iff.
  - apply List_filter_sublist.
Qed.

Lemma deleteTransaction_removes_every_match_witness :
  ∃ kept,
    (deleteTransaction true (JStr "t1") "2024-01-06T10:00:00.000Z" sampleWorld).1 = Normal ()
    ∧ transactions
        (app (deleteTransaction true (JStr "t1") "2024-01-06T10:00:00.000Z" sampleWorld).2)
      = JArr kept
    ∧ (∀ t, t ∈ kept ↔ t ∈ [t1_local; t2_remote] ∧ strictEq (field "id" t) (JStr "t1") = false)
    ∧ kept `sublist_of` [t1_local; t2_remote]
    ∧ (writable (localStorage sampleWorld) = true →
       entries
         (localStorage
            (deleteTransaction true (JStr "t1") "2024-01-06T10:00:00.000Z" sampleWorld).2)
         !! "budgetApp_transactions"
       = Some (JSON_stringify (JArr kept)))
    ∧ deleteTransaction false (JStr "t1") "2024-01-06T10:00:00.000Z" sampleWorld
      = (Normal (), sampleWorld).
Proof.
  apply (deleteTransaction_removes_every_match (JStr "t1") "2024-01-06T10:00:00.000Z"
           sampleWorld [t1_local; t2_remote]).
  - reflexivity.
  - repeat constructor.
Defined.

(** ** Budgets *)

Section BudgetFacts.

Variable parseFloat : string → JsNumber.

Lemma addBudget_spec form now w m :
  budgets (app w) = JObj m → budgetCategory form ≠ "__proto__" →
  ∃ w', addBudget parseFloat form now w = Some (Normal (), w')
    ∧ budgets (app w')
      = (if budgetAccepted parseFloat form
         then JObj (<[budgetCategory form := newBudget parseFloat form]> m)
         else JObj m)
    ∧ writable (localStorage w') = writable (localStorage w)
    ∧ (budgetAccepted parseFloat form = true → writable (localStorage w) = true →
       entries (localStorage w') !! "budgetApp_budgets"
       = Some (JSON_stringify
                 (JObj (<[budgetCategory form := newBudget parseFloat form]> m)))).
Proof.
  intros Hm Hproto. unfold addBudget, budgetAccepted, newBudget.
  generalize (JNum (parseFloat (budgetAmount form))) as amount. intros amount.
  change (truthy (JStr (budgetCategory form)))
    with (negb (String.eqb (budgetCategory form) "")).
  change (truthy (JStr (budgetPeriod form)))
    with (negb (String.eqb (budgetPeriod form) "")).
  destruct (String.eqb (budgetCategory form) ""); cbn [negb orb andb];
    [eexists; by repeat split|].
  destruct (truthy amount); cbn [negb orb andb]; [|eexists; by repeat split].
  destruct (String.eqb (budgetPeriod form) ""); cbn [negb orb andb];
    [eexists; by repeat split|].
  rewrite Hm. unfold setProp.
  apply String.eqb_neq in Hproto. rewrite Hproto. cbn [mbind option_bind].
  run. rewrite run_setBudgets. cbv beta iota.
  match goal with |- context [saveData now ?w1] =>
    rewrite (saveData_run now w1);
    pose proof (saveData_app now w1) as [_ Hs2];
    pose proof (saveData_flags now w1) as (_ & Hs4 & _);
    pose proof (saveData_writes now w1 "budgetApp_budgets") as Hs3
  end.
  eexists. split; [reflexivity|]. rewrite Hs2. cbn [app budgets].
  split; [done|]. split; [done|]. intros _ Hw. by rewrite Hs3.
Qed.

Lemma removeBudget_spec category now w m :
  budgets (app w) = JObj m →
  ∃ w', removeBudget true category now w = Some (Normal (), w')
    ∧ budgets (app w') = JObj (delete category m)
    ∧ (writable (localStorage w) = true →
       entries (localStorage w') !! "budgetApp_budgets"
       = Some (JSON_stringify (JObj (delete category m)))).
Proof.
  intros Hm. unfold removeBudget. rewrite Hm. unfold deleteProp. cbn [mbind option_bind].
  run. rewrite run_setBudgets. cbv beta iota.
  match goal with |- context [saveData now ?w1] =>
    rewrite (saveData_run now w1);
    pose proof (saveData_app now w1) as [_ Hs2];
    pose proof (saveData_writes now w1 "budgetApp_budgets") as Hs3
  end.
  eexists. split; [reflexivity|]. rewrite Hs2. cbn [app budgets].
  split; [done|]. intros Hw. by rewrite Hs3.
Qed.

End BudgetFacts.

(** X8. One budget per category.  An accepted submission sets the budget
    of its category and leaves the budgets of the other categories alone;
    removing the budget of that category afterwards leaves the budgets
    without one for it, which are the budgets from before when the category
    had none.  Both steps are saved. *)
Theorem addBudget_then_removeBudget
    (parseFloat : string → JsNumber) (form : BudgetForm) (now now' : string)
    (w : World) (m : gmap string JsVal) :
  budgets (app w) = JObj m → budgetCategory form ≠ "__proto__" →
  budgetAccepted parseFloat form = true →
  ∃ w1 w2,
    addBudget parseFloat form now w = Some (Normal (), w1)
    ∧ field (budgetCategory form) (budgets (app w1)) = newBudget parseFloat form
    ∧ (∀ c, c ≠ budgetCategory form →
         field c (budgets (app w1)) = field c (JObj m))
    ∧ removeBudget true (budgetCategory form) now' w1 = Some (Normal (), w2)
    ∧ budgets (app w2) = JObj (delete (budgetCategory form) m)
    ∧ (m !! budgetCategory form = None → budgets (app w2) = JObj m)
    ∧ (writable (localStorage w) = true →
       entries (localStorage w2) !! "budgetApp_budgets"
       = Some (JSON_stringify (budgets (app w2)))).
Proof.
  intros Hm Hproto Hacc.
  destruct (addBudget_spec parseFloat form now w m Hm Hproto) as (w1 & Hadd & Hb1 & Hw1 & _).
  rewrite Hacc in Hb1.
  destruct (removeBudget_spec (budgetCategory form) now' w1 _ Hb1) as (w2 & Hrem & Hb2 & Hs2).
  rewrite delete_insert_eq in Hb2, Hs2.
  exists w1, w2. split; [done|]. rewrite Hb1. split; [simpl; by rewrite lookup_insert_eq|].
  split; [intros c Hc; simpl; by rewrite lookup_insert_ne|].
  split; [done|]. split; [done|]. split.
  - intros Hnone. rewrite Hb2. by rewrite delete_id.
  - intros Hw. rewrite Hb2. apply Hs2. by rewrite Hw1.
Qed.

Lemma addBudget_then_removeBudget_witness :
  ∃ w1 w2,
    addBudget (fun _ => Fin (Qc_of_Z 150)) billsBudget "2024-01-05T10:00:00.000Z" sampleWorld
    = Some (Normal (), w1)
    ∧ field (budgetCategory billsBudget) (budgets (app w1))
      = newBudget (fun _ => Fin (Qc_of_Z 150)) billsBudget
    ∧ (∀ c, c ≠ budgetCategory billsBudget →
         field c (budgets (app w1)) = field c (JObj sampleBudgets))
    ∧ removeBudget true (budgetCategory billsBudget) "2024-01-05T11:00:00.000Z" w1
      = Some (Normal (), w2)
    ∧ budgets (app w2) = JObj (delete (budgetCategory billsBudget) sampleBudgets)
    ∧ (sampleBudgets !! budgetCategory billsBudget = None → budgets (app w2) = JObj sampleBudgets)
    ∧ (writable (localStorage sampleWorld) = true →
       entries (localStorage w2) !! "budgetApp_budgets"
       = Some (JSON_stringify (budgets (app w2)))).
Proof.
  apply (addBudget_then_removeBudget (fun _ => Fin (Qc_of_Z 150)) billsBudget
           "2024-01-05T10:00:00.000Z" "2024-01-05T11:00:00.000Z" sampleWorld sampleBudgets).
  - reflexivity.
  - discriminate.
  - reflexivity.
Defined.

(** ** Categories *)

(** ** Categories *)
Lemma includes_strings names name :
  includes (strings names) name = Normal (bool_decide (name ∈ names)).
Proof.
  unfold includes, strings. f_equal.
  induction names as [|x names IH].
  - rewrite bool_decide_eq_false_2; [done|]. by intros ?%elem_of_nil.
  - cbn [fmap list_fmap existsb sameValueZero strictEq].
    change (existsb _ (list_fmap _ _ JStr names))
      with (existsb (sameValueZero (JStr name)) (JStr <$> names)).
    rewrite IH. destruct (String.eqb name x) eqn:E.
    + apply String.eqb_eq in E as ->. simpl. symmetry. apply bool_decide_eq_true.
      apply elem_of_cons. by left.
    + apply String.eqb_neq in E. simpl. apply bool_decide_ext.
      rewrite elem_of_cons. split; [by right|]. by intros [->|?].
Qed.

Lemma saveNewCategory_run name type now w m names :
  categories (app w) = JObj m → m !! type = Some (strings names) → name ≠ "" →
  saveNewCategory name type now w =
    if bool_decide (name ∈ names) then (Normal (), w)
    else
      (Normal (),
       (saveData now
          {| app := {| transactions := transactions (app w); budgets := budgets (app w);
                       settings := settings (app w);
                       categories := JObj (<[type := strings (names ++ [name])]> m);
                       cloudSyncEnabled := cloudSyncEnabled (app w);
                       lastCloudSync := lastCloudSync (app w) |};
             localStorage := localStorage w; sessionStorage := sessionStorage w |}).2).
Proof.
  intros Hc Hm Hname. unfold saveNewCategory.
  change (truthy (JStr name)) with (negb (String.eqb name "")).
  apply String.eqb_neq in Hname. rewrite Hname. cbn [negb].
  run. rewrite Hc. cbn [getProp]. rewrite Hm. cbn [default from_option id]. run.
  rewrite includes_strings. run.
  case_bool_decide as Hin; [done|].
  unfold strings at 1. cbn [push]. run. rewrite run_setCategories. cbv beta iota.
  match goal with |- context [saveData now ?w1] => rewrite (saveData_run now w1) end.
  cbn [app categories withProp]. unfold strings. by rewrite fmap_app.
Qed.

(** X9. The category lists only grow and never hold a name twice.  A
    name that is not yet in the list of its type is appended to it and the
    categories are saved; a name that is there already changes nothing.
    The lists of the other types are not touched. *)
Theorem saveNewCategory_keeps_names_unique
    (name type now : string) (w : World) (m : gmap string JsVal) (names : list string) :
  categories (app w) = JObj m → m !! type = Some (strings names) →
  NoDup names → name ≠ "" →
  ∃ names',
    (saveNewCategory name type now w).1 = Normal ()
    ∧ categories (app (saveNewCategory name type now w).2)
      = JObj (<[type := strings names']> m)
    ∧ names' = (if bool_decide (name ∈ names) then names else names ++ [name])
    ∧ NoDup names' ∧ name ∈ names'
    ∧ (writable (localStorage w) = true → name ∉ names →
       entries (localStorage (saveNewCategory name type now w).2) !! "budgetApp_categories"
       = Some (JSON_stringify (JObj (<[type := strings names']> m)))).
Proof.
  intros Hc Hm Hnd Hname.
  exists (if bool_decide (name ∈ names) then names else names ++ [name]).
  rewrite (saveNewCategory_run name type now w m names Hc Hm Hname).
  case_bool_decide as Hin.
  - cbn [fst snd]. rewrite Hc. split; [done|]. split.
    { f_equal. symmetry. by apply insert_id. }
    split; [done|]. split; [done|]. split; [done|]. intros _ Hno. done.
  - match goal with |- context [saveData now ?w1] =>
      pose proof (saveData_app now w1) as [_ Hs2];
      pose proof (saveData_writes now w1 "budgetApp_categories") as Hs3
    end.
    cbn [fst snd]. rewrite Hs2. cbn [app categories].
    split; [done|]. split; [done|]. split; [done|]. split.
    { apply NoDup_app. split; [done|]. split; [|apply NoDup_singleton].
      intros x Hx ->%list_elem_of_singleton. done. }
    split; [apply elem_of_app; right; by apply list_elem_of_singleton|].
    intros Hw _. by rewrite Hs3.
Qed.

Lemma saveNewCategory_keeps_names_unique_witness :
  ∃ names',
    (saveNewCategory "Rent" "expense" "2024-01-05T10:00:00.000Z" sampleWorld).1 = Normal ()
    ∧ categories (app (saveNewCategory "Rent" "expense" "2024-01-05T10:00:00.000Z"
                         sampleWorld).2)
      = JObj (<["expense" := strings names']> defaultCategoryLists)
    ∧ names' = (if bool_decide ("Rent" ∈ defaultExpenseCategories)
                then defaultExpenseCategories else defaultExpenseCategories ++ ["Rent"])
    ∧ NoDup names' ∧ "Rent" ∈ names'
    ∧ (writable (localStorage sampleWorld) = true → "Rent" ∉ defaultExpenseCategories →
       entries (localStorage (saveNewCategory "Rent" "expense" "2024-01-05T10:00:00.000Z"
                                sampleWorld).2) !! "budgetApp_categories"
       = Some (JSON_stringify (JObj (<["expense" := strings names']> defaultCategoryLists)))).
Proof.
  apply (saveNewCategory_keeps_names_unique "Rent" "expense" "2024-01-05T10:00:00.000Z"
           sampleWorld defaultCategoryLists defaultExpenseCategories).
  - reflexivity.
  - reflexivity.
  - apply (bool_decide_unpack (NoDup defaultExpenseCategories)). vm_compute. exact I.
  - discriminate.
Defined.

(** ** The migration of a session copy *)

(** X10. The migration never overwrites local data and never throws.
    Unless the session storage has transactions and the local storage has
    none, it changes nothing; nor does it change anything when one of the
    storages cannot be read or the local storage cannot be written. *)
Theorem migrateMobileDataSimple_keeps_local_data (w : World) :
  present (entries (localStorage w) !! "budgetApp_transactions") = true
  ∨ present (entries (sessionStorage w) !! "budgetApp_transactions") = false
  ∨ readable (sessionStorage w) = false
  ∨ readable (localStorage w) = false
  ∨ writable (localStorage w) = false →
  migrateMobileDataSimple w = (Normal (), w).
Proof.
  intros H. unfold migrateMobileDataSimple, tryCatchDo. run.
  unfold sessionGetItem at 1, getItem.
  destruct (readable (sessionStorage w)) eqn:Hsr; [|done]. run.
  unfold localGetItem at 1, getItem.
  destruct (readable (localStorage w)) eqn:Hlr; [|done]. run.
  destruct (present (entries (sessionStorage w) !! "budgetApp_transactions")) eqn:Hs;
    cbn [andb]; [|done].
  destruct (present (entries (localStorage w) !! "budgetApp_transactions")) eqn:Hl;
    cbn [andb negb]; [done|].
  destruct H as [H|[H|[H|[H|H]]]]; try done.
  cbn [forOf]. run. unfold sessionGetItem at 1, getItem. rewrite Hsr. run.
  destruct (entries (sessionStorage w) !! "budgetApp_transactions") as [t|]; [|done].
  cbn [present] in Hs. rewrite Hs. unfold localSetItem at 1, setItem. by rewrite H.
Qed.

Lemma migrateMobileDataSimple_keeps_local_data_witness :
  migrateMobileDataSimple fullLocalStorageWorld = (Normal (), fullLocalStorageWorld).
Proof.
  apply (migrateMobileDataSimple_keeps_local_data fullLocalStorageWorld).
  left. reflexivity.
Defined.

Lemma migrated_entries (le se : gmap string Text) ts bs ss cs :
  se !! "budgetApp_transactions" = Some (JsonText ts) →
  se !! "budgetApp_budgets" = Some (JsonText bs) →
  se !! "budgetApp_settings" = Some (JsonText ss) →
  se !! "budgetApp_categories" = Some (JsonText cs) →
  ∀ a lr sw,
  forOf (fun key =>
           sessionData ← sessionGetItem key;
           match sessionData with
           | Some t => if textTruthy t then localSetItem key t else mret ()
           | None => mret ()
           end)
        ["budgetApp_transactions"; "budgetApp_budgets"; "budgetApp_settings";
         "budgetApp_categories"]
    {| app := a; localStorage := {| entries := le; readable := lr; writable := true |};
       sessionStorage := {| entries := se; readable := true; writable := sw |} |}
  = (Normal (),
     {| app := a;
        localStorage :=
          {| entries :=
               <["budgetApp_categories" := JsonText cs]>
                 (<["budgetApp_settings" := JsonText ss]>
                    (<["budgetApp_budgets" := JsonText bs]>
                       (<["budgetApp_transactions" := JsonText ts]> le)));
             readable := lr; writable := true |};
        sessionStorage := {| entries := se; readable := true; writable := sw |} |}).
Proof.
  intros Ht Hb Hs Hc a lr sw.
  unfold forOf, mbind, Action_bind, sessionGetItem, localSetItem, getItem, setItem. simpl.
  rewrite Ht. simpl. rewrite Hb. simpl. rewrite Hs. simpl. rewrite Hc. reflexivity.
Qed.

(** X11. The copy that a fallback save left in the session storage is
    recovered.  When the local storage has no transactions and the session
    storage holds the four collections, the migration writes them to the
    local storage, empties the session storage, and makes them the state of
    the application. *)
Theorem migrateMobileDataSimple_recovers_session_copy
    (w : World) (ts bs ss cs : JsVal) :
  readable (sessionStorage w) = true →
  readable (localStorage w) = true → writable (localStorage w) = true →
  entries (localStorage w) !! "budgetApp_transactions" = None →
  entries (sessionStorage w) !! "budgetApp_transactions" = Some (JsonText ts) →
  entries (sessionStorage w) !! "budgetApp_budgets" = Some (JsonText bs) →
  entries (sessionStorage w) !! "budgetApp_settings" = Some (JsonText ss) →
  entries (sessionStorage w) !! "budgetApp_categories" = Some (JsonText cs) →
  isArray ts = true → isRecord bs = true →
  (migrateMobileDataSimple w).1 = Normal ()
  ∧ transactions (app (migrateMobileDataSimple w).2) = ts
  ∧ budgets (app (migrateMobileDataSimple w).2) = bs
  ∧ settings (app (migrateMobileDataSimple w).2) = ss
  ∧ categories (app (migrateMobileDataSimple w).2) = cs
  ∧ entries (sessionStorage (migrateMobileDataSimple w).2) = ∅
  ∧ entries (localStorage (migrateMobileDataSimple w).2)
    = <["budgetApp_categories" := JsonText cs]>
        (<["budgetApp_settings" := JsonText ss]>
           (<["budgetApp_budgets" := JsonText bs]>
              (<["budgetApp_transactions" := JsonText ts]> (entries (localStorage w))))).
Proof.
  intros Hsr Hlr Hlw Hnone Ht Hb Hs Hc Hta Hbr.
  destruct w as [a [le lr lw] [se sr sw]]. simpl in *. subst sr lr lw.
  set (w1 := {| app := a;
                localStorage :=
                  {| entries :=
                       <["budgetApp_categories" := JsonText cs]>
                         (<["budgetApp_settings" := JsonText ss]>
                            (<["budgetApp_budgets" := JsonText bs]>
                               (<["budgetApp_transactions" := JsonText ts]> le)));
                     readable := true; writable := true |};
                sessionStorage := {| entries := ∅; readable := true; writable := sw |} |}).
  assert (migrateMobileDataSimple
            {| app := a; localStorage := {| entries := le; readable := true; writable := true |};
               sessionStorage := {| entries := se; readable := true; writable := sw |} |}
          = (Normal (), (loadData w1).2)) as ->.
  { unfold migrateMobileDataSimple, tryCatchDo. run.
    unfold sessionGetItem at 1, getItem. cbn [sessionStorage readable entries]. run.
    rewrite Ht.
    unfold localGetItem at 1, getItem. cbn [localStorage readable entries]. run.
    rewrite Hnone. cbn [present textTruthy andb negb]. run.
    rewrite (migrated_entries le se ts bs ss cs Ht Hb Hs Hc a true sw). run.
    unfold sessionClear, clear. cbn [sessionStorage readable writable app localStorage].
    fold w1. by rewrite (loadData_run w1). }
  cbn [fst snd].
  assert (entries (localStorage w1) !! "budgetApp_transactions" = Some (JsonText ts)) as Kt
    by (unfold w1; cbn [entries localStorage]; by simplify_map_eq).
  assert (entries (localStorage w1) !! "budgetApp_budgets" = Some (JsonText bs)) as Kb
    by (unfold w1; cbn [entries localStorage]; by simplify_map_eq).
  assert (entries (localStorage w1) !! "budgetApp_settings" = Some (JsonText ss)) as Ks
    by (unfold w1; cbn [entries localStorage]; by simplify_map_eq).
  assert (entries (localStorage w1) !! "budgetApp_categories" = Some (JsonText cs)) as Kc
    by (unfold w1; cbn [entries localStorage]; by simplify_map_eq).
  destruct (loadData_parsed w1 ts bs ss cs eq_refl Kt Kb Ks Kc Hta Hbr)
    as (_ & H1 & H2 & H3 & H4 & H5 & H6).
  split; [reflexivity|]. split; [exact H1|]. split; [exact H2|]. split; [exact H3|].
  split; [exact H4|]. split; [by rewrite H6|by rewrite H5].
Qed.

Lemma migrateMobileDataSimple_recovers_session_copy_witness :
  (migrateMobileDataSimple worldWithFallbackCopy).1 = Normal ()
  ∧ transactions (app (migrateMobileDataSimple worldWithFallbackCopy).2)
    = transactions sampleApp
  ∧ budgets (app (migrateMobileDataSimple worldWithFallbackCopy).2) = budgets sampleApp
  ∧ settings (app (migrateMobileDataSimple worldWithFallbackCopy).2) = settings sampleApp
  ∧ categories (app (migrateMobileDataSimple worldWithFallbackCopy).2) = categories sampleApp
  ∧ entries (sessionStorage (migrateMobileDataSimple worldWithFallbackCopy).2) = ∅
  ∧ entries (localStorage (migrateMobileDataSimple worldWithFallbackCopy).2)
    = <["budgetApp_categories" := JsonText (categories sampleApp)]>
        (<["budgetApp_settings" := JsonText (settings sampleApp)]>
           (<["budgetApp_budgets" := JsonText (budgets sampleApp)]>
              (<["budgetApp_transactions" := JsonText (transactions sampleApp)]>
                 (entries (localStorage worldWithFallbackCopy))))).
Proof.
  apply (migrateMobileDataSimple_recovers_session_copy worldWithFallbackCopy
           (transactions sampleApp) (budgets sampleApp) (settings sampleApp)
           (categories sampleApp)).
  - reflexivity.
  - reflexivity.
  - reflexivity.
  - reflexivity.
  - vm_compute. reflexivity.
  - vm_compute. reflexivity.
  - vm_compute. reflexivity.
  - vm_compute. reflexivity.
  - reflexivity.
  - reflexivity.
Defined.

(** ** The sync cycle *)

Section SyncFacts.

Variable newDate : JsVal → option Z.

(** A remote snapshot that carries transactions and nothing else. *)
Lemma mergeCloudData_transactions_run cloudData cloudTransactions now w merged :
  isRecord cloudData = true →
  field "transactions" cloudData = cloudTransactions → truthy cloudTransactions = true →
  truthy (field "budgets" cloudData) = false →
  truthy (field "categories" cloudData) = false →
  truthy (field "settings" cloudData) = false →
  mergeArrayData newDate (jsOr (transactions (app w)) (JArr [])) cloudTransactions "id"
    = Normal merged →
  mergeCloudData newDate cloudData now w =
    (Normal (),
     (saveData now
        {| app := {| transactions := merged; budgets := budgets (app w);
                     settings := settings (app w); categories := categories (app w);
                     cloudSyncEnabled := cloudSyncEnabled (app w);
                     lastCloudSync := lastCloudSync (app w) |};
           localStorage := localStorage w; sessionStorage := sessionStorage w |}).2).
Proof.
  intros Hrec Hts Htt Hb Hc Hs Hmerge. unfold mergeCloudData.
  rewrite (isRecord_truthy _ Hrec). cbn [negb].
  rewrite !(getProp_record _ _ Hrec). run. rewrite Hts, Htt. run.
  rewrite Hmerge. run. rewrite run_setTransactions. cbv beta iota. run.
  rewrite Hb. run. rewrite Hc. run. rewrite Hs. run.
  match goal with |- context [saveData now ?w1] => by rewrite (saveData_run now w1) end.
Qed.

(** Everything that [mergeArrayData] throws is a TypeError. *)
Lemma getProp_throws v p e : getProp v p = Throw e → e = TypeError.
Proof. destruct v; simpl; congruence. Qed.

Lemma mapM_getProp_throws keyField l e :
  mapM (fun item => getProp item keyField) l = Throw e → e = TypeError.
Proof.
  induction l as [|x l IH]; simpl; [done|].
  destruct (getProp x keyField) eqn:E; simpl; [|intros [= <-]; by eapply getProp_throws].
  destruct (mapM _ l); simpl; [done|]. intros [= <-]. by apply IH.
Qed.

Lemma findIndexFrom_throws keyField k l i e :
  findIndexFrom (fun item => k' ← getProp item keyField; mret (strictEq k' k)) l i = Throw e →
  e = TypeError.
Proof.
  revert i. induction l as [|x l IH]; intros i; simpl; [done|].
  destruct (getProp x keyField) eqn:E; simpl; [|intros [= <-]; by eapply getProp_throws].
  destruct (strictEq _ _); [done|]. apply IH.
Qed.

Lemma itemTime_throws item e : itemTime newDate item = Throw e → e = TypeError.
Proof.
  unfold itemTime.
  destruct (getProp item "timestamp") eqn:E1; simpl; [|intros [= <-]; by eapply getProp_throws].
  destruct (getProp item "date") eqn:E2; simpl; [done|intros [= <-]; by eapply getProp_throws].
Qed.

Lemma mergeStep_throws keyField keys merged c e :
  mergeStep newDate keyField keys merged c = Throw e → e = TypeError.
Proof.
  unfold mergeStep.
  destruct (getProp c keyField) eqn:E; simpl; [|intros [= <-]; by eapply getProp_throws].
  destruct (negb _); [done|]. unfold findIndex.
  destruct (findIndexFrom _ merged 0) eqn:E1; simpl;
    [|intros [= <-]; by eapply findIndexFrom_throws].
  destruct (itemTime newDate c) eqn:E2; simpl; [|intros [= <-]; by eapply itemTime_throws].
  destruct (itemTime newDate (default _ _)) eqn:E3; simpl;
    [|intros [= <-]; by eapply itemTime_throws].
  by repeat case_match.
Qed.

Lemma forEach_mergeStep_throws keyField keys cloudItems : ∀ merged e,
  forEach (mergeStep newDate keyField keys) cloudItems merged = Throw e → e = TypeError.
Proof.
  induction cloudItems as [|c cs IH]; intros merged e; simpl; [done|].
  destruct (mergeStep newDate keyField keys merged c) eqn:E; simpl;
    [apply IH|intros [= <-]; by eapply mergeStep_throws].
Qed.

Lemma mergeArrayData_throws localArray cloudArray keyField e :
  mergeArrayData newDate localArray cloudArray keyField = Throw e → e = TypeError.
Proof.
  unfold mergeArrayData. destruct localArray; try congruence.
  destruct (mapM _ items) eqn:E; simpl; [|intros [= <-]; by eapply mapM_getProp_throws].
  destruct cloudArray; try congruence.
  destruct (forEach _ _ _) eqn:E1; simpl; [done|].
  intros [= <-]. by eapply forEach_mergeStep_throws.
Qed.

(** The merge of a snapshot that carries budgets, into a state whose
    budgets are an object: it throws before anything is saved. *)
Lemma mergeCloudData_cloud_budgets cloudData now w :
  isRecord cloudData = true → truthy (field "budgets" cloudData) = true →
  isRecord (budgets (app w)) = true →
  ∃ w', mergeCloudData newDate cloudData now w = (Throw TypeError, w')
    ∧ sameStores w w'
    ∧ budgets (app w') = budgets (app w) ∧ settings (app w') = settings (app w)
    ∧ categories (app w') = categories (app w)
    ∧ lastCloudSync (app w') = lastCloudSync (app w).
Proof.
  intros Hrec Hb Hlocal.
  assert (∀ cloudBudgets, mergeArrayData newDate (jsOr (budgets (app w)) (JArr []))
                            cloudBudgets "category" = Throw TypeError) as Hthrow.
  { intros cb. rewrite (jsOr_truthy _ _ (isRecord_truthy _ Hlocal)).
    by destruct (budgets (app w)). }
  unfold mergeCloudData.
  rewrite (isRecord_truthy _ Hrec). cbn [negb].
  rewrite !(getProp_record _ _ Hrec). run.
  destruct (truthy (field "transactions" cloudData)); run.
  - destruct (mergeArrayData newDate _ _ "id") as [merged|e] eqn:Hm; run.
    + rewrite run_setTransactions. cbv beta iota. run. rewrite Hb. run.
      cbn [app budgets]. rewrite Hthrow. run.
      eexists. split; [reflexivity|]. by repeat split.
    + apply mergeArrayData_throws in Hm as ->. exists w. by repeat split.
  - rewrite Hb. run. rewrite Hthrow. run. exists w. by repeat split.
Qed.

End SyncFacts.

(** X12. The merge at the level of the application.  A remote snapshot
    that carries transactions, and no budgets, categories or settings, is
    merged into the transactions of the state: they then hold the local
    ids, in order, followed by the remote ids that are new.  The other
    collections are left alone, and the merged transactions are written to
    the local storage. *)
Theorem mergeCloudData_merges_transactions
    (newDate : JsVal → option Z) (cloudData : JsVal) (localItems cloudItems : list JsVal)
    (now : string) (w : World) :
  isRecord cloudData = true →
  field "transactions" cloudData = JArr cloudItems →
  truthy (field "budgets" cloudData) = false →
  truthy (field "categories" cloudData) = false →
  truthy (field "settings" cloudData) = false →
  transactions (app w) = JArr localItems →
  records localItems → records cloudItems → noNaNKey "id" cloudItems →
  ∃ merged,
    (mergeCloudData newDate cloudData now w).1 = Normal ()
    ∧ transactions (app (mergeCloudData newDate cloudData now w).2) = JArr merged
    ∧ keysOf "id" merged
      = keysOf "id" localItems
          ++ List.filter (fun k => negb (setHas (keysOf "id" localItems) k))
               (keysOf "id" cloudItems)
    ∧ budgets (app (mergeCloudData newDate cloudData now w).2) = budgets (app w)
    ∧ settings (app (mergeCloudData newDate cloudData now w).2) = settings (app w)
    ∧ categories (app (mergeCloudData newDate cloudData now w).2) = categories (app w)
    ∧ (writable (localStorage w) = true →
       entries (localStorage (mergeCloudData newDate cloudData now w).2)
         !! "budgetApp_transactions"
       = Some (JSON_stringify (JArr merged))).
Proof.
  intros Hrec Hts Hb Hc Hs Hl Hlr Hcr Hnan.
  destruct (mergeArrayData_keys newDate "id" localItems cloudItems Hlr Hcr Hnan)
    as (merged & Hmerge & _ & Hkeys).
  exists merged.
  rewrite (mergeCloudData_transactions_run newDate cloudData (JArr cloudItems) now w
             (JArr merged)); try done; [|by rewrite Hl].
  match goal with |- context [saveData now ?w1] =>
    pose proof (saveData_app now w1) as [_ Hs2];
    pose proof (saveData_writes now w1 "budgetApp_transactions") as Hs3
  end.
  cbn [fst snd]. rewrite Hs2. cbn [app transactions budgets settings categories].
  split; [done|]. split; [done|]. split; [done|]. split; [done|]. split; [done|].
  split; [done|]. intros Hw. by rewrite Hs3.
Qed.

Lemma mergeCloudData_merges_transactions_witness :
  ∃ merged,
    (mergeCloudData hostDate cloudTransactionsOnly "2024-01-06T10:00:00.000Z"
       syncingWorld).1 = Normal ()
    ∧ transactions
        (app (mergeCloudData hostDate cloudTransactionsOnly "2024-01-06T10:00:00.000Z"
                syncingWorld).2) = JArr merged
    ∧ keysOf "id" merged
      = keysOf "id" [t1_local]
          ++ List.filter (fun k => negb (setHas (keysOf "id" [t1_local]) k))
               (keysOf "id" [t1_remote; t2_remote])
    ∧ budgets
        (app (mergeCloudData hostDate cloudTransactionsOnly "2024-01-06T10:00:00.000Z"
                syncingWorld).2) = budgets (app syncingWorld)
    ∧ settings
        (app (mergeCloudData hostDate cloudTransactionsOnly "2024-01-06T10:00:00.000Z"
                syncingWorld).2) = settings (app syncingWorld)
    ∧ categories
        (app (mergeCloudData hostDate cloudTransactionsOnly "2024-01-06T10:00:00.000Z"
                syncingWorld).2) = categories (app syncingWorld)
    ∧ (writable (localStorage syncingWorld) = true →
       entries
         (localStorage
            (mergeCloudData hostDate cloudTransactionsOnly "2024-01-06T10:00:00.000Z"
               syncingWorld).2) !! "budgetApp_transactions"
       = Some (JSON_stringify (JArr merged))).
Proof.
  apply (mergeCloudData_merges_transactions hostDate cloudTransactionsOnly
           [t1_local] [t1_remote; t2_remote] "2024-01-06T10:00:00.000Z" syncingWorld).
  - reflexivity.
  - reflexivity.
  - reflexivity.
  - reflexivity.
  - reflexivity.
  - reflexivity.
  - repeat constructor.
  - repeat constructor.
  - repeat constructor; vm_compute; discriminate.
Defined.

(** X14. A remote snapshot that carries budgets cannot be merged into a
    state whose budgets are an object, which is what the budgets are
    everywhere else in the script: the cycle reports failure, uploads
    nothing, writes nothing to the storages and does not set the time of the
    last sync.  (The client's [downloadFromCloud] always delivers the
    budgets as an object.) *)
Theorem performCloudSync_fails_on_cloud_budgets
    (newDate : JsVal → option Z) (sync : SupabaseSync) (now : string) (w : World)
    (cloudData : JsVal) :
  cloudSyncEnabled (app w) = true →
  downloadData sync = Normal cloudData →
  isRecord cloudData = true → truthy (field "budgets" cloudData) = true →
  isRecord (budgets (app w)) = true →
  (performCloudSync newDate (Some sync) now w).1 = Normal false
  ∧ sameStores w (performCloudSync newDate (Some sync) now w).2
  ∧ budgets (app (performCloudSync newDate (Some sync) now w).2) = budgets (app w)
  ∧ lastCloudSync (app (performCloudSync newDate (Some sync) now w).2)
    = lastCloudSync (app w).
Proof.
  intros Hen Hdl Hrec Hb Hlocal.
  destruct (mergeCloudData_cloud_budgets newDate cloudData now w Hrec Hb Hlocal)
    as (w' & Hmerge & Hstores & Hbs & _ & _ & Hlast).
  assert (performCloudSync newDate (Some sync) now w = (Normal false, w')) as ->.
  { unfold performCloudSync, tryCatchDo. run. rewrite Hen. cbn [negb]. run.
    rewrite Hdl. run. rewrite (isRecord_truthy _ Hrec). by rewrite Hmerge. }
  cbn [fst snd]. split; [reflexivity|]. split; [exact Hstores|]. split; [exact Hbs|exact Hlast].
Qed.

Lemma performCloudSync_fails_on_cloud_budgets_witness :
  (performCloudSync hostDate (Some workingRemote) "2024-01-06T10:00:00.000Z" syncingWorld).1
  = Normal false
  ∧ sameStores syncingWorld
      (performCloudSync hostDate (Some workingRemote) "2024-01-06T10:00:00.000Z"
         syncingWorld).2
  ∧ budgets
      (app (performCloudSync hostDate (Some workingRemote) "2024-01-06T10:00:00.000Z"
              syncingWorld).2) = budgets (app syncingWorld)
  ∧ lastCloudSync
      (app (performCloudSync hostDate (Some workingRemote) "2024-01-06T10:00:00.000Z"
              syncingWorld).2) = lastCloudSync (app syncingWorld).
Proof.
  apply (performCloudSync_fails_on_cloud_budgets hostDate workingRemote
           "2024-01-06T10:00:00.000Z" syncingWorld cloudSnapshot).
  - reflexivity.
  - reflexivity.
  - reflexivity.
  - reflexivity.
  - reflexivity.
Defined.

(** X15. A sync cycle reports success only when the remote store
    acknowledged the upload of the snapshot; the time of the last sync is
    then the time of the cycle. *)
Theorem performCloudSync_success_means_uploaded
    (newDate : JsVal → option Z) (supabaseSync : option SupabaseSync) (now : string)
    (w : World) :
  (performCloudSync newDate supabaseSync now w).1 = Normal true →
  ∃ sync data success,
    supabaseSync = Some sync
    ∧ cloudSyncEnabled (app w) = true
    ∧ uploadData sync data = Normal success ∧ truthy success = true
    ∧ lastCloudSync (app (performCloudSync newDate supabaseSync now w).2) = JStr now.
Proof.
  unfold performCloudSync, tryCatchDo. run.
  destruct supabaseSync as [sync|]; [|discriminate].
  destruct (cloudSyncEnabled (app w)) eqn:Hen; cbn [negb]; [|discriminate].
  run. destruct (downloadData sync) as [cloudData|e]; run; [|discriminate].
  destruct ((if truthy cloudData then mergeCloudData newDate cloudData now else mret ()) w)
    as [[[]|e] w1] eqn:Hmerge; [|discriminate].
  run. destruct (dataToSync_total now w1) as [data Hdata]. rewrite Hdata. run.
  destruct (uploadData sync data) as [success|e] eqn:Hup; run; [|discriminate].
  destruct (truthy success) eqn:Hs; run; [|discriminate].
  intros _. exists sync, data, success. by repeat split.
Qed.

Lemma performCloudSync_success_means_uploaded_witness :
  ∃ sync data success,
    Some failingDownload = Some sync
    ∧ cloudSyncEnabled (app syncingWorld) = true
    ∧ uploadData sync data = Normal success ∧ truthy success = true
    ∧ lastCloudSync
        (app (performCloudSync hostDate (Some failingDownload) "2024-01-05T10:00:00.000Z"
                syncingWorld).2) = JStr "2024-01-05T10:00:00.000Z".
Proof.
  apply (performCloudSync_success_means_uploaded hostDate (Some failingDownload)
           "2024-01-05T10:00:00.000Z" syncingWorld).
  reflexivity.
Defined.

(** ** Unique keys *)

(** ** Unique keys *)
Lemma selfEqualKeys_noNaN keyField l : selfEqualKeys keyField l → noNaNKey keyField l.
Proof.
  unfold selfEqualKeys, noNaNKey. intros H. eapply Forall_impl; [exact H|].
  intros item Hitem E. cbv beta in Hitem. rewrite E in Hitem. discriminate.
Qed.

(** X16. The merge keeps the keys unique.  When no two local records and
    no two remote records have the same key (the remote keys being strings,
    numbers other than NaN, booleans, [null] or [undefined]), no two records
    of the merged collection have the same key, and the merged collection has
    one record for each local record and one for each remote key that is
    new. *)
Theorem mergeArrayData_preserves_unique_keys
    (newDate : JsVal → option Z) (keyField : string) (localItems cloudItems : list JsVal) :
  records localItems → records cloudItems →
  selfEqualKeys keyField cloudItems →
  NoDup (keysOf keyField localItems) → NoDup (keysOf keyField cloudItems) →
  ∃ merged,
    mergeArrayData newDate (JArr localItems) (JArr cloudItems) keyField = Normal (JArr merged)
    ∧ NoDup (keysOf keyField merged)
    ∧ length merged
      = (length localItems
         + length (List.filter (fun k => negb (setHas (keysOf keyField localItems) k))
                     (keysOf keyField cloudItems)))%nat.
Proof.
  intros Hl Hc Hself Hnl Hnc.
  destruct (mergeArrayData_keys newDate keyField localItems cloudItems Hl Hc
              (selfEqualKeys_noNaN keyField _ Hself)) as (merged & Hrun & _ & Hkeys).
  exists merged. split; [done|]. split.
  - rewrite Hkeys. apply NoDup_app. split; [done|]. split; [|by apply NoDup_List_filter].
    intros k Hk Hk'. apply list_elem_of_In, filter_In in Hk' as [Hin Hno].
    apply list_elem_of_In in Hin. unfold keysOf in Hin.
    apply list_elem_of_fmap in Hin as (item & -> & Hitem).
    unfold selfEqualKeys in Hself. rewrite list.Forall_forall in Hself.
    rewrite (strictEq_refl_setHas _ _ (Hself _ Hitem) Hk) in Hno. discriminate.
  - apply (f_equal length) in Hkeys. unfold keysOf in Hkeys at 1 2.
    by rewrite length_app, !length_fmap in Hkeys.
Qed.

Lemma mergeArrayData_preserves_unique_keys_witness :
  ∃ merged,
    mergeArrayData hostDate (JArr [t1_local]) (JArr [t1_remote; t2_remote]) "id"
    = Normal (JArr merged)
    ∧ NoDup (keysOf "id" merged)
    ∧ length merged
      = (length [t1_local]
         + length (List.filter (fun k => negb (setHas (keysOf "id" [t1_local]) k))
                     (keysOf "id" [t1_remote; t2_remote])))%nat.
Proof.
  apply (mergeArrayData_preserves_unique_keys hostDate "id" [t1_local] [t1_remote; t2_remote]).
  - repeat constructor.
  - repeat constructor.
  - repeat constructor.
  - assert (keysOf "id" [t1_local] = [JStr "t1"]) as -> by (vm_compute; reflexivity).
    apply NoDup_singleton.
  - assert (keysOf "id" [t1_remote; t2_remote] = [JStr "t1"; JStr "t2"]) as ->
      by (vm_compute; reflexivity).
    apply NoDup_cons. split; [|apply NoDup_singleton].
    intros H. apply list_elem_of_singleton in H. discriminate.
Defined.

(** Without that, the keys can repeat: two remote records with the same
    new key are both appended, since the set of local keys is built once,
    before the loop. *)
Example mergeArrayData_appends_remote_duplicates :
  mergeArrayData hostDate (JArr [t1_local]) (JArr [t2_remote; t2_remote]) "id"
  = Normal (JArr [t1_local; t2_remote; t2_remote]).
Proof. vm_compute. reflexivity. Qed.

(** ** The device identifier *)

(** X17. The device identifier is generated once.  When a call of
    [generateDeviceId] returns an identifier, the storage holds it, and
    every later call returns the same identifier and leaves the storage
    alone, whatever the clock and the random number are by then. *)
Theorem generateDeviceId_stable
    (now random now' random' : string) (st st' : Storage) (deviceId : Text) :
  generateDeviceId now random st = Normal (deviceId, st') →
  entries st' !! "budget_device_id" = Some deviceId
  ∧ generateDeviceId now' random' st' = Normal (deviceId, st').
Proof.
  unfold generateDeviceId, getItem, setItem.
  destruct st as [e r wr]. cbn [readable writable entries].
  destruct r; [|discriminate]. cbn [mbind Completion_bind mret Completion_ret].
  destruct (e !! "budget_device_id") as [t|] eqn:He.
  - destruct (textTruthy t) eqn:Ht.
    + intros [= <- <-]. cbn [readable entries]. split; [done|].
      cbn [mbind Completion_bind]. by rewrite He, Ht.
    + destruct wr; [|discriminate]. intros [= <- <-]. cbn [readable entries writable].
      rewrite lookup_insert_eq. split; [done|]. reflexivity.
  - destruct wr; [|discriminate]. intros [= <- <-]. cbn [readable entries writable].
    rewrite lookup_insert_eq. split; [done|]. reflexivity.
Qed.

Lemma generateDeviceId_stable_witness :
  entries {| entries := {["budget_device_id" := RawText "device_1704067200000_k3j9x2m1p"]};
             readable := true; writable := true |} !! "budget_device_id"
  = Some (RawText "device_1704067200000_k3j9x2m1p")
  ∧ generateDeviceId "1704153600000" "zzzzzzzzz"
      {| entries := {["budget_device_id" := RawText "device_1704067200000_k3j9x2m1p"]};
         readable := true; writable := true |}
    = Normal (RawText "device_1704067200000_k3j9x2m1p",
              {| entries := {["budget_device_id" := RawText "device_1704067200000_k3j9x2m1p"]};
                 readable := true; writable := true |}).
Proof.
  apply (generateDeviceId_stable "1704067200000" "k3j9x2m1p" "1704153600000" "zzzzzzzzz"
           emptyStorage).
  vm_compute. reflexivity.
Defined.

(** ** The older copy: export and restore *)

(** ** Export and restore in the older copy *)
Lemma Legacy_saveData_app w : app (Legacy.saveData w).2 = app w.
Proof.
  destruct w as [a [le lr lw] se]. destruct lw; reflexivity.
Qed.

Lemma handleSyncFileRestore_run result data ts bs ss w :
  JSON_parse result = Normal data → truthy data = true →
  getProp data "transactions" = Normal ts → truthy ts = true →
  getProp data "budgets" = Normal bs → truthy bs = true →
  getProp data "settings" = Normal ss → truthy ss = true →
  (Legacy.handleSyncFileRestore (Some result) true w).1 = Normal ()
  ∧ transactions (app (Legacy.handleSyncFileRestore (Some result) true w).2) = ts
  ∧ budgets (app (Legacy.handleSyncFileRestore (Some result) true w).2) = bs
  ∧ settings (app (Legacy.handleSyncFileRestore (Some result) true w).2)
    = JObj (objSpread ss ∪ objSpread (settings (app w)))
  ∧ categories (app (Legacy.handleSyncFileRestore (Some result) true w).2)
    = jsOr (tryCatch (getProp data "categories") JUndefined) (categories (app w))
  ∧ Legacy.handleSyncFileRestore (Some result) false w = (Normal (), w).
Proof.
  intros Hparse Hdata Hts Htt Hbs Hbt Hss Hst.
  destruct (getProp_total data "backupDate" Hdata) as [bd Hbd].
  destruct (getProp_total data "exportDate" Hdata) as [ed Hed].
  destruct (getProp_total data "categories" Hdata) as [cs Hcs].
  destruct (getProp_total ts "length" Htt) as [len Hlen].
  destruct (objectKeys_total bs Hbt) as [keys Hkeys].
  assert (∀ confirmed,
            Legacy.handleSyncFileRestore (Some result) confirmed w =
              if confirmed
              then
                match Legacy.saveData
                        {| app := {| transactions := ts; budgets := bs;
                                     settings := JObj (objSpread ss ∪ objSpread (settings (app w)));
                                     categories := jsOr cs (categories (app w));
                                     cloudSyncEnabled := cloudSyncEnabled (app w);
                                     lastCloudSync := lastCloudSync (app w) |};
                           localStorage := localStorage w;
                           sessionStorage := sessionStorage w |} with
                | (Throw _, w') => (Normal (), w')
                | r => r
                end
              else (Normal (), w)) as Hrun.
  { intros confirmed. unfold Legacy.handleSyncFileRestore, tryCatchDo.
    run. rewrite Hparse. run. rewrite Hts. run. rewrite Htt. cbn [negb]. run.
    rewrite Hbs. run. rewrite Hbt. cbn [negb]. run.
    rewrite Hss. run. rewrite Hst. cbn [negb]. run.
    rewrite Hbd. run. rewrite Hed. run. rewrite Hlen. run. rewrite Hkeys. run.
    destruct confirmed; [|by run].
    run. rewrite run_setTransactions. cbv beta iota. run.
    rewrite run_setBudgets. cbv beta iota. run.
    cbn [app settings]. rewrite run_setSettings. cbv beta iota. run.
    rewrite Hcs. run. cbn [app categories]. rewrite run_setCategories. cbv beta iota.
    cbn [app localStorage sessionStorage transactions budgets settings categories
         cloudSyncEnabled lastCloudSync].
    rewrite !jsOr_truthy by done. reflexivity. }
  rewrite !Hrun. rewrite Hcs. cbn [tryCatch].
  match goal with |- context [Legacy.saveData ?w1] =>
    pose proof (Legacy_saveData_app w1) as Happ;
    destruct (Legacy.saveData w1) as [[[]|e] w2]
  end; cbn [fst snd] in *; rewrite Happ; by repeat split.
Qed.

(** X18. The older copy's export carries the transactions, the budgets
    and the settings, not the categories.  Restored into another state,
    after the user's confirmation, it reproduces the transactions and the
    budgets of the exported (well-formed) state; the settings of the export
    are laid over the settings of that other state, so that a field which
    only that state has stays; and the categories of that state stay as they
    are.  When the user declines, nothing changes. *)
Theorem Legacy_export_then_restore (now : string) (w target : World) :
  wellFormed (app w) →
  ∃ snapshot,
    Legacy.exportData now w = (Normal snapshot, w)
    ∧ (Legacy.handleSyncFileRestore (Some snapshot) true target).1 = Normal ()
    ∧ transactions (app (Legacy.handleSyncFileRestore (Some snapshot) true target).2)
      = transactions (app w)
    ∧ budgets (app (Legacy.handleSyncFileRestore (Some snapshot) true target).2)
      = budgets (app w)
    ∧ settings (app (Legacy.handleSyncFileRestore (Some snapshot) true target).2)
      = JObj (objSpread (settings (app w)) ∪ objSpread (settings (app target)))
    ∧ categories (app (Legacy.handleSyncFileRestore (Some snapshot) true target).2)
      = categories (app target)
    ∧ Legacy.handleSyncFileRestore (Some snapshot) false target = (Normal (), target).
Proof.
  intros (Hta & Hbr & Hsr & Hcr & Htj & Hbj & Hsj & Hcj).
  set (data := [("transactions", transactions (app w)); ("budgets", budgets (app w));
                ("settings", settings (app w)); ("exportDate", JStr now)]).
  exists (JSON_stringify (obj data)). split; [reflexivity|].
  assert (∀ p v, (list_to_map data : gmap string JsVal) !! p = Some v → JsonValue v →
            getProp (toJSON (obj data)) p = Normal v) as Hfield
    by (intros; by apply snapshot_field).
  destruct (handleSyncFileRestore_run (JSON_stringify (obj data)) (toJSON (obj data))
              (transactions (app w)) (budgets (app w)) (settings (app w)) target
              eq_refl eq_refl
              (Hfield "transactions" (transactions (app w)) eq_refl Htj)
              (isArray_truthy _ Hta)
              (Hfield "budgets" (budgets (app w)) eq_refl Hbj) (isRecord_truthy _ Hbr)
              (Hfield "settings" (settings (app w)) eq_refl Hsj) (isRecord_truthy _ Hsr))
    as (H0 & H1 & H2 & H3 & H4 & H5).
  split; [exact H0|]. split; [exact H1|]. split; [exact H2|]. split; [exact H3|].
  split; [|exact H5].
  rewrite H4.
  assert (getProp (toJSON (obj data)) "categories" = Normal JUndefined) as ->.
  { simpl. rewrite lookup_omap. reflexivity. }
  reflexivity.
Qed.

Lemma Legacy_export_then_restore_witness :
  ∃ snapshot,
    Legacy.exportData "2024-01-05T10:00:00.000Z" sampleWorld = (Normal snapshot, sampleWorld)
    ∧ (Legacy.handleSyncFileRestore (Some snapshot) true worldWithTheme).1 = Normal ()
    ∧ transactions (app (Legacy.handleSyncFileRestore (Some snapshot) true worldWithTheme).2)
      = transactions (app sampleWorld)
    ∧ budgets (app (Legacy.handleSyncFileRestore (Some snapshot) true worldWithTheme).2)
      = budgets (app sampleWorld)
    ∧ settings (app (Legacy.handleSyncFileRestore (Some snapshot) true worldWithTheme).2)
      = JObj (objSpread (settings (app sampleWorld))
              ∪ objSpread (settings (app worldWithTheme)))
    ∧ categories (app (Legacy.handleSyncFileRestore (Some snapshot) true worldWithTheme).2)
      = categories (app worldWithTheme)
    ∧ Legacy.handleSyncFileRestore (Some snapshot) false worldWithTheme
      = (Normal (), worldWithTheme).
Proof.
  apply (Legacy_export_then_restore "2024-01-05T10:00:00.000Z" sampleWorld worldWithTheme).
  exact sampleApp_wellFormed.
Defined.

(** The restored state of that example: the threshold is that of the
    export, the theme of the target state is still there, and so is its
    category [Rent]. *)
Example Legacy_restore_keeps_target_fields :
  ∃ snapshot,
    Legacy.exportData "2024-01-05T10:00:00.000Z" sampleWorld = (Normal snapshot, sampleWorld)
    ∧ field "lowBalanceThreshold"
        (settings (app (Legacy.handleSyncFileRestore (Some snapshot) true worldWithTheme).2))
      = num 100
    ∧ field "theme"
        (settings (app (Legacy.handleSyncFileRestore (Some snapshot) true worldWithTheme).2))
      = JStr "dark"
    ∧ field "expense"
        (categories (app (Legacy.handleSyncFileRestore (Some snapshot) true worldWithTheme).2))
      = strings ["Food"; "Rent"].
Proof. eexists. split; [reflexivity|]. repeat split; vm_compute; reflexivity. Qed.

(** ** The backup copy: validation, save and load *)

(** ** The validation of loaded data in the backup copy *)
Lemma keepTransaction_keeps t : ScriptBackup.keepTransaction t = Normal (keeps t).
Proof.
  unfold keeps, ScriptBackup.keepTransaction.
  destruct (truthy t) eqn:Ht; simpl; [|reflexivity].
  destruct (getProp_total t "amount" Ht) as [a ->].
  destruct (getProp_total t "type" Ht) as [ty ->].
  destruct (getProp_total t "category" Ht) as [c ->]. simpl.
  repeat (match goal with
          | |- context [if ?c then _ else _] => destruct c; simpl
          end); reflexivity.
Qed.

Lemma keeps_sound t : keeps t = true → soundTransaction t.
Proof.
  unfold keeps, ScriptBackup.keepTransaction.
  destruct (truthy t) eqn:Ht; cbn; [|discriminate].
  destruct (getProp_total t "amount" Ht) as [a Ha].
  destruct (getProp_total t "type" Ht) as [ty Hty].
  destruct (getProp_total t "category" Ht) as [c Hc].
  rewrite Ha, Hty, Hc. unfold mbind, Completion_bind, mret, Completion_ret, tryCatch.
  destruct (ScriptBackup.typeofNumber a) eqn:Hnum; cbn [negb]; [|discriminate].
  destruct (ScriptBackup.geZero a) eqn:Hn; cbn [negb]; [|discriminate].
  destruct (truthy ty) eqn:Hty'; cbn [negb]; [|discriminate].
  intros Hc'. destruct a as [| | |n| | |]; try discriminate.
  exists n, ty, c. by repeat split.
Qed.

Lemma filterM_keepTransaction l :
  filterM ScriptBackup.keepTransaction l = Normal (List.filter keeps l).
Proof.
  induction l as [|x l IH]; simpl; [done|].
  rewrite keepTransaction_keeps, IH. simpl. by destruct (keeps x).
Qed.

Lemma categoriesInvalid_total cs : ∃ b, ScriptBackup.categoriesInvalid cs = Normal b.
Proof.
  unfold ScriptBackup.categoriesInvalid.
  destruct (truthy cs) eqn:Ht; simpl; [|by eexists].
  destruct (getProp_total cs "expense" Ht) as [e ->].
  destruct (getProp_total cs "income" Ht) as [i ->]. simpl.
  destruct (truthy e); simpl; by eexists.
Qed.

Lemma validateData_run w :
  ScriptBackup.validateData w =
    (Normal (), {| app := validated (app w); localStorage := localStorage w;
                   sessionStorage := sessionStorage w |}).
Proof.
  destruct w as [[ts bs ss cs en last] le se].
  destruct (categoriesInvalid_total cs) as [invalid Hinv].
  unfold ScriptBackup.validateData, validated.
  cbn [app transactions budgets settings categories cloudSyncEnabled lastCloudSync
       localStorage sessionStorage].
  rewrite Hinv. cbn [tryCatch]. run.
  cbn [app transactions budgets settings categories cloudSyncEnabled lastCloudSync
       localStorage sessionStorage].
  assert (∀ (c : bool) (f g : Action unit) (w0 : World),
            (if c then f else g) w0 = if c then f w0 else g w0) as Hif
    by (by intros []).
  rewrite !Hif, !run_ret. rewrite run_setTransactions.
  destruct (isArray ts) eqn:Hts; cbn [negb]; run;
    cbn [app transactions budgets settings categories cloudSyncEnabled lastCloudSync
         localStorage sessionStorage];
    rewrite !Hif, !run_ret, ?run_setBudgets;
    (destruct (negb (typeofObject bs) || strictEq bs JNull); run;
     cbn [app transactions budgets settings categories cloudSyncEnabled lastCloudSync
          localStorage sessionStorage];
     rewrite Hinv; run; rewrite !Hif, !run_ret, ?run_setCategories;
     destruct invalid; run;
     cbn [app transactions budgets settings categories cloudSyncEnabled lastCloudSync
          localStorage sessionStorage];
     unfold arrayFilter;
     destruct ts; try discriminate;
     rewrite ?filterM_keepTransaction; reflexivity).
Qed.

(** X19. After [validateData] the state has the shape that the rest of
    the script relies on.  The transactions are an array of transactions
    with a numeric amount that is not negative, a type and a category: every
    such transaction of the array that was there is kept, in order, and
    nothing else.  The budgets are an object in the sense of [typeof], and
    not [null]; the categories have their two lists.  The validation never throws, leaves the storages alone, and
    a second validation changes nothing. *)
Theorem validateData_establishes_invariant (w : World) :
  ∃ kept,
    (ScriptBackup.validateData w).1 = Normal ()
    ∧ transactions (app (ScriptBackup.validateData w).2) = JArr kept
    ∧ Forall soundTransaction kept
    ∧ (∀ l, transactions (app w) = JArr l →
         kept `sublist_of` l
         ∧ ∀ t, t ∈ l → ScriptBackup.keepTransaction t = Normal true → t ∈ kept)
    ∧ typeofObject (budgets (app (ScriptBackup.validateData w).2)) = true
    ∧ budgets (app (ScriptBackup.validateData w).2) ≠ JNull
    ∧ ScriptBackup.categoriesInvalid (categories (app (ScriptBackup.validateData w).2))
      = Normal false
    ∧ sameStores w (ScriptBackup.validateData w).2
    ∧ ScriptBackup.validateData (ScriptBackup.validateData w).2
      = (Normal (), (ScriptBackup.validateData w).2).
Proof.
  rewrite validateData_run. cbn [fst snd app localStorage sessionStorage].
  eexists. split; [reflexivity|]. split; [reflexivity|]. split.
  { apply list.Forall_forall. intros t Ht.
    apply list_elem_of_In, filter_In in Ht as [_ Ht]. by apply keeps_sound. }
  split.
  { intros l ->. split; [apply List_filter_sublist|].
    intros t Ht Hk. apply list_elem_of_In, filter_In. split; [by apply list_elem_of_In|].
    unfold keeps. by rewrite Hk. }
  assert (typeofObject (budgets (validated (app w))) = true
          ∧ budgets (validated (app w)) ≠ JNull) as [Hb1 Hb2].
  { unfold validated. cbn [budgets]. by destruct (budgets (app w)). }
  assert (ScriptBackup.categoriesInvalid (categories (validated (app w))) = Normal false)
    as Hc.
  { unfold validated. cbn [categories].
    destruct (categoriesInvalid_total (categories (app w))) as [[] Hinv];
      rewrite Hinv; cbn [tryCatch]; [reflexivity|done]. }
  split; [exact Hb1|]. split; [exact Hb2|]. split; [exact Hc|]. split; [done|].
  rewrite validateData_run. cbn [app localStorage sessionStorage]. f_equal. f_equal.
  unfold validated at 1. rewrite Hc. cbn [tryCatch].
  assert (negb (typeofObject (budgets (validated (app w))))
          || strictEq (budgets (validated (app w))) JNull = false) as ->.
  { rewrite Hb1. cbn [negb orb]. by destruct (budgets (validated (app w))). }
  destruct (validated (app w)) as [ts bs ss cs en last] eqn:Hv.
  cbn [transactions budgets settings categories cloudSyncEnabled lastCloudSync].
  f_equal.
  assert (ts = transactions (validated (app w))) as -> by (by rewrite Hv).
  unfold validated. cbn [transactions]. f_equal.
  generalize (match transactions (app w) with JArr l => l | _ => [] end). intros l.
  induction l as [|x l IH]; simpl; [done|].
  destruct (keeps x) eqn:Hx; simpl; [by rewrite Hx, IH|done].
Qed.

(** What [loadData(key, defaultValue)] returns for a stored JSON value. *)
Lemma ScriptBackup_loadData_stored (useSession : bool) key dflt (w : World) v :
  readable (if useSession then sessionStorage w else localStorage w) = true →
  entries (if useSession then sessionStorage w else localStorage w) !! key
    = Some (JsonText v) →
  ScriptBackup.loadData useSession key dflt w = if strictEq v JNull then dflt else v.
Proof.
  intros Hr He. unfold ScriptBackup.loadData, tryCatch, getItem.
  rewrite Hr. cbn [mbind Completion_bind]. rewrite He.
  destruct v; reflexivity.
Qed.

(** The entries of the storage that took the save. *)
Lemma ScriptBackup_saveData_entries (useSessionStorage : bool) (w : World) :
  (if useSessionStorage then writable (sessionStorage w)
   else writable (localStorage w) || writable (sessionStorage w)) = true →
  ∃ flag w',
    ScriptBackup.saveData useSessionStorage w = (Normal flag, w')
    ∧ app w' = app w
    ∧ readable (sessionStorage w') = readable (sessionStorage w)
    ∧ readable (localStorage w') = readable (localStorage w)
    ∧ flag = (if useSessionStorage then true else negb (writable (localStorage w)))
    ∧ ∀ key v,
        (key, v) ∈ [("transactions", transactions (app w)); ("budgets", budgets (app w));
                    ("settings", settings (app w)); ("categories", categories (app w))] →
        entries (if flag then sessionStorage w' else localStorage w') !! key
        = Some (JSON_stringify v).
Proof.
  destruct w as [a [le lr lw] [se sr sw]].
  cbn [writable sessionStorage localStorage].
  destruct useSessionStorage, lw, sw; try discriminate; intros _;
    (eexists _, _; split; [reflexivity|]; split; [reflexivity|]; split; [reflexivity|];
     split; [reflexivity|]; split; [reflexivity|];
     intros key v Hin;
     cbn [negb entries sessionStorage localStorage];
     repeat (apply elem_of_cons in Hin as [[= -> ->]|Hin]; [by simplify_map_eq|]);
     by apply elem_of_nil in Hin).
Qed.

(** X20. A save followed by loads, in the backup copy.  Whichever
    storage took the save (the one in use, or the session storage as the
    fallback, which is then the one in use), each of the four collections of
    a well-formed state is loaded back as it was saved. *)
Theorem ScriptBackup_saveData_then_loadData (useSessionStorage : bool) (w : World) :
  wellFormed (app w) →
  readable (localStorage w) = true → readable (sessionStorage w) = true →
  (if useSessionStorage then writable (sessionStorage w)
   else writable (localStorage w) || writable (sessionStorage w)) = true →
  ∃ flag w',
    ScriptBackup.saveData useSessionStorage w = (Normal flag, w')
    ∧ app w' = app w
    ∧ (∀ dflt, ScriptBackup.loadData flag "transactions" dflt w' = transactions (app w))
    ∧ (∀ dflt, ScriptBackup.loadData flag "budgets" dflt w' = budgets (app w))
    ∧ (∀ dflt, ScriptBackup.loadData flag "settings" dflt w' = settings (app w))
    ∧ (∀ dflt, ScriptBackup.loadData flag "categories" dflt w' = categories (app w)).
Proof.
  intros (Hta & Hbr & Hsr & Hcr & Htj & Hbj & Hsj & Hcj) Hlr Hsr' Hw.
  destruct (ScriptBackup_saveData_entries useSessionStorage w Hw)
    as (flag & w' & Hrun & Happ & Hrs & Hrl & _ & Hentries).
  exists flag, w'. split; [done|]. split; [done|].
  assert (readable (if flag then sessionStorage w' else localStorage w') = true) as Hr
    by (destruct flag; congruence).
  assert (∀ key v dflt,
            (key, v) ∈ [("transactions", transactions (app w)); ("budgets", budgets (app w));
                        ("settings", settings (app w)); ("categories", categories (app w))] →
            JsonValue v → v ≠ JNull →
            ScriptBackup.loadData flag key dflt w' = v) as Hload.
  { intros key v dflt Hin Hv Hnull.
    rewrite (ScriptBackup_loadData_stored flag key dflt w' v Hr).
    - destruct v; try reflexivity. done.
    - rewrite (Hentries key v Hin). by rewrite JSON_stringify_JsonValue. }
  split; [|split; [|split]]; intros dflt; apply Hload; try done; try set_solver.
  - by destruct (transactions (app w)).
  - by destruct (budgets (app w)).
  - by destruct (settings (app w)).
  - by destruct (categories (app w)).
Qed.

Lemma ScriptBackup_saveData_then_loadData_witness :
  ∃ flag w',
    ScriptBackup.saveData false fullLocalStorageWorld = (Normal flag, w')
    ∧ app w' = app fullLocalStorageWorld
    ∧ (∀ dflt, ScriptBackup.loadData flag "transactions" dflt w'
               = transactions (app fullLocalStorageWorld))
    ∧ (∀ dflt, ScriptBackup.loadData flag "budgets" dflt w'
               = budgets (app fullLocalStorageWorld))
    ∧ (∀ dflt, ScriptBackup.loadData flag "settings" dflt w'
               = settings (app fullLocalStorageWorld))
    ∧ (∀ dflt, ScriptBackup.loadData flag "categories" dflt w'
               = categories (app fullLocalStorageWorld)).
Proof.
  apply (ScriptBackup_saveData_then_loadData false fullLocalStorageWorld).
  - exact sampleApp_wellFormed.
  - reflexivity.
  - reflexivity.
  - reflexivity.
Defined.
